(** * I-765 form tooling: field mapper, PDF filler and applicant profile

    A shallow embedding of [src/core/field-mapper.js],
    [src/core/pdf-processor.js], [src/form-main/core/data-models.js] and the
    date and profile checks of the validation engine
    ([src/unnamed/part_001]), followed by the properties of the
    specification that concern them and by further properties of the same
    code.

    Modelling conventions.
    - JavaScript values are the data values a profile, a schema or a form-data
      object holds: primitives, plain objects, arrays and [Date] objects.
      Objects are trees (no sharing between sub-objects) and carry their own
      properties only; members inherited from the built-in prototypes
      ([toString], [constructor], ...) are outside the model.
    - Numbers are the integers, printed in decimal (as JavaScript prints
      them below [10^21]); strings are sequences of 8-bit characters, and
      case conversion acts on the ASCII letters.
    - The members of an object are kept in the order they were created in,
      which is the order they are enumerated in when no key is an array
      index.
    - The PDF library is a parameter: a small model of the interface the
      processor uses, with the byte format left to a [Codec].
    - An exception is a value of [js_error]; code that can throw returns a
      [result], and code that mutates before it throws returns the mutated
      structure together with the error. *)

From Stdlib Require Import ZArith List String Ascii Bool Lia.
From Stdlib Require Import DecimalString.
Import ListNotations.
Set Warnings "-register-all".
Local Open Scope string_scope.
Local Open Scope Z_scope.

(* ===================================================================== *)
(** ** Strings *)

Module Str.

Definition is_digit (c : ascii) : bool :=
  let n := nat_of_ascii c in (48 <=? n)%nat && (n <=? 57)%nat.

Definition is_lower (c : ascii) : bool :=
  let n := nat_of_ascii c in (97 <=? n)%nat && (n <=? 122)%nat.

Definition is_upper (c : ascii) : bool :=
  let n := nat_of_ascii c in (65 <=? n)%nat && (n <=? 90)%nat.

Definition is_alnum (c : ascii) : bool :=
  is_digit c || is_lower c || is_upper c.

Fixpoint forallb (p : ascii -> bool) (s : string) : bool :=
  match s with
  | EmptyString => true
  | String c r => p c && forallb p r
  end.

Fixpoint map (f : ascii -> ascii) (s : string) : string :=
  match s with
  | EmptyString => EmptyString
  | String c r => String (f c) (map f r)
  end.

Fixpoint filter (p : ascii -> bool) (s : string) : string :=
  match s with
  | EmptyString => EmptyString
  | String c r => if p c then String c (filter p r) else filter p r
  end.

(** [/^\d+$/]: one or more digits and nothing else. *)
Definition all_digits (s : string) : bool :=
  match s with
  | EmptyString => false
  | _ => forallb is_digit s
  end.

Definition lower_char (c : ascii) : ascii :=
  if is_upper c then ascii_of_nat (nat_of_ascii c + 32) else c.

Definition upper_char (c : ascii) : ascii :=
  if is_lower c then ascii_of_nat (nat_of_ascii c - 32) else c.

Definition toLowerCase : string -> string := map lower_char.
Definition toUpperCase : string -> string := map upper_char.

(** [s.replace(/\./g, r)] for a replacement [r] of at most one character. *)
Fixpoint replace_dots (r : string) (s : string) : string :=
  match s with
  | EmptyString => EmptyString
  | String c rest =>
      if Ascii.eqb c "."%char then r ++ replace_dots r rest
      else String c (replace_dots r rest)
  end.

(** [s.replace(/[^a-zA-Z0-9]/g, '')]. *)
Definition strip_non_alnum : string -> string := filter is_alnum.

(** [s.includes(sub)]. *)
Fixpoint includes (s sub : string) : bool :=
  String.prefix sub s ||
  match s with
  | EmptyString => false
  | String _ r => includes r sub
  end.

(** [s.split(sep)] for a one-character separator: never empty, and an
    empty piece is kept wherever two separators touch. *)
Fixpoint split_aux (sep : ascii) (acc : string) (s : string) : list string :=
  match s with
  | EmptyString => [acc]
  | String c r =>
      if Ascii.eqb c sep then acc :: split_aux sep EmptyString r
      else split_aux sep (acc ++ String c EmptyString) r
  end.

Definition split (sep : ascii) (s : string) : list string :=
  split_aux sep EmptyString s.

Definition digit_val (c : ascii) : Z := Z.of_nat (nat_of_ascii c) - 48.

Fixpoint parse_digits (acc : Z) (s : string) : Z :=
  match s with
  | EmptyString => acc
  | String c r => parse_digits (10 * acc + digit_val c) r
  end.

(** [parseInt(s, 10)] and [Number(s)] on a string of digits. *)
Definition parseInt (s : string) : Z := parse_digits 0 s.

(** [String(n)] for an integer. *)
Definition of_Z (n : Z) : string := NilZero.string_of_int (Z.to_int n).

(** [s.padStart(2, '0')]. *)
Definition padStart2 (s : string) : string :=
  match s with
  | EmptyString => "00"
  | String c EmptyString => String "0"%char s
  | _ => s
  end.

Fixpoint join (sep : string) (l : list string) : string :=
  match l with
  | [] => EmptyString
  | [x] => x
  | x :: r => x ++ sep ++ join sep r
  end.

(** [/^\d{4}-\d{2}-\d{2}$/] *)
Definition is_iso_date (s : string) : bool :=
  match s with
  | String y1 (String y2 (String y3 (String y4 (String d1
      (String m1 (String m2 (String d2
      (String a1 (String a2 EmptyString))))))))) =>
      is_digit y1 && is_digit y2 && is_digit y3 && is_digit y4 &&
      Ascii.eqb d1 "-"%char && is_digit m1 && is_digit m2 &&
      Ascii.eqb d2 "-"%char && is_digit a1 && is_digit a2
  | _ => false
  end.

(** [/^\d{2}\/\d{2}\/\d{4}$/] *)
Definition is_mdy_date (s : string) : bool :=
  match s with
  | String m1 (String m2 (String d1 (String a1 (String a2
      (String d2 (String y1 (String y2
      (String y3 (String y4 EmptyString))))))))) =>
      is_digit m1 && is_digit m2 && Ascii.eqb d1 "/"%char &&
      is_digit a1 && is_digit a2 && Ascii.eqb d2 "/"%char &&
      is_digit y1 && is_digit y2 && is_digit y3 && is_digit y4
  | _ => false
  end.

(** The ten digits, and the tests that printing undoes reading on every
    string of two digits and on every string of four digits from 1000 on. *)
Definition digit_chars : list ascii :=
  ["0"; "1"; "2"; "3"; "4"; "5"; "6"; "7"; "8"; "9"]%char.

Definition two_digits_print : bool :=
  List.forallb (fun a => List.forallb (fun b =>
    let s := String a (String b EmptyString) in
    String.eqb (padStart2 (of_Z (parseInt s))) s) digit_chars) digit_chars.

Definition four_digits_print : bool :=
  List.forallb (fun a => List.forallb (fun b =>
  List.forallb (fun c => List.forallb (fun d =>
    let s := String a (String b (String c (String d EmptyString))) in
    implb (1000 <=? parseInt s) (String.eqb (of_Z (parseInt s)) s))
    digit_chars) digit_chars) digit_chars) digit_chars.

End Str.

(* ===================================================================== *)
(** ** JavaScript values *)

Module JS.

(** The local calendar fields of a [Date]: what [getFullYear], [getMonth]
    (0 to 11) and [getDate] return, and the milliseconds since local
    midnight. *)
Record date_time : Type :=
  { dt_year : Z; dt_month : Z; dt_day : Z; dt_ms : Z }.

Inductive value : Type :=
| VUndefined
| VNull
| VBool (b : bool)
| VNum (n : Z)
| VStr (s : string)
| VObj (props : list (string * value))
| VArr (elems : list value) (props : list (string * value))
| VDate (t : option date_time) (props : list (string * value)).

Inductive js_error : Type :=
| TypeError
| RangeError
| Error (msg : string).

Inductive result (A : Type) : Type :=
| Ok (a : A)
| Throw (e : js_error).
Arguments Ok {A} a.
Arguments Throw {A} e.

Definition bind {A B} (r : result A) (k : A -> result B) : result B :=
  match r with
  | Ok a => k a
  | Throw e => Throw e
  end.

(** What the host decides: how [new Date(string)] reads a string that is
    in neither of the two fixed formats ([None] is an invalid date), and
    how a valid [Date] prints. *)
Class Host : Type :=
  { Date_parse : string -> option date_time;
    Date_toString : date_time -> string }.

Definition truthy (v : value) : bool :=
  match v with
  | VUndefined | VNull => false
  | VBool b => b
  | VNum n => negb (n =? 0)
  | VStr s => negb (String.eqb s "")
  | VObj _ | VArr _ _ | VDate _ _ => true
  end.

(** [typeof v === 'object'] *)
Definition typeof_object (v : value) : bool :=
  match v with
  | VNull | VObj _ | VArr _ _ | VDate _ _ => true
  | _ => false
  end.



Definition isArray (v : value) : bool :=
  match v with VArr _ _ => true | _ => false end.

Definition is_undefined (v : value) : bool :=
  match v with VUndefined => true | _ => false end.

(** [a === b].  Two objects are equal when they are the same object; the
    operands compared in this code come from different structures, so
    two objects compare unequal. *)
Definition strict_eq (a b : value) : bool :=
  match a, b with
  | VUndefined, VUndefined => true
  | VNull, VNull => true
  | VBool x, VBool y => Bool.eqb x y
  | VNum x, VNum y => x =? y
  | VStr x, VStr y => String.eqb x y
  | _, _ => false
  end.

Section WithHost.
Context {host : Host}.

(** [String(v)] *)
Fixpoint to_string (v : value) : string :=
  match v with
  | VUndefined => "undefined"
  | VNull => "null"
  | VBool true => "true"
  | VBool false => "false"
  | VNum n => Str.of_Z n
  | VStr s => s
  | VObj _ => "[object Object]"
  | VArr elems _ =>
      Str.join ","
        (List.map (fun e => match e with
                            | VUndefined | VNull => ""
                            | _ => to_string e
                            end) elems)
  | VDate (Some t) _ => Date_toString t
  | VDate None _ => "Invalid Date"
  end.
End WithHost.

(** *** Own properties *)

(** The entries of an object, in the order [Object.entries] enumerates
    string keys: assignment keeps the position of a key that exists and
    appends a new one. *)
Fixpoint entries_get {A} (es : list (string * A)) (k : string) : option A :=
  match es with
  | [] => None
  | (k', v) :: r => if String.eqb k' k then Some v else entries_get r k
  end.

Fixpoint entries_set {A} (es : list (string * A)) (k : string) (x : A)
  : list (string * A) :=
  match es with
  | [] => [(k, x)]
  | (k', v) :: r =>
      if String.eqb k' k then (k', x) :: r else (k', v) :: entries_set r k x
  end.

Definition props_get (props : list (string * value)) (k : string) : value :=
  match entries_get props k with
  | Some v => v
  | None => VUndefined
  end.

Definition props_set (props : list (string * value)) (k : string) (x : value)
  : list (string * value) :=
  entries_set props k x.

(** A property key is an array index when it is the decimal numeral of an
    integer below [2^32 - 1]. *)
Definition array_index (k : string) : option nat :=
  if Str.all_digits k && String.eqb (Str.of_Z (Str.parseInt k)) k
     && (Str.parseInt k <? 4294967295)
  then Some (Z.to_nat (Str.parseInt k)) else None.

Definition elems_set (elems : list value) (i : nat) (x : value) : list value :=
  if (i <? List.length elems)%nat
  then firstn i elems ++ x :: skipn (S i) elems
  else elems ++ repeat VUndefined (i - List.length elems) ++ [x].

Definition elems_resize (elems : list value) (n : nat) : list value :=
  firstn n elems ++ repeat VUndefined (n - List.length elems).

(** [ToNumber] where it is an integer.  Of the strings, only the empty one
    and the plain digit strings are recognised. *)
Definition to_number (v : value) : option Z :=
  match v with
  | VNum n => Some n
  | VBool b => Some (if b then 1 else 0)
  | VNull => Some 0
  | VStr s => if String.eqb s "" then Some 0
              else if Str.all_digits s then Some (Str.parseInt s) else None
  | _ => None
  end.

(** [v[k]] *)
Definition get_prop (v : value) (k : string) : result value :=
  match v with
  | VUndefined | VNull => Throw TypeError
  | VBool _ | VNum _ => Ok VUndefined
  | VStr s =>
      if String.eqb k "length" then Ok (VNum (Z.of_nat (String.length s)))
      else match array_index k with
           | Some i => match String.get i s with
                       | Some c => Ok (VStr (String c EmptyString))
                       | None => Ok VUndefined
                       end
           | None => Ok VUndefined
           end
  | VObj props => Ok (props_get props k)
  | VArr elems props =>
      match array_index k with
      | Some i => Ok (nth i elems VUndefined)
      | None =>
          if String.eqb k "length" then Ok (VNum (Z.of_nat (List.length elems)))
          else Ok (props_get props k)
      end
  | VDate _ props => Ok (props_get props k)
  end.

(** [v[k] = x] in strict code (a class body is strict): the container
    after the assignment, or the exception.  Assigning to a property of a
    primitive throws. *)
Definition set_prop (v : value) (k : string) (x : value) : result value :=
  match v with
  | VObj props => Ok (VObj (props_set props k x))
  | VArr elems props =>
      match array_index k with
      | Some i => Ok (VArr (elems_set elems i x) props)
      | None =>
          if String.eqb k "length" then
            match to_number x with
            | Some n =>
                if (0 <=? n) && (n <? 4294967296)
                then Ok (VArr (elems_resize elems (Z.to_nat n)) props)
                else Throw RangeError
            | None => Throw RangeError
            end
          else Ok (VArr elems (props_set props k x))
      end
  | VDate t props => Ok (VDate t (props_set props k x))
  | _ => Throw TypeError
  end.

End JS.

(* ===================================================================== *)
(** ** Dates *)

Module Calendar.
Import JS.

Definition is_leap (y : Z) : bool :=
  ((y mod 4 =? 0) && negb (y mod 100 =? 0)) || (y mod 400 =? 0).

(** Days of month [m] (0 to 11) of year [y]. *)
Definition days_in_month (y m : Z) : Z :=
  if m =? 1 then (if is_leap y then 29 else 28)
  else if (m =? 3) || (m =? 5) || (m =? 8) || (m =? 10) then 30
  else 31.

(** Carry a day number that lies outside its month into the neighbouring
    months, one month per step. *)
Fixpoint roll (fuel : nat) (y m d : Z) : Z * Z * Z :=
  match fuel with
  | O => (y, m, d)
  | S fuel' =>
      if d <? 1 then
        let y' := if m =? 0 then y - 1 else y in
        let m' := if m =? 0 then 11 else m - 1 in
        roll fuel' y' m' (d + days_in_month y' m')
      else if days_in_month y m <? d then
        let y' := if m =? 11 then y + 1 else y in
        let m' := if m =? 11 then 0 else m + 1 in
        roll fuel' y' m' (d - days_in_month y m)
      else (y, m, d)
  end.

(** [new Date(year, monthIndex, day)]: a year from 0 to 99 is taken in the
    1900s, a month index outside 0 to 11 carries into the year and a day
    outside the month carries into the months (the language's [MakeDay]).
    The result is local midnight of that day. *)
Definition Date_ymd (year monthIndex day : Z) : date_time :=
  let yr := if (0 <=? year) && (year <=? 99) then 1900 + year else year in
  let ym := yr + monthIndex / 12 in
  let mn := monthIndex mod 12 in
  let '(y, m, d) := roll (S (Z.to_nat (Z.abs day))) ym mn day in
  {| dt_year := y; dt_month := m; dt_day := d; dt_ms := 0 |}.

End Calendar.

(* ===================================================================== *)
(** ** [src/core/field-mapper.js] *)

Module FieldMapper.
Import JS.

(** A field descriptor of the schema.  A member that is absent from the
    JSON is [None]; the names are strings and [value_mapping] is a
    dictionary, as the schema declares them. *)
Record field : Type :=
  { field_id : option string;
    data_path : option string;
    pdf_field_name : option string;
    item_number : option string;
    type : option string;
    value_mapping : option (list (string * value)) }.

Record part : Type := { fields : option (list field) }.

Record config : Type := { parts : option (list part) }.

(** An entry of the form data: [{ value, pdfFieldName, field,
    originalValue }]. *)
Record resolved : Type :=
  { rf_value : value;
    rf_pdfFieldName : string;
    rf_field : field;
    rf_originalValue : value }.

Definition formData : Type := list (string * resolved).

(** Truthiness of an optional string member. *)
Definition present (o : option string) : bool :=
  match o with
  | Some s => negb (String.eqb s "")
  | None => false
  end.

Definition type_is (f : field) (t : string) : bool :=
  match type f with
  | Some s => String.eqb s t
  | None => false
  end.

(** [a || b] on optional strings. *)
Definition or_else (a b : option string) : option string :=
  if present a then a else b.

(** *** [getNestedValue] *)

Fixpoint get_walk (current : value) (parts : list string) : result value :=
  match parts with
  | [] => Ok current
  | part :: rest =>
      match current with
      | VUndefined | VNull => Ok VUndefined
      | _ =>
          if Str.all_digits part then
            let index := Str.parseInt part in
            if isArray current then
              bind (get_prop current (Str.of_Z index)) (fun v =>
                if is_undefined v then Ok VUndefined else get_walk v rest)
            else Ok VUndefined
          else
            bind (get_prop current part) (fun v => get_walk v rest)
      end
  end.

Definition getNestedValue (obj : value) (path : string) : result value :=
  if negb (present (Some path)) || negb (truthy obj) then Ok VUndefined
  else get_walk obj (Str.split "."%char path).

(** *** [applyValueMapping]

    [typeof mapping === 'object'] holds of a dictionary. *)
Section WithHost.
Context {host : Host}.

Definition applyValueMapping (v : value) (mapping : list (string * value))
  : value :=
  if negb (is_undefined (props_get mapping "checked"))
     && strict_eq v (VBool true)
  then props_get mapping "checked"
  else if negb (is_undefined (props_get mapping (to_string v)))
  then props_get mapping (to_string v)
  else v.

(** *** [formatDate] *)

Definition format_mdy (t : option date_time) : string :=
  match t with
  | None => ""
  | Some t =>
      let month := Str.padStart2 (Str.of_Z (dt_month t + 1)) in
      let day := Str.padStart2 (Str.of_Z (dt_day t)) in
      let year := dt_year t in
      month ++ "/" ++ day ++ "/" ++ Str.of_Z year
  end.

Definition formatDate (date : value) : string :=
  if negb (truthy date) then ""
  else
    match date with
    | VDate t _ => format_mdy t
    | VStr s =>
        if Str.is_iso_date s then
          match Str.split "-"%char s with
          | year :: month :: day :: _ =>
              format_mdy
                (Some (Calendar.Date_ymd (Str.parseInt year)
                         (Str.parseInt month - 1) (Str.parseInt day)))
          | _ => ""
          end
        else if Str.is_mdy_date s then s
        else format_mdy (Date_parse s)
    | _ => ""
    end.

(** *** [formatValue] *)

Definition formatValue (v : value) (ty : option string) : value :=
  let case t :=
    match ty with Some s => String.eqb s t | None => false end in
  match v with
  | VNull | VUndefined => VStr ""
  | _ =>
      if case "Date Input" then VStr (formatDate v)
      else if case "Checkbox" then
        (if strict_eq v (VBool true) || strict_eq v (VStr "true")
         then VStr "X" else VStr "")
      else if case "Radio" then VStr (to_string v)
      else VStr (to_string v)
  end.

(** *** [mapProfileToForm] *)

(** The body of the loop over the fields of a part. *)
Definition map_field (profile : value) (fd : formData) (f : field)
  : result formData :=
  if negb (present (field_id f)) || negb (present (data_path f)) then Ok fd
  else
    match field_id f, data_path f with
    | Some id, Some path =>
        bind (getNestedValue profile path) (fun v =>
          let shouldInclude :=
            (negb (is_undefined v) && negb (strict_eq v VNull)
               && negb (strict_eq v (VStr "")))
            || type_is f "Checkbox" || type_is f "Radio" in
          if shouldInclude then
            let mapped :=
              match value_mapping f with
              | Some mapping => applyValueMapping v mapping
              | None => v
              end in
            let mappedValue := formatValue mapped (type f) in
            let pdfFieldName :=
              match or_else (or_else (pdf_field_name f) (item_number f))
                      (field_id f) with
              | Some n => n
              | None => id
              end in
            Ok (entries_set fd id
                  {| rf_value := mappedValue;
                     rf_pdfFieldName := pdfFieldName;
                     rf_field := f;
                     rf_originalValue := v |})
          else Ok fd)
    | _, _ => Ok fd
    end.

Fixpoint map_fields (profile : value) (fd : formData) (fs : list field)
  : result formData :=
  match fs with
  | [] => Ok fd
  | f :: rest =>
      bind (map_field profile fd f) (fun fd' => map_fields profile fd' rest)
  end.

Fixpoint map_parts (profile : value) (fd : formData) (ps : list part)
  : result formData :=
  match ps with
  | [] => Ok fd
  | p :: rest =>
      match fields p with
      | None => map_parts profile fd rest
      | Some fs =>
          bind (map_fields profile fd fs) (fun fd' =>
            map_parts profile fd' rest)
      end
  end.

(** [cfg] is [this.config]: [None] when it is [null]. *)
Definition mapProfileToForm (cfg : option config) (profile : value)
  : result formData :=
  match cfg with
  | None => Ok []
  | Some c =>
      match parts c with
      | None => Ok []
      | Some ps => map_parts profile [] ps
      end
  end.

(** The entry one descriptor contributes: what the body of the loop adds to
    an empty form data. *)
Definition field_entry (profile : value) (f : field)
  : option (string * resolved) :=
  match map_field profile [] f with
  | Ok [e] => Some e
  | _ => None
  end.

Definition add_entry (profile : value) (fd : formData) (f : field) : formData :=
  match field_entry profile f with
  | Some (id, r) => entries_set fd id r
  | None => fd
  end.

(** *** [reverseValueMapping] *)

Fixpoint reverse_lookup (v : value) (es : list (string * value))
  : option value :=
  match es with
  | [] => None
  | (key, mappedVal) :: rest =>
      if strict_eq mappedVal v then
        Some (if String.eqb key "checked" then VBool true else VStr key)
      else reverse_lookup v rest
  end.

Definition reverseValueMapping (v : value) (mapping : list (string * value))
  : value :=
  match reverse_lookup v mapping with
  | Some k => k
  | None => v
  end.

(** *** [parseDate]

    [dateStr.match] exists on a string only. *)
Definition parseDate (dateStr : value) : result string :=
  if negb (truthy dateStr) then Ok ""
  else
    match dateStr with
    | VStr s =>
        if Str.is_mdy_date s then
          let month := String.substring 0 2 s in
          let day := String.substring 3 2 s in
          let year := String.substring 6 4 s in
          Ok (year ++ "-" ++ month ++ "-" ++ day)
        else if Str.is_iso_date s then Ok s
        else
          match Date_parse s with
          | Some date =>
              let year := dt_year date in
              let month := Str.padStart2 (Str.of_Z (dt_month date + 1)) in
              let day := Str.padStart2 (Str.of_Z (dt_day date)) in
              Ok (Str.of_Z year ++ "-" ++ month ++ "-" ++ day)
          | None => Ok ""
          end
    | _ => Throw TypeError
    end.

(** *** [parseValue] *)

Definition parseValue (v : value) (ty : option string) : result value :=
  let case t :=
    match ty with Some s => String.eqb s t | None => false end in
  if strict_eq v VNull || is_undefined v || strict_eq v (VStr "") then
    Ok (if case "Checkbox" then VBool false else VStr "")
  else if case "Checkbox" then
    Ok (VBool (strict_eq v (VStr "X") || strict_eq v (VBool true)
               || strict_eq v (VStr "true")))
  else if case "Radio" then Ok (VStr (to_string v))
  else if case "Date Input" then
    bind (parseDate v) (fun s => Ok (VStr s))
  else Ok (VStr (to_string v)).

End WithHost.

(** *** The schema as a list *)

(** The descriptors of a schema in the order the two loops visit them. *)
Definition all_fields (ps : list part) : list field :=
  List.flat_map (fun p => match fields p with Some fs => fs | None => [] end) ps.

(** The value a path resolves to. *)
Definition resolve (profile : value) (path : string) : value :=
  match getNestedValue profile path with
  | Ok v => v
  | Throw _ => VUndefined
  end.

(** A value that is neither [undefined] nor [null] nor the empty string. *)
Definition non_empty (v : value) : Prop :=
  v <> VUndefined /\ v <> VNull /\ v <> VStr "".

(** A string in the form [YYYY-MM-DD] that names a day of the calendar in a
    year from 1000 on. *)
Definition calendar_date (s : string) : bool :=
  Str.is_iso_date s
  && (let year := Str.parseInt (String.substring 0 4 s) in
      let month := Str.parseInt (String.substring 5 2 s) in
      let day := Str.parseInt (String.substring 8 2 s) in
      (1000 <=? year) && (1 <=? month) && (month <=? 12) && (1 <=? day)
      && (day <=? Calendar.days_in_month year (month - 1))).




(** *** [setNestedValue]

    The object is mutated in place, so a walk returns the container as it
    is afterwards, with the exception if one was thrown on the way. *)

Definition mutation : Type := (value * option js_error)%type.

(** [current[k] = x] *)
Definition assign (current : value) (k : string) (x : value) : mutation :=
  match set_prop current k x with
  | Ok c => (c, None)
  | Throw e => (current, Some e)
  end.

(** The container [c] once the object it holds under [k] has become
    [child]. *)
Definition store (c : value) (k : string) (child : value) : value :=
  match set_prop c k child with
  | Ok c' => c'
  | Throw _ => c
  end.

Fixpoint set_walk (current : value) (parts : list string)
  (lastPart : string) (x : value) : mutation :=
  match parts with
  | [] => assign current lastPart x
  | part :: rest =>
      if Str.all_digits part then
        let index := Str.of_Z (Str.parseInt part) in
        let '(c1, e1) :=
          if negb (isArray current) then assign current part (VArr [] [])
          else (current, None) in
        match e1 with
        | Some e => (c1, Some e)
        | None =>
            match get_prop c1 index with
            | Throw e => (c1, Some e)
            | Ok v =>
                let '(c2, e2) :=
                  if negb (truthy v) then assign c1 index (VObj [])
                  else (c1, None) in
                match e2 with
                | Some e => (c2, Some e)
                | None =>
                    match get_prop c2 index with
                    | Throw e => (c2, Some e)
                    | Ok child =>
                        let '(child', e3) :=
                          set_walk child rest lastPart x in
                        (store c2 index child', e3)
                    end
                end
            end
        end
      else
        match get_prop current part with
        | Throw e => (current, Some e)
        | Ok v =>
            let '(c1, e1) :=
              if negb (truthy v) || negb (typeof_object v)
              then assign current part (VObj [])
              else (current, None) in
            match e1 with
            | Some e => (c1, Some e)
            | None =>
                match get_prop c1 part with
                | Throw e => (c1, Some e)
                | Ok child =>
                    let '(child', e3) := set_walk child rest lastPart x in
                    (store c1 part child', e3)
                end
            end
        end
  end.

Definition setNestedValue (obj : value) (path : string) (x : value)
  : mutation :=
  if negb (present (Some path)) || negb (truthy obj) then (obj, None)
  else
    let parts := Str.split "."%char path in
    let lastPart := List.last parts "" in
    set_walk obj (List.removelast parts) lastPart x.


(** *** [mapFormToProfile] *)

Section WithHost.
Context {host : Host}.

(** What the body of the loop passes to [setNestedValue] for a field:
    [None] where it continues with the next field. *)
Definition field_write (fd : formData) (f : field)
  : result (option (string * value)) :=
  if negb (present (field_id f)) || negb (present (data_path f))
  then Ok None
  else
    match field_id f, data_path f with
    | Some id, Some path =>
        match entries_get fd id with
        | None => Ok None
        | Some fieldData =>
            if is_undefined (rf_value fieldData) then Ok None
            else
              let v := rf_value fieldData in
              let v :=
                match value_mapping f with
                | Some mapping => reverseValueMapping v mapping
                | None => v
                end in
              bind (parseValue v (type f)) (fun v' => Ok (Some (path, v')))
        end
    | _, _ => Ok None
    end.

Definition unmap_field (fd : formData) (profile : value) (f : field)
  : mutation :=
  match field_write fd f with
  | Throw e => (profile, Some e)
  | Ok None => (profile, None)
  | Ok (Some (path, v)) => setNestedValue profile path v
  end.

Fixpoint unmap_fields (fd : formData) (profile : value) (fs : list field)
  : mutation :=
  match fs with
  | [] => (profile, None)
  | f :: rest =>
      match unmap_field fd profile f with
      | (profile', None) => unmap_fields fd profile' rest
      | thrown => thrown
      end
  end.

Fixpoint unmap_parts (fd : formData) (profile : value) (ps : list part)
  : mutation :=
  match ps with
  | [] => (profile, None)
  | p :: rest =>
      match fields p with
      | None => unmap_parts fd profile rest
      | Some fs =>
          match unmap_fields fd profile fs with
          | (profile', None) => unmap_parts fd profile' rest
          | thrown => thrown
          end
      end
  end.

Definition mapFormToProfile (cfg : option config) (fd : formData)
  (profile : value) : mutation :=
  match cfg with
  | None => (profile, None)
  | Some c =>
      match parts c with
      | None => (profile, None)
      | Some ps => unmap_parts fd profile ps
      end
  end.

End WithHost.

End FieldMapper.

(* ===================================================================== *)
(** ** The PDF library *)

(** Modelled from the spec: the third-party PDF library, which is no part
    of the repository and which the specification describes only by the
    interface it is used through: load bytes into a document, enumerate the
    fields of its form, find a text field or a check box by name (an
    exception if no field of that name and kind exists), write a text or a
    check mark, flatten, save to bytes. *)
Module PDFLib.
Import JS.

Inductive field_kind : Type := TextField | CheckBox | OtherField.

Record pdf_field : Type :=
  { name : string;
    kind : field_kind;
    text : string;
    checked : bool;
    maxLength : option nat }.

(** The interactive fields of the form, and what flattening has burnt into
    the pages. *)
Record document : Type :=
  { form_fields : list pdf_field;
    static_content : list pdf_field }.

Definition form : Type := list pdf_field.

Definition is_text (f : pdf_field) : bool :=
  match kind f with TextField => true | _ => false end.

Definition is_checkbox (f : pdf_field) : bool :=
  match kind f with CheckBox => true | _ => false end.

(** [form.getFields().map(f => f.getName())] *)
Definition field_names (fm : form) : list string := List.map name fm.

(** [form.getField(n)]: the first field of that name. *)
Definition getField (fm : form) (n : string) : option pdf_field :=
  List.find (fun f => String.eqb (name f) n) fm.

Definition getTextField (fm : form) (n : string) : result pdf_field :=
  match getField fm n with
  | Some f => if is_text f then Ok f else Throw (Error "not a text field")
  | None => Throw (Error "no such field")
  end.

Definition getCheckBox (fm : form) (n : string) : result pdf_field :=
  match getField fm n with
  | Some f => if is_checkbox f then Ok f else Throw (Error "not a check box")
  | None => Throw (Error "no such field")
  end.

(** A field handle is the field inside the form: writing through the
    handle changes the first field of that name. *)
Fixpoint update (fm : form) (n : string) (g : pdf_field -> pdf_field) : form :=
  match fm with
  | [] => []
  | f :: r => if String.eqb (name f) n then g f :: r else f :: update r n g
  end.

Definition with_text (s : string) (f : pdf_field) : pdf_field :=
  {| name := name f; kind := kind f; text := s;
     checked := checked f; maxLength := maxLength f |}.

Definition with_checked (b : bool) (f : pdf_field) : pdf_field :=
  {| name := name f; kind := kind f; text := text f;
     checked := b; maxLength := maxLength f |}.

(** [field.setText(s)]: refused when the field has a maximum length and
    [s] is longer. *)
Definition setText (fm : form) (f : pdf_field) (s : string) : result form :=
  match maxLength f with
  | Some n =>
      if (n <? String.length s)%nat then Throw (Error "text too long")
      else Ok (update fm (name f) (with_text s))
  | None => Ok (update fm (name f) (with_text s))
  end.

Definition check (fm : form) (f : pdf_field) : form :=
  update fm (name f) (with_checked true).

Definition uncheck (fm : form) (f : pdf_field) : form :=
  update fm (name f) (with_checked false).

(** [form.flatten()] *)
Definition flatten (d : document) : document :=
  {| form_fields := [];
     static_content := static_content d ++ form_fields d |}.

(** The byte format: [save] serialises a document and [load] reads bytes
    back, or throws on bytes that are no document. *)
Class Codec : Type :=
  { bytes : Type;
    save : document -> bytes;
    load : bytes -> option document }.

End PDFLib.

(* ===================================================================== *)
(** ** [src/core/pdf-processor.js] *)

Module PDFProcessor.
Import JS PDFLib.

(** The members of a [PDFProcessor].  [pdfLib] tells whether the library
    object is set; [templatePDF] is a reference to a document on the
    heap. *)
Record processor : Type :=
  { pdfLib : bool;
    templatePDF : option nat;
    initialized : bool }.

(** The processor and the documents that exist; a reference is an index
    into [docs], and a document that is loaded gets the next index. *)
Record world : Type :=
  { this : processor;
    docs : list document }.

Definition new_PDFProcessor : processor :=
  {| pdfLib := false; templatePDF := None; initialized := false |}.

Record options : Type :=
  { flatten_opt : bool;
    editable : bool;
    includeSignature : bool }.

(** [options = {}] *)
Definition default_options : options :=
  {| flatten_opt := false; editable := true; includeSignature := true |}.

Record filled : Type :=
  { fl_fieldId : string;
    fl_pdfFieldName : string;
    fl_type : string;
    fl_value : value;
    fl_matched : bool }.

Record failed : Type :=
  { fa_fieldId : string;
    fa_pdfFieldName : string;
    fa_value : value }.

(** The form being filled and the two lists the loop builds (and logs). *)
Record fill_state : Type :=
  { fs_form : form;
    filledFields : list filled;
    failedFields : list failed }.

(** *** [buildFieldNameMapping] *)

(** The object literal, member by member as it is written. *)
Definition fieldPatterns_literal : list (string * list string) :=
  [ ("1.a.", ["1a"; "1_a"; "reason_initial"; "initial"; "Part1_1a"]);
    ("1.b.", ["1b"; "1_b"; "reason_replacement"; "replacement"; "Part1_1b"]);
    ("1.c.", ["1c"; "1_c"; "reason_renewal"; "renewal"; "Part1_1c"]);
    ("1.a.", ["1a"; "1_a"; "last_name"; "family_name"; "surname"; "Part2_1a"]);
    ("1.b.", ["1b"; "1_b"; "first_name"; "given_name"; "Part2_1b"]);
    ("1.c.", ["1c"; "1_c"; "middle_name"; "Part2_1c"]);
    ("5.a.", ["5a"; "5_a"; "mailing_in_care_of"; "in_care_of"]);
    ("5.b.", ["5b"; "5_b"; "mailing_street"; "street_address"]);
    ("5.c.", ["5c"; "5_c"; "mailing_apt"; "apt"; "suite"; "floor"]);
    ("5.d.", ["5d"; "5_d"; "mailing_city"; "city"]);
    ("5.e.", ["5e"; "5_e"; "mailing_state"; "state"]);
    ("5.f.", ["5f"; "5_f"; "mailing_zip"; "zip_code"; "zipcode"]);
    ("8.", ["8"; "alien_number"; "a_number"; "a_number_8"]);
    ("9.", ["9"; "uscis_account_number"; "account_number"]);
    ("10.", ["10"; "sex"; "gender"]);
    ("11.", ["11"; "marital_status"]);
    ("12.", ["12"; "previously_filed_i765"]);
    ("13.a.", ["13a"; "13_a"; "ssa_issued_card"]);
    ("13.b.", ["13b"; "13_b"; "ssn_number"; "ssn"]);
    ("14.", ["14"; "want_ssa_card"]);
    ("15.", ["15"; "consent_for_disclosure"]);
    ("20.", ["20"; "date_of_birth"; "dob"; "birth_date"]);
    ("21.a.", ["21a"; "21_a"; "i94_number"; "i94"]);
    ("27.", ["27"; "eligibility_category"; "category"]) ].

(** A key written twice keeps its first position and its last value. *)
Definition fieldPatterns : list (string * list string) :=
  List.fold_left (fun o kv => entries_set o (fst kv) (snd kv))
    fieldPatterns_literal [].

Definition pattern_matches (getName : string) (pattern : string) : bool :=
  let fieldName := Str.toLowerCase getName in
  Str.includes fieldName (Str.toLowerCase pattern)
  || String.eqb fieldName (Str.toLowerCase pattern)
  || String.eqb (Str.strip_non_alnum fieldName)
       (Str.toLowerCase (Str.strip_non_alnum pattern)).

Definition has_key (mapping : list (string * string)) (k : string) : bool :=
  match entries_get mapping k with Some _ => true | None => false end.

Definition buildFieldNameMapping (fm : form) : list (string * string) :=
  List.fold_left
    (fun mapping entry =>
       let '(itemNumber, patterns) := entry in
       List.fold_left
         (fun mapping field =>
            List.fold_left
              (fun mapping pattern =>
                 if pattern_matches (name field) pattern then
                   if negb (has_key mapping itemNumber)
                   then entries_set mapping itemNumber (name field)
                   else mapping
                 else mapping)
              patterns mapping)
         fm mapping)
    fieldPatterns [].

(** *** The loop of [fillForm] *)

Definition should_check (v : value) : bool :=
  strict_eq v (VBool true) || strict_eq v (VStr "X")
  || strict_eq v (VStr "checked") || strict_eq v (VStr "Yes")
  || strict_eq v (VStr "initial") || strict_eq v (VStr "replacement")
  || strict_eq v (VStr "renewal").

(** The test of the fuzzy-match branch. *)
Definition should_check_fuzzy (v : value) : bool :=
  strict_eq v (VBool true) || strict_eq v (VStr "X")
  || strict_eq v (VStr "checked") || strict_eq v (VStr "Yes").

Definition fuzzy_match (pdfFieldName : string) (name : string) : bool :=
  let nameLower := Str.toLowerCase name in
  let pdfLower := Str.toLowerCase pdfFieldName in
  Str.includes nameLower pdfLower
  || Str.includes pdfLower nameLower
  || String.eqb (Str.strip_non_alnum nameLower) (Str.strip_non_alnum pdfLower).

Section WithHost.
Context {host : Host}.

(** [String(value || '')] *)
Definition text_of (v : value) : string :=
  to_string (if truthy v then v else VStr "").

(** One attempt on a field name: the text field, and in the handler of
    its exception the check box.  [None] when both throw. *)
Definition try_name (check_test : value -> bool) (fm : form)
  (fieldName : string) (v : value) : option (form * string) :=
  match bind (getTextField fm fieldName)
             (fun field => setText fm field (text_of v)) with
  | Ok fm' => Some (fm', "text")
  | Throw _ =>
      match getCheckBox fm fieldName with
      | Ok checkbox =>
          Some (if check_test v then check fm checkbox
                else uncheck fm checkbox, "checkbox")
      | Throw _ => None
      end
  end.

Fixpoint try_variations (fm : form) (variations : list string) (v : value)
  : option (form * string * string) :=
  match variations with
  | [] => None
  | fieldName :: rest =>
      match try_name should_check fm fieldName v with
      | Some (fm', ty) => Some (fm', fieldName, ty)
      | None => try_variations fm rest v
      end
  end.

Definition fieldNameVariations (actualFieldName pdfFieldName : string)
  : list string :=
  [ actualFieldName;
    pdfFieldName;
    Str.replace_dots "_" pdfFieldName;
    Str.replace_dots "" pdfFieldName;
    Str.toLowerCase pdfFieldName;
    Str.toUpperCase pdfFieldName ].

(** [fieldMapping.get(pdfFieldName) || pdfFieldName] *)
Definition actual_name (fieldMapping : list (string * string))
  (pdfFieldName : string) : string :=
  match entries_get fieldMapping pdfFieldName with
  | Some n => if String.eqb n "" then pdfFieldName else n
  | None => pdfFieldName
  end.

Definition fill_entry (fieldMapping : list (string * string))
  (allFieldNames : list string) (st : fill_state)
  (entry : string * FieldMapper.resolved) : fill_state :=
  let '(fieldId, fieldData) := entry in
  let pdfFieldName := FieldMapper.rf_pdfFieldName fieldData in
  if String.eqb pdfFieldName "" then st
  else
    let v := FieldMapper.rf_value fieldData in
    let actualFieldName := actual_name fieldMapping pdfFieldName in
    match try_variations (fs_form st)
            (fieldNameVariations actualFieldName pdfFieldName) v with
    | Some (fm', fieldName, ty) =>
        {| fs_form := fm';
           filledFields := filledFields st ++
             [{| fl_fieldId := fieldId; fl_pdfFieldName := fieldName;
                 fl_type := ty; fl_value := v; fl_matched := false |}];
           failedFields := failedFields st |}
    | None =>
        let notFound :=
          {| fs_form := fs_form st;
             filledFields := filledFields st;
             failedFields := failedFields st ++
               [{| fa_fieldId := fieldId; fa_pdfFieldName := pdfFieldName;
                   fa_value := v |}] |} in
        match List.find (fuzzy_match pdfFieldName) allFieldNames with
        | Some similarField =>
            if String.eqb similarField "" then notFound
            else
              match try_name should_check_fuzzy (fs_form st)
                      similarField v with
              | Some (fm', ty) =>
                  {| fs_form := fm';
                     filledFields := filledFields st ++
                       [{| fl_fieldId := fieldId;
                           fl_pdfFieldName := similarField;
                           fl_type := ty; fl_value := v;
                           fl_matched := true |}];
                     failedFields := failedFields st |}
              | None => notFound
              end
        | None => notFound
        end
    end.

(** A declared name that the document answers in none of the three ways:
    the alias table has no entry for it, none of its variations is the name
    of a field, and no field name is a fuzzy match. *)
Definition unresolvable (fm : form) (pdfFieldName : string) : Prop :=
  entries_get (buildFieldNameMapping fm) pdfFieldName = None
  /\ (forall n, In n (fieldNameVariations pdfFieldName pdfFieldName) ->
                ~ In n (field_names fm))
  /\ (forall n, In n (field_names fm) -> fuzzy_match pdfFieldName n = false).

(** The entry of the failed-fields list for a form-data entry. *)
Definition failure (fieldId : string) (fieldData : FieldMapper.resolved) : failed :=
  {| fa_fieldId := fieldId;
     fa_pdfFieldName := FieldMapper.rf_pdfFieldName fieldData;
     fa_value := FieldMapper.rf_value fieldData |}.

(** The statements of [fillForm] from [getForm] to the summary. *)
Definition fill_fields (fm : form) (fd : FieldMapper.formData) : fill_state :=
  let fieldMapping := buildFieldNameMapping fm in
  let allFieldNames := field_names fm in
  List.fold_left (fill_entry fieldMapping allFieldNames) fd
    {| fs_form := fm; filledFields := []; failedFields := [] |}.

End WithHost.

(** *** The methods *)

Section WithLibrary.
Context {host : Host} {codec : Codec}.

(** What surrounds the processor: whether the library can be had (as a
    global, on [window] or from the CDN), and what [fetch] returns for a
    URL ([None] when it rejects). *)
Record environment : Type :=
  { library_available : bool;
    fetch : string -> option bytes }.

Inductive template_source : Type :=
| Url (url : string)
| ArrayBuffer (b : bytes)
| OtherSource.

Definition set_this (w : world) (p : processor) : world :=
  {| this := p; docs := docs w |}.

Definition initialize (env : environment) (w : world) : bool * world :=
  if initialized (this w) then (true, w)
  else if library_available env then
    (true, set_this w {| pdfLib := true;
                         templatePDF := templatePDF (this w);
                         initialized := true |})
  else (false, w).

Definition loadTemplate (env : environment) (templateSource : template_source)
  (w : world) : result unit * world :=
  let w := if negb (initialized (this w)) then snd (initialize env w) else w in
  if negb (pdfLib (this w)) then (Throw (Error "PDF library not initialized"), w)
  else
    let arrayBuffer :=
      match templateSource with
      | Url url =>
          match fetch env url with
          | Some b => Ok b
          | None => Throw (Error "fetch failed")
          end
      | ArrayBuffer b => Ok b
      | OtherSource => Throw (Error "Invalid template source")
      end in
    match arrayBuffer with
    | Throw e => (Throw e, w)
    | Ok b =>
        match load b with
        | None => (Throw (Error "Failed to parse PDF document"), w)
        | Some d =>
            (Ok tt,
             {| this := {| pdfLib := pdfLib (this w);
                           templatePDF := Some (List.length (docs w));
                           initialized := initialized (this w) |};
                docs := docs w ++ [d] |})
        end
    end.

(** [fillForm] returns the bytes; the two lists it logs are returned
    with them. *)
Definition fillForm (fd : FieldMapper.formData) (opts : options) (w : world)
  : result (bytes * list filled * list failed) * world :=
  match templatePDF (this w) with
  | None => (Throw (Error "PDF template not loaded"), w)
  | Some t =>
      if negb (pdfLib (this w)) then (Throw TypeError, w)
      else
        match nth_error (docs w) t with
        | None => (Throw TypeError, w)
        | Some template =>
            match load (save template) with
            | None => (Throw (Error "Failed to parse PDF document"), w)
            | Some pdfDoc =>
                let st := fill_fields (form_fields pdfDoc) fd in
                let filledDoc :=
                  {| form_fields := fs_form st;
                     static_content := static_content pdfDoc |} in
                let finalDoc :=
                  if flatten_opt opts then flatten filledDoc
                  else filledDoc in
                (Ok (save finalDoc, filledFields st, failedFields st),
                 {| this := this w; docs := docs w ++ [finalDoc] |})
            end
        end
  end.

Definition getFormFieldNames (w : world) : result (list string) * world :=
  match templatePDF (this w) with
  | None => (Throw (Error "PDF template not loaded"), w)
  | Some t =>
      match nth_error (docs w) t with
      | Some template => (Ok (field_names (form_fields template)), w)
      | None => (Ok [], w)
      end
  end.

(** [generatePDF]: the bytes of [fillForm] wrapped in a [Blob]. *)
Definition generatePDF (fd : FieldMapper.formData) (opts : options) (w : world)
  : result bytes * world :=
  match fillForm fd opts w with
  | (Ok (pdfBytes, _, _), w') => (Ok pdfBytes, w')
  | (Throw e, w') => (Throw e, w')
  end.

Definition generateBothVersions (fd : FieldMapper.formData) (w : world)
  : result (bytes * bytes) * world :=
  match generatePDF fd {| flatten_opt := false; editable := true;
                          includeSignature := true |} w with
  | (Throw e, w1) => (Throw e, w1)
  | (Ok editable, w1) =>
      match generatePDF fd {| flatten_opt := true; editable := false;
                              includeSignature := true |} w1 with
      | (Throw e, w2) => (Throw e, w2)
      | (Ok flattened, w2) => (Ok (editable, flattened), w2)
      end
  end.


(** The bytes the cached template saves to. *)
Definition template_bytes (w : world) : option bytes :=
  match templatePDF (this w) with
  | Some t => option_map save (nth_error (docs w) t)
  | None => None
  end.

End WithLibrary.

End PDFProcessor.

(* ===================================================================== *)
(** ** [src/form-main/core/data-models.js] *)

Module DataModels.
Import JS.

Definition address_init : value :=
  VObj [ ("street", VStr ""); ("city", VStr ""); ("state", VStr "");
         ("zipCode", VStr ""); ("country", VStr "") ].

Definition personalInfo_init : value :=
  VObj [ ("firstName", VStr ""); ("middleName", VStr "");
         ("lastName", VStr ""); ("dateOfBirth", VStr "");
         ("gender", VStr ""); ("citizenship", VStr "");
         ("passport",
           VObj [ ("number", VStr ""); ("issuanceCountry", VStr "");
                  ("expirationDate", VStr "") ]);
         ("contact",
           VObj [ ("email", VStr ""); ("phoneNumber", VStr "");
                  ("address", address_init);
                  ("mailingAddress", address_init) ]) ].

Definition immigrationDetails_init : value :=
  VObj [ ("uscisNumber", VStr ""); ("i94Number", VStr "");
         ("currentStatus", VStr ""); ("statusValidFrom", VStr "");
         ("statusValidTo", VStr ""); ("entryDate", VStr "");
         ("portOfEntry", VStr ""); ("visaType", VStr "");
         ("i797NoticeNumber", VStr "");
         ("priorEAD",
           VObj [ ("hasObtainedBefore", VBool false);
                  ("previousEADNumber", VStr "");
                  ("previousExpirationDate", VStr "") ]);
         ("greenCard",
           VObj [ ("hasGreenCard", VBool false); ("cardNumber", VStr "");
                  ("expirationDate", VStr "") ]);
         ("advancedParole",
           VObj [ ("hasAdvancedParole", VBool false);
                  ("documentNumber", VStr "");
                  ("expirationDate", VStr "") ]);
         ("refugeeAsyleeStatus",
           VObj [ ("isRefugeeAoffer", VBool false); ("dateOfGrant", VStr "");
                  ("isAsyleeGranted", VBool false);
                  ("dateAsylumGranted", VStr "") ]) ].

Definition eligibilityInfo_init : value :=
  VObj [ ("category", VStr ""); ("categoryDescription", VStr "");
         ("basisForEligibility",
           VObj [ ("deferredActionForChildroodsArrivals", VBool false);
                  ("asylumAdjudication", VBool false);
                  ("refugeeStatus", VBool false);
                  ("specialImmigrantStatus", VBool false);
                  ("family", VBool false); ("employment", VBool false);
                  ("other", VBool false); ("otherDescription", VStr "") ]);
         ("workAuthorization",
           VObj [ ("neverBeenGrantedEAD", VBool false);
                  ("previouslyDeniedEAD", VBool false);
                  ("previouslyRevokedEAD", VBool false);
                  ("invalidatingFactors", VArr [] []) ]);
         ("criminalBackground",
           VObj [ ("hasConverterion", VBool false);
                  ("convictionDetails", VStr "") ]);
         ("applicationPurpose", VStr ""); ("requestedCategory", VStr "");
         ("isEligible", VNull) ].

(** [_generateApplicationId], from what [Date.now()] and the random
    source give. *)
Definition _generateApplicationId (timestamp : Z) (random : string) : string :=
  Str.toUpperCase ("APP-" ++ Str.of_Z timestamp ++ "-" ++ random).

Definition metadata_init (now : string) (timestamp : Z) (random : string)
  : value :=
  VObj [ ("formVersion", VStr "765 (I-765 Employment Authorization Document)");
         ("formVersionDate", VStr "2025-12-09");
         ("createdAt", VStr now); ("updatedAt", VStr now);
         ("lastModifiedBy", VStr "Miahelloworld");
         ("status", VStr "DRAFT"); ("submissionDate", VNull);
         ("caseNumber", VStr "");
         ("applicationId", VStr (_generateApplicationId timestamp random));
         ("notes", VArr [] []); ("attachments", VArr [] []);
         ("completionPercentage", VNum 0) ].

Definition supportingDocuments_init : value :=
  VObj [ ("passportCopy", VNull); ("birthCertificate", VNull);
         ("identificationDocuments", VArr [] []);
         ("immigrationDocuments", VArr [] []);
         ("previousEADDocuments", VArr [] []);
         ("employmentDocuments", VArr [] []);
         ("educationDocuments", VArr [] []);
         ("asylumDocuments", VArr [] []);
         ("otherDocuments", VArr [] []) ].

Definition employmentInfo_init : value :=
  VObj [ ("jobTitle", VStr ""); ("employerName", VStr "");
         ("employerEIN", VStr ""); ("employerAddress", address_init);
         ("startDate", VStr ""); ("expectedEndDate", VStr "");
         ("positionType", VStr "");
         ("salaryRange",
           VObj [ ("minimum", VNum 0); ("maximum", VNum 0);
                  ("currency", VStr "USD") ]) ].

Definition paymentInfo_init : value :=
  VObj [ ("filingFee", VNum 0); ("biometricFee", VNum 0);
         ("totalFee", VNum 0); ("paymentMethod", VStr "");
         ("paymentDate", VNull); ("receiptNumber", VStr "");
         ("isPaid", VBool false) ].

(** [new ApplicantProfile()] *)
Definition new_ApplicantProfile (now : string) (timestamp : Z)
  (random : string) : value :=
  VObj [ ("personalInfo", personalInfo_init);
         ("immigrationDetails", immigrationDetails_init);
         ("eligibilityInfo", eligibilityInfo_init);
         ("metadata", metadata_init now timestamp random);
         ("supportingDocuments", supportingDocuments_init);
         ("employmentInfo", employmentInfo_init);
         ("paymentInfo", paymentInfo_init) ].

(** The names of the members of [eligibilityInfo] as the constructor
    creates it.  Assigning to a member keeps the names. *)
Definition eligibilityInfo_members : list string :=
  match eligibilityInfo_init with
  | VObj props => List.map fst props
  | _ => []
  end.

(** A profile whose [eligibilityInfo] is an object with the members the
    constructor gave it, whatever their values are now. *)
Definition constructor_shaped (profile : value) (props : list (string * value))
  : Prop :=
  get_prop profile "eligibilityInfo" = Ok (VObj props)
  /\ List.map fst props = eligibilityInfo_members.

Record validation : Type :=
  { isValid : bool;
    errors : list string }.

Definition denial_warning : string :=
  "Applicants with previous denials or revocations may have eligibility issues".

Definition push_if (c : bool) (errors : list string) (msg : string)
  : list string :=
  if c then errors ++ [msg] else errors.

Definition validateEligibility (this : value) : result validation :=
  let errors := [] in
  bind (get_prop this "eligibilityInfo") (fun eligibility =>
  bind (get_prop eligibility "category") (fun category =>
  let errors := push_if (negb (truthy category)) errors
                  "EAD category is required" in
  bind (get_prop eligibility "applicationPurpose") (fun applicationPurpose =>
  let errors := push_if (negb (truthy applicationPurpose)) errors
                  "Application purpose is required" in
  bind (get_prop eligibility "previouslyDeniedEAD") (fun denied =>
  bind (if truthy denied then Ok denied
        else get_prop eligibility "previouslyRevokedEAD") (fun deniedOrRevoked =>
  let errors := push_if (truthy deniedOrRevoked) errors denial_warning in
  Ok {| isValid := (List.length errors =? 0)%nat; errors := errors |}))))).

End DataModels.

(* ===================================================================== *)
(** ** [src/core/field-mapper.js]: the index of descriptors *)

Module FieldIndex.
Import JS FieldMapper.

(** A value of [this.fieldMapping]: [{ pdfFieldName, dataPath, field }]. *)
Record mapping : Type :=
  { pdfFieldName : option string;
    dataPath : string;
    field_of : field }.

(** The body of the loop of [buildMapping] over the fields of a part. *)
Definition index_field (fieldMapping : list (string * mapping)) (f : field)
  : list (string * mapping) :=
  match field_id f, data_path f with
  | Some id, Some path =>
      if present (field_id f) && present (data_path f)
      then entries_set fieldMapping id
             {| pdfFieldName := pdf_field_name f;
                dataPath := path;
                field_of := f |}
      else fieldMapping
  | _, _ => fieldMapping
  end.

Definition index_part (fieldMapping : list (string * mapping)) (p : part)
  : list (string * mapping) :=
  match fields p with
  | None => fieldMapping
  | Some fs => List.fold_left index_field fs fieldMapping
  end.

(** [buildMapping], on the map [this.fieldMapping] holds when it is
    called. *)
Definition buildMapping (cfg : option config)
  (fieldMapping : list (string * mapping)) : list (string * mapping) :=
  match cfg with
  | None => fieldMapping
  | Some c =>
      match parts c with
      | None => fieldMapping
      | Some ps => List.fold_left index_part ps fieldMapping
      end
  end.

(** [this.fieldMapping] once the constructor has run with a configuration:
    [loadConfig] builds it from the empty map. *)
Definition new_fieldMapping (cfg : config) : list (string * mapping) :=
  buildMapping (Some cfg) [].

(** [getPDFFieldMapping]: [None] is [null]. *)
Definition getPDFFieldMapping (fieldMapping : list (string * mapping))
  (fieldId : string) : option mapping :=
  entries_get fieldMapping fieldId.

End FieldIndex.

(* ===================================================================== *)
(** ** [src/core/pdf-processor.js]: the document made from scratch *)

Module PDFScratch.
Import JS.

(** What [drawText] leaves on a page: the text, where and how large. *)
Record drawn : Type :=
  { d_text : string; d_x : Z; d_y : Z; d_size : Z }.

(** A page is what has been drawn on it; every page is 612 by 792. *)
Definition page : Type := list drawn.

Definition page_height : Z := 792.

(** The state of the loop: the pages of the document, of which the first
    is the one [page] names, and [yPosition]. *)
Record scratch : Type :=
  { pages : list page;
    yPosition : Z }.

(** [page.drawText(...)]: [page] is the first page of the document. *)
Definition drawText (ps : list page) (d : drawn) : list page :=
  match ps with
  | [] => []
  | first :: rest => (first ++ [d])%list :: rest
  end.

Section WithHost.
Context {host : Host}.

(** [label] gives the member [field_label_en] of the descriptor of an
    entry, which the descriptor record leaves out. *)
Variable label : FieldMapper.resolved -> option string.

Definition scratch_entry (st : scratch) (entry : string * FieldMapper.resolved)
  : scratch :=
  let '(fieldId, fieldData) := entry in
  let st :=
    if yPosition st <? 50
    then {| pages := (pages st ++ [[]])%list; yPosition := page_height - 50 |}
    else st in
  let label :=
    match FieldMapper.or_else (label fieldData) (Some fieldId) with
    | Some l => l
    | None => fieldId
    end in
  let value :=
    to_string (if truthy (FieldMapper.rf_value fieldData)
               then FieldMapper.rf_value fieldData else VStr "") in
  {| pages := drawText (pages st)
                {| d_text := label ++ ": " ++ value;
                   d_x := 50; d_y := yPosition st; d_size := 12 |};
     yPosition := yPosition st - 20 |}.

(** [createPDFFromScratch]: the pages of the document that is saved.
    [pdfLib] tells whether the library object is set. *)
Definition createPDFFromScratch (pdfLib : bool) (fd : FieldMapper.formData)
  : result (list page) :=
  if negb pdfLib then Throw (Error "PDF library not available")
  else
    let height := page_height in
    let start :=
      {| pages :=
           drawText [[]]
             {| d_text := "Form I-765 - Application for Employment Authorization";
                d_x := 50; d_y := height - 50; d_size := 16 |};
         yPosition := height - 100 |} in
    Ok (pages (List.fold_left scratch_entry fd start)).

End WithHost.

End PDFScratch.

(* ===================================================================== *)
(** ** [src/form-main/core/data-models.js]: the other validations, export
    and import *)

Module Profile.
Import JS DataModels.

(** [v.a.b.c]: member access along a chain of names. *)
Fixpoint member (v : value) (names : list string) : result value :=
  match names with
  | [] => Ok v
  | n :: rest => bind (get_prop v n) (fun x => member x rest)
  end.

(** A run of statements [if (!section.a.b) errors.push(message)]. *)
Fixpoint require (section : value) (checks : list (list string * string))
  (errors : list string) : result (list string) :=
  match checks with
  | [] => Ok errors
  | (names, message) :: rest =>
      bind (member section names) (fun x =>
        require section rest (push_if (negb (truthy x)) errors message))
  end.

Definition personal_checks : list (list string * string) :=
  [ (["firstName"], "First name is required");
    (["lastName"], "Last name is required");
    (["dateOfBirth"], "Date of birth is required");
    (["gender"], "Gender is required");
    (["contact"; "email"], "Email address is required");
    (["contact"; "phoneNumber"], "Phone number is required");
    (["contact"; "address"; "street"], "Street address is required");
    (["contact"; "address"; "city"], "City is required");
    (["contact"; "address"; "state"], "State is required");
    (["contact"; "address"; "zipCode"], "Zip code is required") ].

Definition immigration_checks : list (list string * string) :=
  [ (["uscisNumber"], "USCIS A-Number is required");
    (["currentStatus"], "Current immigration status is required");
    (["statusValidFrom"], "Status valid from date is required");
    (["statusValidTo"], "Status valid to date is required");
    (["entryDate"], "Entry date to US is required") ].

Definition validation_of (errors : list string) : validation :=
  {| isValid := (List.length errors =? 0)%nat; errors := errors |}.

Definition validatePersonalInfo (this : value) : result validation :=
  bind (get_prop this "personalInfo") (fun info =>
  bind (require info personal_checks []) (fun errors =>
  Ok (validation_of errors))).

Definition validateImmigrationDetails (this : value) : result validation :=
  bind (get_prop this "immigrationDetails") (fun details =>
  bind (require details immigration_checks []) (fun errors =>
  Ok (validation_of errors))).

(** The result of [validateAll]. *)
Record all_validation : Type :=
  { all_isValid : bool;
    sec_personalInfo : validation;
    sec_immigrationDetails : validation;
    sec_eligibility : validation;
    totalErrors : nat;
    allErrors : list string }.

Definition validateAll (this : value) : result all_validation :=
  bind (validatePersonalInfo this) (fun personalValidation =>
  bind (validateImmigrationDetails this) (fun immigrationValidation =>
  bind (validateEligibility this) (fun eligibilityValidation =>
  let allErrors :=
    (errors personalValidation ++ errors immigrationValidation
       ++ errors eligibilityValidation)%list in
  Ok {| all_isValid := (List.length allErrors =? 0)%nat;
        sec_personalInfo := personalValidation;
        sec_immigrationDetails := immigrationValidation;
        sec_eligibility := eligibilityValidation;
        totalErrors := List.length allErrors;
        allErrors := allErrors |}))).

(** *** [toJSON] and [fromJSON] *)

(** The sections in the order [toJSON] lists them and [fromJSON] takes
    them. *)
Definition sections : list string :=
  [ "personalInfo"; "immigrationDetails"; "eligibilityInfo"; "employmentInfo";
    "paymentInfo"; "supportingDocuments"; "metadata" ].

Definition toJSON (this : value) : result value :=
  List.fold_left
    (fun acc s =>
       bind acc (fun o => bind (get_prop this s) (fun x => set_prop o s x)))
    sections (Ok (VObj [])).

Fixpoint chars_from (i : nat) (s : string) : list (string * value) :=
  match s with
  | EmptyString => []
  | String c r =>
      (Str.of_Z (Z.of_nat i), VStr (String c EmptyString)) :: chars_from (S i) r
  end.

Fixpoint elems_from (i : nat) (elems : list value) : list (string * value) :=
  match elems with
  | [] => []
  | e :: r => (Str.of_Z (Z.of_nat i), e) :: elems_from (S i) r
  end.

(** The members that [...v] copies: those of an object, the elements and
    members of an array (every element counts as present), the characters
    of a string, none of any other value. *)
Definition own_entries (v : value) : list (string * value) :=
  match v with
  | VObj props => props
  | VArr elems props => (elems_from 0 elems ++ props)%list
  | VDate _ props => props
  | VStr s => chars_from 0 s
  | _ => []
  end.

(** [{ ...a, ...b }] *)
Definition spread (a b : value) : value :=
  VObj (List.fold_left (fun o kv => entries_set o (fst kv) (snd kv))
          (own_entries a ++ own_entries b)%list []).

(** One statement [if (data.s) this.s = { ...this.s, ...data.s }]. *)
Definition import_section (data : value) (this : result value) (s : string)
  : result value :=
  bind this (fun this =>
  bind (get_prop data s) (fun incoming =>
    if truthy incoming then
      bind (get_prop this s) (fun current =>
        set_prop this s (spread current incoming))
    else Ok this)).

(** [fromJSON], where [now] is [new Date().toISOString()]. *)
Definition fromJSON (data : value) (now : string) (this : value)
  : result value :=
  bind (List.fold_left (import_section data) sections (Ok this)) (fun this =>
  bind (get_prop this "metadata") (fun metadata =>
  bind (set_prop metadata "updatedAt" (VStr now)) (fun metadata' =>
    set_prop this "metadata" metadata'))).

End Profile.

(* ===================================================================== *)
(** ** [src/unnamed/part_001]: the validation engine *)

Module FormValidator.
Import JS.

(** [validateDate(dateStr, format)]; [None] is the default format. *)
Definition validateDate (dateStr : value) (format : option string) : bool :=
  match dateStr with
  | VStr s =>
      if negb (truthy dateStr) then false
      else
        let format := match format with Some f => f | None => "MM/DD/YYYY" end in
        if String.eqb format "MM/DD/YYYY" then
          if Str.is_mdy_date s then
            let month := Str.parseInt (String.substring 0 2 s) in
            let day := Str.parseInt (String.substring 3 2 s) in
            let year := Str.parseInt (String.substring 6 4 s) in
            if (month <? 1) || (12 <? month) then false
            else if (day <? 1) || (31 <? day) then false
            else if (year <? 1900) || (2100 <? year) then false
            else
              let date := Calendar.Date_ymd year (month - 1) day in
              (dt_year date =? year) && (dt_month date =? month - 1)
              && (dt_day date =? day)
          else false
        else false
  | _ => false
  end.

(** The result of [validateProfile]. *)
Record profile_validation : Type :=
  { pv_isValid : bool;
    pv_personalInfo : DataModels.validation;
    pv_immigrationDetails : DataModels.validation;
    pv_eligibility : DataModels.validation;
    pv_allErrors : list string }.

(** [results.isValid = false; results.allErrors.push(...v.errors)] when the
    section is not valid. *)
Definition note_section (acc : bool * list string) (v : DataModels.validation)
  : bool * list string :=
  if negb (DataModels.isValid v)
  then (false, (snd acc ++ DataModels.errors v)%list)
  else acc.

Definition validateProfile (profile : value) : result profile_validation :=
  let results := (true, []) in
  bind (Profile.validatePersonalInfo profile) (fun personalValidation =>
  let results := note_section results personalValidation in
  bind (Profile.validateImmigrationDetails profile) (fun immigrationValidation =>
  let results := note_section results immigrationValidation in
  bind (DataModels.validateEligibility profile) (fun eligibilityValidation =>
  let results := note_section results eligibilityValidation in
  Ok {| pv_isValid := fst results;
        pv_personalInfo := personalValidation;
        pv_immigrationDetails := immigrationValidation;
        pv_eligibility := eligibilityValidation;
        pv_allErrors := snd results |}))).

End FormValidator.

(* ===================================================================== *)
(** ** Notions used to state what the code does *)

Module Notions.
Import JS.

(** A descriptor that [buildMapping] takes, under the id: it has a
    [field_id] and a [data_path], neither empty. *)
Definition indexed (f : FieldMapper.field) (id : string) : Prop :=
  FieldMapper.field_id f = Some id /\ id <> ""
  /\ exists path, FieldMapper.data_path f = Some path /\ path <> "".

(** The first field of the document, in the document's order, whose name
    matches one of the patterns. *)
Definition first_match (fm : PDFLib.form) (patterns : list string)
  : option string :=
  List.find (fun n => List.existsb (PDFProcessor.pattern_matches n) patterns)
    (PDFLib.field_names fm).

(** The first match of the first pattern list written for a key that has
    one. *)
Fixpoint alias_for (es : list (string * list string)) (fm : PDFLib.form)
  (k : string) : option string :=
  match es with
  | [] => None
  | (k', patterns) :: r =>
      if String.eqb k' k then
        match first_match fm patterns with
        | Some n => Some n
        | None => alias_for r fm k
        end
      else alias_for r fm k
  end.

(** The innermost loop of [buildFieldNameMapping], for one item number and
    one field. *)
Definition try_patterns (itemNumber name : string)
  (mapping : list (string * string)) (patterns : list string)
  : list (string * string) :=
  List.fold_left
    (fun mapping pattern =>
       if PDFProcessor.pattern_matches name pattern then
         if negb (PDFProcessor.has_key mapping itemNumber)
         then entries_set mapping itemNumber name
         else mapping
       else mapping)
    patterns mapping.

(** What filling leaves alone in a field: its name, its kind and its
    maximum length. *)
Definition shape (f : PDFLib.pdf_field)
  : string * PDFLib.field_kind * option nat :=
  (PDFLib.name f, PDFLib.kind f, PDFLib.maxLength f).

(** All text is on the first page, which holds [n] lines besides the
    title, and the pages after it are blank. *)
Definition first_page_only (n : nat) (st : PDFScratch.scratch) : Prop :=
  exists first k,
    PDFScratch.pages st = first :: List.repeat [] k
    /\ List.length first = S n
    /\ Forall (fun d => PDFScratch.d_x d = 50
                        /\ 50 <= PDFScratch.d_y d <= 742) first
    /\ 30 <= PDFScratch.yPosition st <= 742.

End Notions.

(* ===================================================================== *)
(** ** Concrete hosts and inputs used by the examples *)

Module Samples.
Import JS PDFLib.

(** A host whose [Date] constructor accepts no free-form string. *)
Definition strict_host : Host :=
  {| Date_parse := fun _ => None;
     Date_toString := fun _ => "Thu Jan 01 1970" |}.

(** A byte format that is the document itself. *)
Definition identity_codec : Codec :=
  {| bytes := document; save := fun d => d; load := fun b => Some b |}.

(** The value mapping of the specification's example. *)
Definition h1b_mapping : list (string * value) :=
  [ ("H-1B", VStr "h1b_code"); ("checked", VStr "X") ].

(** A form whose only field is a check box, not yet checked. *)
Definition reason_form : form :=
  [ {| name := "Part1_Reason_Box"; kind := CheckBox; text := "";
       checked := false; maxLength := None |} ].

Definition entry (v : value) (pdfFieldName : string) : FieldMapper.resolved :=
  {| FieldMapper.rf_value := v;
     FieldMapper.rf_pdfFieldName := pdfFieldName;
     FieldMapper.rf_field :=
       {| FieldMapper.field_id := Some "reason";
          FieldMapper.data_path := Some "eligibilityInfo.applicationPurpose";
          FieldMapper.pdf_field_name := Some pdfFieldName;
          FieldMapper.item_number := None;
          FieldMapper.type := Some "Radio";
          FieldMapper.value_mapping := None |};
     FieldMapper.rf_originalValue := v |}.

(** A schema of one part with one check box. *)
Definition renewal_field : FieldMapper.field :=
  {| FieldMapper.field_id := Some "renewal";
     FieldMapper.data_path := Some "eligibilityInfo.isRenewal";
     FieldMapper.pdf_field_name := None;
     FieldMapper.item_number := Some "1.c.";
     FieldMapper.type := Some "Checkbox";
     FieldMapper.value_mapping := None |}.

Definition renewal_config : FieldMapper.config :=
  {| FieldMapper.parts :=
       Some [ {| FieldMapper.fields := Some [renewal_field] |} ] |}.

(** A document with a text field and a check box, and a processor that has
    it as its template. *)
Definition name_form : form :=
  [ {| name := "FamilyName"; kind := TextField; text := "";
       checked := false; maxLength := None |};
    {| name := "Part1_Reason_Box"; kind := CheckBox; text := "";
       checked := false; maxLength := None |} ].

Definition name_document : document :=
  {| form_fields := name_form; static_content := [] |}.

Definition loaded_world : PDFProcessor.world :=
  {| PDFProcessor.this :=
       {| PDFProcessor.pdfLib := true;
          PDFProcessor.templatePDF := Some 0%nat;
          PDFProcessor.initialized := true |};
     PDFProcessor.docs := [name_document] |}.

Definition fresh_world : PDFProcessor.world :=
  {| PDFProcessor.this := PDFProcessor.new_PDFProcessor;
     PDFProcessor.docs := [] |}.

(** An environment in which the library is there, and the document as an
    [ArrayBuffer]. *)
Definition library_env : @PDFProcessor.environment identity_codec :=
  {| PDFProcessor.library_available := true;
     PDFProcessor.fetch := fun _ => None |}.

Definition name_buffer : @PDFProcessor.template_source identity_codec :=
  PDFProcessor.ArrayBuffer (name_document : @bytes identity_codec).




(** A profile and a schema with one descriptor of each of the three types
    whose values survive the round trip. *)
Definition applicant : value :=
  VObj [ ("personalInfo",
           VObj [ ("lastName", VStr "Smith");
                  ("dateOfBirth", VStr "1990-07-04") ]);
         ("paymentInfo", VObj [ ("isPaid", VBool true) ]) ].

Definition plain_field (id path ty : string) : FieldMapper.field :=
  {| FieldMapper.field_id := Some id;
     FieldMapper.data_path := Some path;
     FieldMapper.pdf_field_name := None;
     FieldMapper.item_number := None;
     FieldMapper.type := Some ty;
     FieldMapper.value_mapping := None |}.

Definition applicant_parts : list FieldMapper.part :=
  [ {| FieldMapper.fields :=
         Some [ plain_field "last_name" "personalInfo.lastName" "Text Input";
                plain_field "dob" "personalInfo.dateOfBirth" "Date Input" ] |};
    {| FieldMapper.fields := None |};
    {| FieldMapper.fields :=
         Some [ plain_field "paid" "paymentInfo.isPaid" "Checkbox" ] |} ].

Definition applicant_config : FieldMapper.config :=
  {| FieldMapper.parts := Some applicant_parts |}.

(** A form with one text field of at most ten characters, and an entry
    that declares its name. *)
Definition city_field : pdf_field :=
  {| name := "Pt2Line7_City"; kind := TextField; text := "";
     checked := false; maxLength := Some 10%nat |}.

Definition city_form : form := [ city_field ].

Definition city_entry (v : string) : string * FieldMapper.resolved :=
  ("city",
   {| FieldMapper.rf_value := VStr v;
      FieldMapper.rf_pdfFieldName := "Pt2Line7_City";
      FieldMapper.rf_field :=
        plain_field "city" "personalInfo.contact.address.city" "Text Input";
      FieldMapper.rf_originalValue := VStr v |}).

(** The members of a profile as the constructor leaves it, and of its
    metadata and its personal information. *)
Definition new_profile : value :=
  DataModels.new_ApplicantProfile "2025-12-09T08:00:00.000Z" 1765267200000
    "k3x9q2a".

Definition new_profile_members : list (string * value) :=
  Profile.own_entries new_profile.

Definition new_metadata_members : list (string * value) :=
  Profile.own_entries
    (DataModels.metadata_init "2025-12-09T08:00:00.000Z" 1765267200000
       "k3x9q2a").

Definition new_personalInfo_members : list (string * value) :=
  Profile.own_entries DataModels.personalInfo_init.

(** Data to import that holds an e-mail address and nothing else. *)
Definition email_contact : list (string * value) :=
  [ ("email", VStr "a@b.c") ].

Definition email_personalInfo : list (string * value) :=
  [ ("contact", VObj email_contact) ].

Definition email_data : list (string * value) :=
  [ ("personalInfo", VObj email_personalInfo) ].

End Samples.

(* ===================================================================== *)
(** * Properties *)

Import JS.

(** ** Own properties *)

Lemma entries_get_absent :
  forall {A} (es : list (string * A)) (k : string),
    ~ In k (List.map fst es) -> entries_get es k = None.
Proof.
  intros A es k. induction es as [|[k' v] r IH]; simpl; intros Hk.
  - reflexivity.
  - destruct (String.eqb_spec k' k) as [->|Hne].
    + exfalso. apply Hk. now left.
    + apply IH. intros Hin. apply Hk. now right.
Qed.

Lemma entries_get_present :
  forall {A} (es : list (string * A)) (k : string),
    In k (List.map fst es) <-> exists v, entries_get es k = Some v.
Proof.
  intros A es k. induction es as [|[k' v] r IH]; simpl.
  - split; [tauto | intros [v Hv]; discriminate].
  - destruct (String.eqb_spec k' k) as [->|Hne].
    + split; [intros _; now exists v | intros _; now left].
    + rewrite <- IH. split; [intros [H|H]; [congruence | exact H] | now right].
Qed.

Lemma entries_set_same :
  forall {A} (es : list (string * A)) (k : string) (v : A),
    entries_get es k = Some v -> entries_set es k v = es.
Proof.
  intros A es k v. induction es as [|[k' v'] r IH]; simpl; intros H.
  - discriminate.
  - destruct (String.eqb_spec k' k) as [->|Hne].
    + congruence.
    + now rewrite IH.
Qed.

Lemma entries_get_set :
  forall {A} (es : list (string * A)) (k k' : string) (v : A),
    entries_get (entries_set es k v) k'
    = if String.eqb k k' then Some v else entries_get es k'.
Proof.
  intros A es k k' v. induction es as [|[k0 v0] r IH]; simpl.
  - reflexivity.
  - destruct (String.eqb_spec k0 k) as [->|Hne]; simpl.
    + destruct (String.eqb_spec k k'); reflexivity.
    + rewrite IH. destruct (String.eqb_spec k0 k') as [->|Hne'].
      * destruct (String.eqb_spec k k'); [congruence | reflexivity].
      * reflexivity.
Qed.

Lemma entries_set_keys :
  forall {A} (es : list (string * A)) (k k' : string) (v : A),
    In k' (List.map fst (entries_set es k v))
    <-> k' = k \/ In k' (List.map fst es).
Proof.
  intros A es k k' v. rewrite !entries_get_present.
  setoid_rewrite entries_get_set.
  destruct (String.eqb_spec k k') as [->|Hne].
  - split; [now left | intros _; now exists v].
  - split; [now right | intros [H|H]; [congruence | exact H]].
Qed.

(** ** Path resolution *)

Lemma get_prop_total :
  forall (v : value) (k : string),
    v <> VUndefined -> v <> VNull -> exists x, get_prop v k = Ok x.
Proof.
  intros v k Hu Hn. destruct v; simpl; try congruence; eauto.
  - destruct (String.eqb k "length"); eauto.
    destruct (array_index k); eauto.
    destruct (String.get n s); eauto.
  - destruct (array_index k); eauto.
    destruct (String.eqb k "length"); eauto.
Qed.

(** Reading never throws: a missing container on the way gives
    [undefined]. *)
Lemma get_walk_total :
  forall (parts : list string) (current : value),
    exists v, FieldMapper.get_walk current parts = Ok v.
Proof.
  induction parts as [|part rest IH]; intros current; simpl.
  - eauto.
  - assert (Hstep : forall c k (f : value -> result value),
              c <> VUndefined -> c <> VNull ->
              (forall x, exists v, f x = Ok v) ->
              exists v, bind (get_prop c k) f = Ok v).
    { intros c k f Hu Hn Hf. destruct (get_prop_total c k Hu Hn) as [x ->].
      simpl. apply Hf. }
    destruct current; eauto;
      destruct (Str.all_digits part); cbn [isArray];
      try solve [eauto];
      apply Hstep; try discriminate; intros x;
      try destruct (is_undefined x); eauto.
Qed.

Lemma getNestedValue_total :
  forall (obj : value) (path : string),
    exists v, FieldMapper.getNestedValue obj path = Ok v.
Proof.
  intros obj path. unfold FieldMapper.getNestedValue.
  destruct (_ || _); eauto using get_walk_total.
Qed.

(** A digit segment is an index into an array and is never looked up as a
    key: on anything that is no array it reads [undefined], even where the
    object has a member of that name. *)
Lemma get_walk_digits_not_keyed :
  forall (current : value) (part : string) (rest : list string),
    Str.all_digits part = true -> isArray current = false ->
    FieldMapper.get_walk current (part :: rest) = Ok VUndefined.
Proof.
  intros current part rest Hd Ha. simpl. rewrite Hd.
  destruct current; simpl in *; congruence.
Qed.

Section Paths.
Import FieldMapper.

(** Writing back what was read. *)











(** Writing along keys. *)






End Paths.

(** C2, the write path at the specification's own example path: on an empty
    object [setNestedValue] creates [documents] as an object, puts an array
    under its key ["1"] and the value on that array, and [getNestedValue],
    which indexes arrays only, reads [undefined] at the same path.  The same
    happens where the last segment is the digit one. *)
Theorem setNestedValue_numeric_segment_not_read_back :
  FieldMapper.setNestedValue (VObj []) "documents.1.number" (VStr "x")
  = (VObj [("documents", VObj [("1", VArr [] [("number", VStr "x")])])], None)
  /\ FieldMapper.getNestedValue
       (fst (FieldMapper.setNestedValue (VObj []) "documents.1.number" (VStr "x")))
       "documents.1.number" = Ok VUndefined
  /\ FieldMapper.setNestedValue (VObj []) "tags.0" (VStr "x")
     = (VObj [("tags", VObj [("0", VStr "x")])], None)
  /\ FieldMapper.getNestedValue
       (fst (FieldMapper.setNestedValue (VObj []) "tags.0" (VStr "x")))
       "tags.0" = Ok VUndefined.
Proof. repeat split; reflexivity. Qed.

(** Where the array is there, the digit segment is its index and the value
    written is read back. *)
Example setNestedValue_into_existing_array :
  FieldMapper.getNestedValue
    (fst (FieldMapper.setNestedValue (VObj [("documents", VArr [] [])])
            "documents.1.number" (VStr "x")))
    "documents.1.number" = Ok (VStr "x").
Proof. reflexivity. Qed.

(** ** Value mapping *)



(** ** Dates *)

Lemma is_digit_cases :
  forall c, Str.is_digit c = true -> In c Str.digit_chars.
Proof.
  intros c. destruct c as [[] [] [] [] [] [] [] []];
    intros H; try discriminate H; simpl; auto 12.
Qed.

Lemma digit_not_dash :
  forall c, Str.is_digit c = true -> Ascii.eqb c "-"%char = false.
Proof.
  intros c H. apply is_digit_cases in H. simpl in H.
  decompose [or] H; subst; try contradiction; reflexivity.
Qed.

Lemma two_digits_printed :
  forall a b,
    Str.is_digit a = true -> Str.is_digit b = true ->
    Str.padStart2 (Str.of_Z (Str.parseInt (String a (String b EmptyString))))
    = String a (String b EmptyString).
Proof.
  intros a b Ha Hb.
  assert (H : Str.two_digits_print = true) by (vm_compute; reflexivity).
  unfold Str.two_digits_print in H.
  rewrite forallb_forall in H. specialize (H a (is_digit_cases a Ha)).
  rewrite forallb_forall in H. specialize (H b (is_digit_cases b Hb)).
  now apply String.eqb_eq in H.
Qed.

Lemma four_digits_printed :
  forall a b c d,
    Str.is_digit a = true -> Str.is_digit b = true ->
    Str.is_digit c = true -> Str.is_digit d = true ->
    1000 <= Str.parseInt (String a (String b (String c (String d EmptyString)))) ->
    Str.of_Z (Str.parseInt (String a (String b (String c (String d EmptyString)))))
    = String a (String b (String c (String d EmptyString))).
Proof.
  intros a b c d Ha Hb Hc Hd Hy.
  assert (H : Str.four_digits_print = true) by (vm_compute; reflexivity).
  unfold Str.four_digits_print in H.
  rewrite forallb_forall in H. specialize (H a (is_digit_cases a Ha)).
  rewrite forallb_forall in H. specialize (H b (is_digit_cases b Hb)).
  rewrite forallb_forall in H. specialize (H c (is_digit_cases c Hc)).
  rewrite forallb_forall in H. specialize (H d (is_digit_cases d Hd)).
  apply Z.leb_le in Hy. cbv zeta in H. rewrite Hy in H. simpl in H.
  now apply String.eqb_eq in H.
Qed.

(** A day that lies in its month is taken as it is. *)
Lemma Date_ymd_calendar :
  forall year month day,
    1000 <= year -> 1 <= month <= 12 ->
    1 <= day <= Calendar.days_in_month year (month - 1) ->
    Calendar.Date_ymd year (month - 1) day
    = {| dt_year := year; dt_month := month - 1; dt_day := day; dt_ms := 0 |}.
Proof.
  intros year month day Hy Hm Hd. unfold Calendar.Date_ymd.
  replace ((0 <=? year) && (year <=? 99)) with false
    by (symmetry; apply andb_false_iff; right; apply Z.leb_gt; lia).
  rewrite Z.div_small, Z.mod_small, Z.add_0_r by lia.
  cbn [Calendar.roll].
  replace (day <? 1) with false by (symmetry; apply Z.ltb_ge; lia).
  replace (Calendar.days_in_month year (month - 1) <? day) with false
    by (symmetry; apply Z.ltb_ge; lia).
  reflexivity.
Qed.

Section Dates.
Context {host : Host}.
Import FieldMapper.

Lemma iso_date_chars :
  forall s,
    Str.is_iso_date s = true ->
    exists y1 y2 y3 y4 m1 m2 a1 a2,
      s = String y1 (String y2 (String y3 (String y4 (String "-"
            (String m1 (String m2 (String "-"
            (String a1 (String a2 EmptyString)))))))))
      /\ Str.is_digit y1 = true /\ Str.is_digit y2 = true
      /\ Str.is_digit y3 = true /\ Str.is_digit y4 = true
      /\ Str.is_digit m1 = true /\ Str.is_digit m2 = true
      /\ Str.is_digit a1 = true /\ Str.is_digit a2 = true.
Proof.
  intros s H.
  destruct s as [|y1 [|y2 [|y3 [|y4 [|d1 [|m1 [|m2 [|d2 [|a1 [|a2 [|x r]]]]]]]]]]];
    try discriminate H.
  cbn [Str.is_iso_date] in H.
  repeat (apply andb_true_iff in H; destruct H as [H ?]).
  repeat match goal with
         | E : Ascii.eqb _ _ = true |- _ => apply Ascii.eqb_eq in E; subst
         end.
  exists y1, y2, y3, y4, m1, m2, a1, a2. repeat split; try assumption.
  unfold Str.is_digit. cbv zeta. apply andb_true_iff. split; assumption.
Qed.

Lemma formatDate_calendar :
  forall s,
    calendar_date s = true ->
    formatDate (VStr s)
    = String.substring 5 2 s ++ "/" ++ String.substring 8 2 s ++ "/"
      ++ String.substring 0 4 s.
Proof.
  intros s H. unfold calendar_date in H.
  apply andb_true_iff in H. destruct H as [Hiso H].
  destruct (iso_date_chars s Hiso)
    as (y1 & y2 & y3 & y4 & m1 & m2 & a1 & a2 & -> & Hy1 & Hy2 & Hy3 & Hy4
        & Hm1 & Hm2 & Ha1 & Ha2).
  cbn [String.substring] in *. cbv zeta in H.
  repeat (apply andb_true_iff in H; destruct H as [H ?]).
  repeat match goal with
         | E : (_ <=? _) = true |- _ => apply Z.leb_le in E
         end.
  unfold formatDate. cbn [truthy String.eqb negb].
  rewrite Hiso. unfold Str.split. cbn [Str.split_aux].
  rewrite (digit_not_dash _ Hy1), (digit_not_dash _ Hy2),
    (digit_not_dash _ Hy3), (digit_not_dash _ Hy4), (digit_not_dash _ Hm1),
    (digit_not_dash _ Hm2), (digit_not_dash _ Ha1), (digit_not_dash _ Ha2).
  cbn -[Str.parseInt Calendar.Date_ymd Str.of_Z format_mdy].
  rewrite Date_ymd_calendar by lia.
  unfold format_mdy. cbn [dt_year dt_month dt_day].
  replace (Str.parseInt (String m1 (String m2 "")) - 1 + 1)
    with (Str.parseInt (String m1 (String m2 ""))) by lia.
  rewrite !two_digits_printed, four_digits_printed by assumption.
  reflexivity.
Qed.

Lemma formatDate_calendar_mdy :
  forall s, calendar_date s = true ->
            Str.is_mdy_date (formatDate (VStr s)) = true.
Proof.
  intros s H. rewrite (formatDate_calendar s H).
  unfold calendar_date in H. apply andb_true_iff in H. destruct H as [Hiso _].
  destruct (iso_date_chars s Hiso)
    as (y1 & y2 & y3 & y4 & m1 & m2 & a1 & a2 & -> & Hy1 & Hy2 & Hy3 & Hy4
        & Hm1 & Hm2 & Ha1 & Ha2).
  cbn. rewrite Hy1, Hy2, Hy3, Hy4, Hm1, Hm2, Ha1, Ha2. reflexivity.
Qed.


Lemma formatDate_mdy :
  forall s, Str.is_mdy_date s = true -> formatDate (VStr s) = s.
Proof.
  intros s H. unfold formatDate.
  destruct s as [|m1 [|m2 [|d1 [|a1 [|a2 [|d2 [|y1 [|y2 [|y3 [|y4 [|x r]]]]]]]]]]];
    try discriminate H.
  cbn [truthy String.eqb negb]. rewrite H.
  replace (Str.is_iso_date _) with false; [reflexivity|].
  cbn [Str.is_mdy_date] in H.
  repeat (apply andb_true_iff in H; destruct H as [H ?]).
  match goal with
  | E : Ascii.eqb d1 _ = true |- _ => apply Ascii.eqb_eq in E; subst d1
  end.
  cbn [Str.is_iso_date].
  destruct (Str.is_digit m1), (Str.is_digit m2); reflexivity.
Qed.

End Dates.

(** C6: [formatDate] turns ["2025-01-15"] into ["01/15/2025"]; it returns
    every string of the form [MM/DD/YYYY] unchanged, and so formats its own
    result on a calendar date to that same result; and a value it cannot
    read as a date (a string in neither form that the host's [Date] rejects,
    an invalid [Date], a value that is neither a string nor a [Date]) gives
    the empty string. *)
Theorem formatDate_examples_and_idempotence :
  forall host : Host,
    FieldMapper.formatDate (VStr "2025-01-15") = "01/15/2025"
    /\ FieldMapper.formatDate (VStr "01/15/2025") = "01/15/2025"
    /\ (forall s, Str.is_mdy_date s = true ->
                  FieldMapper.formatDate (VStr s) = s)
    /\ (forall s, FieldMapper.calendar_date s = true ->
                  FieldMapper.formatDate (VStr (FieldMapper.formatDate (VStr s)))
                  = FieldMapper.formatDate (VStr s))
    /\ (forall s, Str.is_iso_date s = false -> Str.is_mdy_date s = false ->
                  Date_parse s = None ->
                  FieldMapper.formatDate (VStr s) = "")
    /\ (forall props, FieldMapper.formatDate (VDate None props) = "")
    /\ (forall v, (forall s, v <> VStr s) -> (forall t props, v <> VDate t props) ->
                  FieldMapper.formatDate v = "").
Proof.
  intros host. split; [reflexivity|]. split; [reflexivity|].
  split; [exact formatDate_mdy|]. split.
  - intros s H. apply formatDate_mdy, formatDate_calendar_mdy, H.
  - split; [|split].
    + intros s Hiso Hmdy Hparse. unfold FieldMapper.formatDate.
      rewrite Hiso, Hmdy, Hparse. simpl. now destruct (negb _).
    + reflexivity.
    + intros v Hs Hd. unfold FieldMapper.formatDate.
      destruct v; try (now destruct (negb _)).
      * exfalso. now apply (Hs s).
      * exfalso. now apply (Hd t props).
Qed.

Lemma formatDate_examples_and_idempotence_witness :
  FieldMapper.formatDate (host := Samples.strict_host)
    (VStr (FieldMapper.formatDate (host := Samples.strict_host)
             (VStr "2024-02-29")))
  = FieldMapper.formatDate (host := Samples.strict_host) (VStr "2024-02-29")
  /\ FieldMapper.formatDate (host := Samples.strict_host) (VStr "next Tuesday")
     = "".
Proof.
  destruct (formatDate_examples_and_idempotence Samples.strict_host)
    as (_ & _ & _ & Hidem & Hbad & _).
  split.
  - apply Hidem. reflexivity.
  - apply Hbad; reflexivity.
Defined.

(** ** From profile to form data *)

Section Mapping.
Context {host : Host}.
Import FieldMapper.

Lemma getNestedValue_resolve :
  forall profile path, getNestedValue profile path = Ok (resolve profile path).
Proof.
  intros profile path. unfold resolve.
  destruct (getNestedValue_total profile path) as [v ->]. reflexivity.
Qed.

Lemma map_field_add_entry :
  forall profile fd f, map_field profile fd f = Ok (add_entry profile fd f).
Proof.
  intros profile fd f. unfold add_entry, field_entry, map_field.
  destruct (negb (present (field_id f)) || negb (present (data_path f)));
    [reflexivity|].
  destruct (field_id f) as [id|]; [|reflexivity].
  destruct (data_path f) as [path|]; [|reflexivity].
  rewrite getNestedValue_resolve. simpl.
  destruct (_ || _); reflexivity.
Qed.

Lemma map_fields_fold :
  forall profile fs fd,
    map_fields profile fd fs = Ok (List.fold_left (add_entry profile) fs fd).
Proof.
  intros profile fs. induction fs as [|f rest IH]; intros fd; simpl.
  - reflexivity.
  - rewrite map_field_add_entry. simpl. apply IH.
Qed.

Lemma map_parts_fold :
  forall profile ps fd,
    map_parts profile fd ps
    = Ok (List.fold_left (add_entry profile) (all_fields ps) fd).
Proof.
  intros profile ps. induction ps as [|p rest IH]; intros fd; simpl.
  - reflexivity.
  - destruct (fields p) as [fs|]; simpl.
    + rewrite map_fields_fold. simpl. rewrite fold_left_app. apply IH.
    + apply IH.
Qed.

(** When a descriptor contributes an entry, and under which key. *)
Lemma field_entry_some :
  forall profile f id r,
    field_entry profile f = Some (id, r) <->
    exists path,
      field_id f = Some id /\ id <> "" /\ data_path f = Some path /\ path <> ""
      /\ (non_empty (resolve profile path)
          \/ type f = Some "Checkbox" \/ type f = Some "Radio")
      /\ r = {| rf_value :=
                  formatValue
                    (match value_mapping f with
                     | Some mapping => applyValueMapping (resolve profile path) mapping
                     | None => resolve profile path
                     end) (type f);
                rf_pdfFieldName :=
                  match or_else (or_else (pdf_field_name f) (item_number f))
                          (field_id f) with
                  | Some n => n
                  | None => id
                  end;
                rf_field := f;
                rf_originalValue := resolve profile path |}.
Proof.
  intros profile f id r. unfold field_entry, map_field.
  assert (Hp : forall s, present (Some s) = true <-> s <> "").
  { intros s. simpl. destruct (String.eqb_spec s ""); simpl; split; congruence. }
  assert (Hinc : forall v,
    (negb (is_undefined v) && negb (strict_eq v VNull)
       && negb (strict_eq v (VStr "")) || type_is f "Checkbox"
       || type_is f "Radio") = true
    <-> (non_empty v \/ type f = Some "Checkbox" \/ type f = Some "Radio")).
  { intros v. unfold type_is, non_empty.
    rewrite !orb_true_iff, !andb_true_iff, !negb_true_iff.
    assert (H1 : is_undefined v = false <-> v <> VUndefined)
      by (destruct v; simpl; split; congruence).
    assert (H2 : strict_eq v VNull = false <-> v <> VNull)
      by (destruct v; simpl; split; congruence).
    assert (H3 : strict_eq v (VStr "") = false <-> v <> VStr "").
    { destruct v; simpl; try (split; congruence).
      destruct (String.eqb_spec s ""); split; congruence. }
    assert (H4 : forall t, match type f with
                           | Some s => String.eqb s t
                           | None => false
                           end = true <-> type f = Some t).
    { intros t. destruct (type f) as [s|]; [|split; congruence].
      destruct (String.eqb_spec s t); split; congruence. }
    rewrite H1, H2, H3, !H4. tauto. }
  destruct (field_id f) as [i|]; [|simpl; split; [discriminate|];
    intros (path & H & _); discriminate].
  destruct (data_path f) as [path|];
    [|rewrite orb_true_r; split; [discriminate|];
      intros (p & _ & _ & H & _); discriminate].
  destruct (present (Some i)) eqn:Hi;
    destruct (present (Some path)) eqn:Hpath; cbn [negb orb];
    try (split; [discriminate|];
         intros (p & H1 & H2 & H3 & H4 & _);
         injection H1 as ->; injection H3 as ->;
         apply Hp in H2; apply Hp in H4; congruence).
  rewrite getNestedValue_resolve. simpl bind.
  apply Hp in Hi. apply Hp in Hpath.
  destruct (_ || _) eqn:Hincl.
  - apply Hinc in Hincl. simpl. split.
    + intros H. injection H as <- <-. exists path. repeat split; auto.
    + intros (p & H1 & _ & H2 & _ & _ & ->).
      injection H1 as ->. injection H2 as ->. reflexivity.
  - split; [discriminate|].
    intros (p & _ & _ & H2 & _ & H3 & _). injection H2 as ->.
    apply Hinc in H3. congruence.
Qed.

Lemma fold_add_entry_keys :
  forall profile fs fd k,
    In k (List.map fst (List.fold_left (add_entry profile) fs fd)) <->
    In k (List.map fst fd)
    \/ exists f r, In f fs /\ field_entry profile f = Some (k, r).
Proof.
  intros profile fs. induction fs as [|f rest IH]; intros fd k; simpl.
  - split; [now left | intros [H | (f & r & [] & _)]; exact H].
  - rewrite IH. unfold add_entry at 1.
    destruct (field_entry profile f) as [[id r]|] eqn:He.
    + rewrite entries_set_keys. split.
      * intros [[-> | H] | (g & r' & Hg & He')].
        -- right. exists f, r. auto.
        -- now left.
        -- right. exists g, r'. auto.
      * intros [H | (g & r' & [<- | Hg] & He')].
        -- left. now right.
        -- left. left. congruence.
        -- right. exists g, r'. auto.
    + split.
      * intros [H | (g & r' & Hg & He')]; [now left|].
        right. exists g, r'. auto.
      * intros [H | (g & r' & [<- | Hg] & He')]; [now left | congruence |].
        right. exists g, r'. auto.
Qed.

End Mapping.

(** C3: [mapProfileToForm] returns; a descriptor with [field_id] and
    [data_path] set whose type is Checkbox or Radio has its [field_id] among
    the keys of the result whatever its path resolves to; and every key of
    the result is the [field_id] of a descriptor with both set whose path
    resolves to a non-empty value or whose type is Checkbox or Radio. *)
Theorem mapProfileToForm_keys :
  forall (host : Host) (cfg : FieldMapper.config)
         (ps : list FieldMapper.part) (profile : value),
    FieldMapper.parts cfg = Some ps ->
    exists fd,
      FieldMapper.mapProfileToForm (Some cfg) profile = Ok fd
      /\ (forall f id path,
            In f (FieldMapper.all_fields ps) ->
            FieldMapper.field_id f = Some id -> id <> "" ->
            FieldMapper.data_path f = Some path -> path <> "" ->
            FieldMapper.type f = Some "Checkbox"
            \/ FieldMapper.type f = Some "Radio" ->
            In id (List.map fst fd))
      /\ (forall k,
            In k (List.map fst fd) ->
            exists f path v,
              In f (FieldMapper.all_fields ps)
              /\ FieldMapper.field_id f = Some k /\ k <> ""
              /\ FieldMapper.data_path f = Some path /\ path <> ""
              /\ FieldMapper.getNestedValue profile path = Ok v
              /\ (FieldMapper.non_empty v
                  \/ FieldMapper.type f = Some "Checkbox"
                  \/ FieldMapper.type f = Some "Radio")).
Proof.
  intros host cfg ps profile Hps.
  exists (List.fold_left (FieldMapper.add_entry profile)
            (FieldMapper.all_fields ps) []).
  unfold FieldMapper.mapProfileToForm. rewrite Hps.
  split; [apply map_parts_fold|]. split.
  - intros f id path Hf Hid Hne Hpath Hpne Hty.
    apply fold_add_entry_keys. right. exists f. eexists. split; [exact Hf|].
    apply field_entry_some. exists path. repeat split; auto.
  - intros k Hk. apply fold_add_entry_keys in Hk.
    destruct Hk as [[] | (f & r & Hf & He)].
    apply field_entry_some in He.
    destruct He as (path & Hid & Hne & Hpath & Hpne & Hinc & _).
    exists f, path, (FieldMapper.resolve profile path).
    repeat split; auto using getNestedValue_resolve.
    all: try (destruct Hinc as [[? [? ?]]|?]; tauto).
Qed.

Lemma mapProfileToForm_keys_witness :
  exists fd,
    FieldMapper.mapProfileToForm (host := Samples.strict_host)
      (Some Samples.renewal_config) (VObj []) = Ok fd
    /\ In "renewal" (List.map fst fd).
Proof.
  destruct (mapProfileToForm_keys Samples.strict_host Samples.renewal_config
              [ {| FieldMapper.fields := Some [Samples.renewal_field] |} ]
              (VObj []) eq_refl) as (fd & Hfd & Hin & _).
  exists fd. split; [exact Hfd|].
  apply (Hin Samples.renewal_field "renewal" "eligibilityInfo.isRenewal").
  - simpl. now left.
  - reflexivity.
  - discriminate.
  - reflexivity.
  - discriminate.
  - now left.
Defined.

(** ** The round trip *)

Section RoundTrip.
Context {host : Host}.
Import FieldMapper.






Lemma unmap_fields_fixed :
  forall fd profile fs,
    (forall f, In f fs -> unmap_field fd profile f = (profile, None)) ->
    unmap_fields fd profile fs = (profile, None).
Proof.
  intros fd profile fs. induction fs as [|f rest IH]; intros H; simpl.
  - reflexivity.
  - rewrite (H f) by now left. apply IH. intros g Hg. apply H. now right.
Qed.

Lemma unmap_parts_fixed :
  forall fd profile ps,
    (forall f, In f (all_fields ps) ->
               unmap_field fd profile f = (profile, None)) ->
    unmap_parts fd profile ps = (profile, None).
Proof.
  intros fd profile ps. induction ps as [|p rest IH]; intros H; simpl.
  - reflexivity.
  - simpl in H. destruct (fields p) as [fs|].
    + rewrite unmap_fields_fixed
        by (intros f Hf; apply H, in_or_app; now left).
      apply IH. intros f Hf. apply H, in_or_app. now right.
    + apply IH. exact H.
Qed.



End RoundTrip.




Section OtherLosses.
Import FieldMapper.

(** Further values that do not come back, each with a descriptor of a type
    named in the claim: a day that is not in its month, a check box held as
    the string ["true"], and a check box with a [checked] mapping. *)
Example round_trip_other_losses :
  (parseValue (host := Samples.strict_host)
     (formatValue (host := Samples.strict_host)
        (VStr "2025-02-30") (Some "Date Input")) (Some "Date Input")
   = Ok (VStr "2025-03-02"))
  /\ (parseValue (host := Samples.strict_host)
        (formatValue (host := Samples.strict_host)
           (VStr "true") (Some "Checkbox")) (Some "Checkbox")
      = Ok (VBool true))
  /\ (parseValue (host := Samples.strict_host)
        (reverseValueMapping
           (formatValue (host := Samples.strict_host)
              (applyValueMapping (host := Samples.strict_host)
                 (VBool true) Samples.h1b_mapping)
              (Some "Checkbox"))
           Samples.h1b_mapping)
        (Some "Checkbox")
      = Ok (VBool false)).
Proof. repeat split; reflexivity. Qed.

End OtherLosses.

(** ** Filling *)

Section Filling.
Context {host : Host}.
Import PDFLib PDFProcessor.

Lemma update_names :
  forall (g : pdf_field -> pdf_field) (fm : form) (n : string),
    (forall f, name (g f) = name f) ->
    field_names (update fm n g) = field_names fm.
Proof.
  intros g fm n Hg. unfold field_names.
  induction fm as [|f r IH]; simpl.
  - reflexivity.
  - destruct (String.eqb (name f) n); simpl; [now rewrite Hg | now rewrite IH].
Qed.

Lemma getField_absent :
  forall (fm : form) (n : string),
    ~ In n (field_names fm) -> getField fm n = None.
Proof.
  intros fm n. unfold getField, field_names.
  induction fm as [|f r IH]; simpl; intros H.
  - reflexivity.
  - destruct (String.eqb_spec (name f) n) as [Heq|Hne].
    + exfalso. apply H. now left.
    + apply IH. intros Hin. apply H. now right.
Qed.

Lemma try_name_names :
  forall test fm n v fm' ty,
    try_name test fm n v = Some (fm', ty) -> field_names fm' = field_names fm.
Proof.
  intros test fm n v fm' ty. unfold try_name, setText, check, uncheck.
  destruct (getTextField fm n) as [field|e]; simpl.
  - destruct (maxLength field) as [m|].
    + destruct (m <? String.length (text_of v))%nat.
      * destruct (getCheckBox fm n); [|discriminate].
        intros H. injection H as <- _.
        destruct (test v); now apply update_names.
      * intros H. injection H as <- _. now apply update_names.
    + intros H. injection H as <- _. now apply update_names.
  - destruct (getCheckBox fm n); [|discriminate].
    intros H. injection H as <- _.
    destruct (test v); now apply update_names.
Qed.

Lemma try_name_absent :
  forall test fm n v, ~ In n (field_names fm) -> try_name test fm n v = None.
Proof.
  intros test fm n v H. unfold try_name, getTextField, getCheckBox.
  now rewrite (getField_absent fm n H).
Qed.

Lemma try_variations_names :
  forall fm vs v fm' n ty,
    try_variations fm vs v = Some (fm', n, ty) ->
    field_names fm' = field_names fm.
Proof.
  intros fm vs v fm' n ty. induction vs as [|x r IH]; simpl; [discriminate|].
  destruct (try_name should_check fm x v) as [[f t]|] eqn:Ht.
  - intros H. injection H as <- _ _. eapply try_name_names; eassumption.
  - exact IH.
Qed.

Lemma try_variations_absent :
  forall fm vs v,
    (forall n, In n vs -> ~ In n (field_names fm)) ->
    try_variations fm vs v = None.
Proof.
  intros fm vs v. induction vs as [|x r IH]; simpl; intros H; [reflexivity|].
  rewrite try_name_absent by (apply H; now left).
  apply IH. intros n Hn. apply H. now right.
Qed.

Lemma find_absent :
  forall {A} (p : A -> bool) (l : list A),
    (forall x, In x l -> p x = false) -> List.find p l = None.
Proof.
  intros A p l. induction l as [|x r IH]; simpl; intros H; [reflexivity|].
  rewrite (H x) by now left. apply IH. intros y Hy. apply H. now right.
Qed.

(** An entry changes the form and the two lists in a way that does not
    depend on the failures recorded so far, which it only adds to. *)
Lemma fill_entry_frame :
  forall m ns fm fl e,
    exists fm' fl' added,
      field_names fm' = field_names fm
      /\ forall fa,
           fill_entry m ns
             {| fs_form := fm; filledFields := fl; failedFields := fa |} e
           = {| fs_form := fm'; filledFields := fl';
                failedFields := (fa ++ added)%list |}.
Proof.
  intros m ns fm fl [fieldId fieldData]. unfold fill_entry.
  cbn [fs_form filledFields failedFields].
  destruct (String.eqb (FieldMapper.rf_pdfFieldName fieldData) "").
  { exists fm, fl, []. split; [reflexivity|]. intros fa. now rewrite app_nil_r. }
  match goal with
  | |- context [try_variations fm ?vs ?v] =>
      destruct (try_variations fm vs v) as [[[fm' n] ty]|] eqn:Hv
  end.
  { eexists fm', _, []. split; [eapply try_variations_names; eassumption|].
    intros fa. rewrite app_nil_r. reflexivity. }
  match goal with
  | |- context [List.find ?p ns] => destruct (List.find p ns) as [similar|]
  end.
  - destruct (String.eqb similar "").
    { eexists fm, fl, [_]. split; [reflexivity|]. intros fa. reflexivity. }
    match goal with
    | |- context [try_name should_check_fuzzy fm similar ?v] =>
        destruct (try_name should_check_fuzzy fm similar v)
          as [[fm' ty]|] eqn:Hn
    end.
    + eexists fm', _, []. split; [eapply try_name_names; eassumption|].
      intros fa. rewrite app_nil_r. reflexivity.
    + eexists fm, fl, [_]. split; [reflexivity|]. intros fa. reflexivity.
  - eexists fm, fl, [_]. split; [reflexivity|]. intros fa. reflexivity.
Qed.

Lemma fill_entries_frame :
  forall m ns fd fm fl,
    exists fm' fl' added,
      field_names fm' = field_names fm
      /\ forall fa,
           List.fold_left (fill_entry m ns) fd
             {| fs_form := fm; filledFields := fl; failedFields := fa |}
           = {| fs_form := fm'; filledFields := fl';
                failedFields := (fa ++ added)%list |}.
Proof.
  intros m ns fd. induction fd as [|e rest IH]; intros fm fl; simpl.
  - exists fm, fl, []. split; [reflexivity|]. intros fa. now rewrite app_nil_r.
  - destruct (fill_entry_frame m ns fm fl e) as (fm1 & fl1 & a1 & Hn1 & H1).
    destruct (IH fm1 fl1) as (fm2 & fl2 & a2 & Hn2 & H2).
    exists fm2, fl2, (a1 ++ a2)%list. split; [congruence|].
    intros fa. rewrite H1, H2, app_assoc. reflexivity.
Qed.

(** An unresolvable entry is recorded as failed and changes nothing else. *)
Lemma fill_entry_unresolvable :
  forall fm0 fm fl fa fieldId fieldData,
    field_names fm = field_names fm0 ->
    FieldMapper.rf_pdfFieldName fieldData <> "" ->
    unresolvable fm0 (FieldMapper.rf_pdfFieldName fieldData) ->
    fill_entry (buildFieldNameMapping fm0) (field_names fm0)
      {| fs_form := fm; filledFields := fl; failedFields := fa |}
      (fieldId, fieldData)
    = {| fs_form := fm; filledFields := fl;
         failedFields := (fa ++ [failure fieldId fieldData])%list |}.
Proof.
  intros fm0 fm fl fa fieldId fieldData Hn Hne (Halias & Hvar & Hfuzzy).
  unfold fill_entry. cbn [fs_form filledFields failedFields].
  destruct (String.eqb_spec (FieldMapper.rf_pdfFieldName fieldData) "");
    [contradiction|].
  unfold actual_name. rewrite Halias.
  rewrite try_variations_absent by (rewrite Hn; exact Hvar).
  rewrite (find_absent _ _ Hfuzzy). reflexivity.
Qed.

Lemma fill_fields_skips_unresolvable :
  forall fm fd1 fd2 fieldId fieldData,
    FieldMapper.rf_pdfFieldName fieldData <> "" ->
    unresolvable fm (FieldMapper.rf_pdfFieldName fieldData) ->
    exists fm' fl failed1 failed2,
      fill_fields fm (fd1 ++ (fieldId, fieldData) :: fd2)%list
      = {| fs_form := fm'; filledFields := fl;
           failedFields :=
             (failed1 ++ failure fieldId fieldData :: failed2)%list |}
      /\ fill_fields fm (fd1 ++ fd2)%list
         = {| fs_form := fm'; filledFields := fl;
              failedFields := (failed1 ++ failed2)%list |}.
Proof.
  intros fm fd1 fd2 fieldId fieldData Hne Hun. unfold fill_fields.
  rewrite !fold_left_app. cbn [List.fold_left].
  destruct (fill_entries_frame (buildFieldNameMapping fm) (field_names fm)
              fd1 fm []) as (fm1 & fl1 & a1 & Hn1 & H1).
  rewrite (H1 []). cbn [app].
  rewrite (fill_entry_unresolvable fm fm1 fl1 a1 fieldId fieldData Hn1 Hne Hun).
  destruct (fill_entries_frame (buildFieldNameMapping fm) (field_names fm)
              fd2 fm1 fl1) as (fm2 & fl2 & a2 & Hn2 & H2).
  rewrite !H2. exists fm2, fl2, a1, a2. split; [|reflexivity].
  now rewrite <- app_assoc.
Qed.

End Filling.

(** C7: when the template is loaded and one entry of the form data has a
    declared name that the document answers in none of the three ways,
    [fillForm] returns; that entry is in the failed-fields list; and the
    bytes, the filled fields and the other failures are those of the same
    call without the entry, so every other field is filled as if the
    failing one had not been there. *)
Theorem unresolved_field_does_not_abort_fill :
  forall (host : Host) (codec : PDFLib.Codec) (w : PDFProcessor.world)
         (t : nat) (template pdfDoc : PDFLib.document)
         (fd1 fd2 : FieldMapper.formData) (fieldId : string)
         (fieldData : FieldMapper.resolved) (opts : PDFProcessor.options),
    PDFProcessor.templatePDF (PDFProcessor.this w) = Some t ->
    PDFProcessor.pdfLib (PDFProcessor.this w) = true ->
    nth_error (PDFProcessor.docs w) t = Some template ->
    PDFLib.load (PDFLib.save template) = Some pdfDoc ->
    FieldMapper.rf_pdfFieldName fieldData <> "" ->
    PDFProcessor.unresolvable (PDFLib.form_fields pdfDoc)
      (FieldMapper.rf_pdfFieldName fieldData) ->
    exists bytes filled failed1 failed2 w',
      PDFProcessor.fillForm (fd1 ++ (fieldId, fieldData) :: fd2)%list opts w
      = (Ok (bytes, filled,
             (failed1 ++ PDFProcessor.failure fieldId fieldData :: failed2)%list),
         w')
      /\ PDFProcessor.fillForm (fd1 ++ fd2)%list opts w
         = (Ok (bytes, filled, (failed1 ++ failed2)%list), w').
Proof.
  intros host codec w t template pdfDoc fd1 fd2 fieldId fieldData opts
         Ht Hlib Hn Hl Hne Hun.
  destruct (fill_fields_skips_unresolvable (PDFLib.form_fields pdfDoc)
              fd1 fd2 fieldId fieldData Hne Hun)
    as (fm' & fl & a1 & a2 & H1 & H2).
  unfold PDFProcessor.fillForm. rewrite Ht, Hlib, Hn, Hl. simpl.
  rewrite H1, H2. simpl. repeat eexists.
Qed.

Lemma unresolved_field_does_not_abort_fill_witness :
  exists bytes filled failed1 failed2 w',
    PDFProcessor.fillForm (host := Samples.strict_host)
      (codec := Samples.identity_codec)
      ([("lastName", Samples.entry (VStr "Smith") "1.a.")]
         ++ ("mystery", Samples.entry (VStr "?") "zz.99")
         :: [("reason", Samples.entry (VStr "Yes") "reason")])%list
      PDFProcessor.default_options Samples.loaded_world
    = (Ok (bytes, filled,
           (failed1
              ++ PDFProcessor.failure "mystery" (Samples.entry (VStr "?") "zz.99")
              :: failed2)%list), w')
    /\ PDFProcessor.fillForm (host := Samples.strict_host)
         (codec := Samples.identity_codec)
         ([("lastName", Samples.entry (VStr "Smith") "1.a.")]
            ++ [("reason", Samples.entry (VStr "Yes") "reason")])%list
         PDFProcessor.default_options Samples.loaded_world
       = (Ok (bytes, filled, (failed1 ++ failed2)%list), w').
Proof.
  apply (unresolved_field_does_not_abort_fill Samples.strict_host
           Samples.identity_codec Samples.loaded_world 0
           Samples.name_document Samples.name_document).
  - reflexivity.
  - reflexivity.
  - reflexivity.
  - reflexivity.
  - discriminate.
  - split; [reflexivity|]. split.
    + intros n Hn. simpl in Hn.
      decompose [or] Hn; subst; simpl; intuition discriminate.
    + intros n Hn. simpl in Hn.
      decompose [or] Hn; subst; try contradiction; reflexivity.
Defined.

(** ** Check boxes *)

(** C4, the fuzzy-match branch: its test leaves out ['initial'],
    ['replacement'] and ['renewal'], which the test of the other branch
    accepts.  The check box [Part1_Reason_Box] is found for the declared
    name [reason] by substring only, and the value ['initial'] leaves it
    unchecked, where the same value checks it when the declared name is the
    field's own, and where ['Yes'] checks it on the fuzzy branch too. *)
Theorem fuzzy_checkbox_ignores_domain_tokens :
  forall host : Host,
    (forall token, In token ["initial"; "replacement"; "renewal"] ->
                   PDFProcessor.should_check (VStr token) = true
                   /\ PDFProcessor.should_check_fuzzy (VStr token) = false)
    /\ List.map PDFLib.checked
         (PDFProcessor.fs_form
            (PDFProcessor.fill_fields Samples.reason_form
               [("reason", Samples.entry (VStr "initial") "Part1_Reason_Box")]))
       = [true]
    /\ List.map PDFLib.checked
         (PDFProcessor.fs_form
            (PDFProcessor.fill_fields Samples.reason_form
               [("reason", Samples.entry (VStr "initial") "reason")]))
       = [false]
    /\ List.map PDFProcessor.fl_type
         (PDFProcessor.filledFields
            (PDFProcessor.fill_fields Samples.reason_form
               [("reason", Samples.entry (VStr "initial") "reason")]))
       = ["checkbox"]
    /\ List.map PDFLib.checked
         (PDFProcessor.fs_form
            (PDFProcessor.fill_fields Samples.reason_form
               [("reason", Samples.entry (VStr "Yes") "reason")]))
       = [true].
Proof.
  intros host. split; [|repeat split; reflexivity].
  intros token Ht. simpl in Ht.
  decompose [or] Ht; subst; try contradiction; split; reflexivity.
Qed.

(** ** The template *)

Section Template.
Context {host : Host} {codec : PDFLib.Codec}.
Import PDFProcessor.



(** A [loadTemplate] that returns leaves the library set and the template
    referring to a document that exists. *)
Lemma loadTemplate_loaded :
  forall env src w w1,
    loadTemplate env src w = (Ok tt, w1) ->
    exists t d,
      pdfLib (this w1) = true
      /\ templatePDF (this w1) = Some t
      /\ nth_error (docs w1) t = Some d.
Proof.
  intros env src w w1 H. unfold loadTemplate in H.
  remember (if negb (initialized (this w)) then snd (initialize env w) else w)
    as w0 eqn:Hw0.
  destruct (pdfLib (this w0)) eqn:Hlib; simpl in H; [|discriminate].
  destruct (match src with
            | Url url => _
            | ArrayBuffer b => _
            | OtherSource => _
            end) as [b|e]; [|discriminate].
  destruct (PDFLib.load b) as [d|]; [|discriminate].
  injection H as <-. exists (List.length (docs w0)), d. simpl.
  repeat split.
  rewrite nth_error_app2, Nat.sub_diag by apply Nat.le_refl. reflexivity.
Qed.

End Template.


(** C8: with no template loaded, [fillForm] and [getFormFieldNames] throw
    and leave the processor and the documents as they were; once
    [loadTemplate] has returned, [getFormFieldNames] returns the names, and
    [fillForm] returns wherever the library reads back the bytes it saves. *)
Theorem missing_template_is_hard_failure :
  forall (host : Host) (codec : PDFLib.Codec) (w : PDFProcessor.world)
         (fd : FieldMapper.formData) (opts : PDFProcessor.options),
    PDFProcessor.templatePDF (PDFProcessor.this w) = None ->
    PDFProcessor.fillForm fd opts w
    = (Throw (Error "PDF template not loaded"), w)
    /\ PDFProcessor.getFormFieldNames w
       = (Throw (Error "PDF template not loaded"), w)
    /\ forall env src w1,
         PDFProcessor.loadTemplate env src w = (Ok tt, w1) ->
         (exists names, PDFProcessor.getFormFieldNames w1 = (Ok names, w1))
         /\ ((forall d, PDFLib.load (PDFLib.save d) <> None) ->
             exists out w2, PDFProcessor.fillForm fd opts w1 = (Ok out, w2)).
Proof.
  intros host codec w fd opts Hnone.
  unfold PDFProcessor.fillForm, PDFProcessor.getFormFieldNames.
  rewrite Hnone. split; [reflexivity|]. split; [reflexivity|].
  intros env src w1 H.
  destruct (loadTemplate_loaded env src w w1 H) as (t & d & Hlib & Ht & Hd).
  rewrite Ht, Hd, Hlib. simpl. split; [eauto|].
  intros Hrt. destruct (PDFLib.load (PDFLib.save d)) as [pdfDoc|] eqn:Hl.
  - eauto.
  - exfalso. exact (Hrt d Hl).
Qed.

Lemma missing_template_is_hard_failure_witness :
  PDFProcessor.fillForm (host := Samples.strict_host)
    (codec := Samples.identity_codec) [] PDFProcessor.default_options
    Samples.fresh_world
  = (Throw (Error "PDF template not loaded"), Samples.fresh_world)
  /\ exists out w2,
       PDFProcessor.fillForm (host := Samples.strict_host)
         (codec := Samples.identity_codec) [] PDFProcessor.default_options
         (snd (PDFProcessor.loadTemplate Samples.library_env
                 Samples.name_buffer Samples.fresh_world))
       = (Ok out, w2).
Proof.
  destruct (missing_template_is_hard_failure Samples.strict_host
              Samples.identity_codec Samples.fresh_world []
              PDFProcessor.default_options eq_refl) as (Hfill & _ & Hlater).
  split; [exact Hfill|].
  apply (proj2 (Hlater Samples.library_env Samples.name_buffer
                  (snd (PDFProcessor.loadTemplate Samples.library_env
                          Samples.name_buffer Samples.fresh_world))
                  eq_refl)).
  intros d. discriminate.
Defined.

(** ** Applicant profile *)

(** C10: on a profile shaped by the constructor, [validateEligibility]
    returns, and what it returns is decided by [category] and
    [applicationPurpose] alone: the test for earlier denials reads members
    that [eligibilityInfo] does not have, so the warning is never among the
    errors, whatever [workAuthorization] holds. *)
Theorem validateEligibility_ignores_prior_denials :
  forall (profile : value) (props : list (string * value)),
    DataModels.constructor_shaped profile props ->
    let category := props_get props "category" in
    let purpose := props_get props "applicationPurpose" in
    DataModels.validateEligibility profile
    = Ok {| DataModels.isValid := truthy category && truthy purpose;
            DataModels.errors :=
              (if truthy category then [] else ["EAD category is required"])
              ++ (if truthy purpose then []
                  else ["Application purpose is required"]) |}
    /\ forall r, DataModels.validateEligibility profile = Ok r ->
                 ~ In DataModels.denial_warning (DataModels.errors r).
Proof.
  intros profile props [Hget Hkeys] category purpose.
  assert (Hd : props_get props "previouslyDeniedEAD" = VUndefined).
  { unfold props_get. rewrite entries_get_absent; [reflexivity|].
    rewrite Hkeys. vm_compute. intuition discriminate. }
  assert (Hr : props_get props "previouslyRevokedEAD" = VUndefined).
  { unfold props_get. rewrite entries_get_absent; [reflexivity|].
    rewrite Hkeys. vm_compute. intuition discriminate. }
  assert (Heq : DataModels.validateEligibility profile
    = Ok {| DataModels.isValid := truthy category && truthy purpose;
            DataModels.errors :=
              (if truthy category then [] else ["EAD category is required"])
              ++ (if truthy purpose then []
                  else ["Application purpose is required"]) |}).
  { unfold DataModels.validateEligibility. rewrite Hget. simpl.
    rewrite Hd. simpl. rewrite Hr. simpl.
    fold category purpose. unfold DataModels.push_if.
    destruct (truthy category), (truthy purpose); reflexivity. }
  split; [exact Heq|].
  intros r Hrr. rewrite Heq in Hrr. injection Hrr as <-. simpl.
  destruct (truthy category), (truthy purpose); simpl;
    vm_compute; intuition discriminate.
Qed.

Lemma validateEligibility_ignores_prior_denials_witness :
  let denied :=
    fst (FieldMapper.setNestedValue
           (DataModels.new_ApplicantProfile "2025-12-09T00:00:00.000Z" 0 "abc")
           "eligibilityInfo.workAuthorization.previouslyDeniedEAD"
           (VBool true)) in
  FieldMapper.getNestedValue denied
    "eligibilityInfo.workAuthorization.previouslyDeniedEAD" = Ok (VBool true)
  /\ exists r, DataModels.validateEligibility denied = Ok r
               /\ DataModels.errors r
                  = ["EAD category is required";
                     "Application purpose is required"].
Proof.
  intros denied. split; [reflexivity|].
  destruct (validateEligibility_ignores_prior_denials denied
              (match get_prop denied "eligibilityInfo" with
               | Ok (VObj ps) => ps
               | _ => []
               end)) as [H _].
  { split; reflexivity. }
  eexists. split; [exact H | reflexivity].
Defined.
(* ===================================================================== *)
(** * Further properties *)

Import Notions.

(** ** More on path resolution *)

(** X1: reading never throws, whatever the object and the path are: a
    path that leaves the object reads [undefined], and so do the empty path
    and each of the false values [undefined], [null], [false], [0] and the
    empty string in the place of the object. *)
Theorem getNestedValue_never_throws :
  forall (obj : value) (path : string),
    (exists v, FieldMapper.getNestedValue obj path = Ok v)
    /\ FieldMapper.getNestedValue obj "" = Ok VUndefined
    /\ FieldMapper.getNestedValue VUndefined path = Ok VUndefined
    /\ FieldMapper.getNestedValue VNull path = Ok VUndefined
    /\ FieldMapper.getNestedValue (VBool false) path = Ok VUndefined
    /\ FieldMapper.getNestedValue (VNum 0) path = Ok VUndefined
    /\ FieldMapper.getNestedValue (VStr "") path = Ok VUndefined.
Proof.
  intros obj path. split; [apply getNestedValue_total|].
  unfold FieldMapper.getNestedValue. cbn [truthy negb Z.eqb String.eqb].
  rewrite !orb_true_r. repeat split.
Qed.

(** X2: a path that starts with a digit segment reads [undefined] from
    everything that is not an array, also from an object that has a member
    of that name. *)
Theorem getNestedValue_digit_segment_needs_array :
  forall (obj : value) (path part : string) (rest : list string),
    Str.split "."%char path = part :: rest ->
    Str.all_digits part = true ->
    isArray obj = false ->
    FieldMapper.getNestedValue obj path = Ok VUndefined.
Proof.
  intros obj path part rest Hs Hd Ha. unfold FieldMapper.getNestedValue.
  destruct (_ || _); [reflexivity|].
  rewrite Hs. now apply get_walk_digits_not_keyed.
Qed.

Lemma getNestedValue_digit_segment_needs_array_witness :
  FieldMapper.getNestedValue (VObj [("1", VStr "x")]) "1" = Ok VUndefined.
Proof.
  apply (getNestedValue_digit_segment_needs_array _ "1" "1" []);
    reflexivity.
Defined.



Section Frame.
Import FieldMapper.


End Frame.



(** ** More on value mappings *)

Section Reverse.
Context {host : Host}.
Import FieldMapper.

Lemma entries_get_In :
  forall {A} (es : list (string * A)) k x,
    entries_get es k = Some x -> In (k, x) es.
Proof.
  intros A es k x. induction es as [|[k' v] r IH]; simpl; [discriminate|].
  destruct (String.eqb_spec k' k) as [->|Hne].
  - intros H. injection H as ->. now left.
  - intros H. right. now apply IH.
Qed.

Lemma reverse_lookup_found :
  forall v es r,
    reverse_lookup v es = Some r ->
    exists key mappedVal,
      In (key, mappedVal) es /\ strict_eq mappedVal v = true
      /\ r = (if String.eqb key "checked" then VBool true else VStr key).
Proof.
  intros v es r. induction es as [|[key mappedVal] rest IH]; simpl;
    [discriminate|].
  destruct (strict_eq mappedVal v) eqn:He.
  - intros H. injection H as <-. exists key, mappedVal. auto.
  - intros H. destruct (IH H) as (k & m & Hin & Hs & Hr).
    exists k, m. auto.
Qed.

Lemma reverse_lookup_finds :
  forall v es key mappedVal,
    In (key, mappedVal) es -> strict_eq mappedVal v = true ->
    exists r, reverse_lookup v es = Some r.
Proof.
  intros v es key mappedVal. induction es as [|[k m] rest IH]; simpl;
    [contradiction|].
  intros [H | H] Hs.
  - injection H as -> ->. rewrite Hs. eauto.
  - destruct (strict_eq m v); eauto.
Qed.

End Reverse.

(** X5: where no two members of a value mapping hold the same value, the
    reverse mapping undoes the mapping: a string that is a key other than
    [checked] goes to its member and comes back, and [true] goes to the
    [checked] member and comes back. *)
Theorem reverseValueMapping_undoes_applyValueMapping :
  forall (host : Host) (mapping : list (string * value)) (key : string)
         (mapped : value),
    entries_get mapping key = Some mapped ->
    mapped <> VUndefined -> strict_eq mapped mapped = true ->
    (forall key' mapped', In (key', mapped') mapping ->
                          strict_eq mapped' mapped = true -> key' = key) ->
    let v := if String.eqb key "checked" then VBool true else VStr key in
    FieldMapper.applyValueMapping v mapping = mapped
    /\ FieldMapper.reverseValueMapping
         (FieldMapper.applyValueMapping v mapping) mapping = v.
Proof.
  intros host mapping key mapped Hget Hdef Hprim Huniq v.
  assert (Hu : is_undefined mapped = false)
    by (destruct mapped; simpl; congruence).
  assert (Happ : FieldMapper.applyValueMapping v mapping = mapped).
  { unfold FieldMapper.applyValueMapping, props_get. subst v.
    destruct (String.eqb_spec key "checked") as [->|Hne].
    - rewrite Hget, Hu. reflexivity.
    - cbn [strict_eq to_string]. rewrite andb_false_r, Hget, Hu. reflexivity. }
  split; [exact Happ|]. rewrite Happ.
  unfold FieldMapper.reverseValueMapping.
  destruct (reverse_lookup_finds mapped mapping key mapped
              (entries_get_In _ _ _ Hget) Hprim) as [r Hr].
  rewrite Hr. apply reverse_lookup_found in Hr.
  destruct Hr as (k' & m' & Hin & Hs & ->).
  now rewrite (Huniq k' m' Hin Hs).
Qed.

Lemma reverseValueMapping_undoes_applyValueMapping_witness :
  FieldMapper.reverseValueMapping
    (FieldMapper.applyValueMapping (host := Samples.strict_host)
       (VStr "H-1B") Samples.h1b_mapping) Samples.h1b_mapping
  = VStr "H-1B".
Proof.
  apply (proj2 (reverseValueMapping_undoes_applyValueMapping
                  Samples.strict_host Samples.h1b_mapping "H-1B"
                  (VStr "h1b_code") eq_refl ltac:(discriminate) eq_refl
                  ltac:(intros k m H Hs; simpl in H;
                        decompose [or] H; try contradiction;
                        match goal with
                        | E : (_, _) = (_, _) |- _ =>
                            injection E as <- <-
                        end; (reflexivity || discriminate Hs)))).
Defined.

(** ** More on dates *)

Lemma days_in_month_bounds :
  forall y m, 28 <= Calendar.days_in_month y m <= 31.
Proof.
  intros y m. unfold Calendar.days_in_month.
  destruct (m =? 1); [destruct (Calendar.is_leap y); lia|].
  destruct (_ || _); lia.
Qed.

Lemma roll_calendar :
  forall fuel y m d,
    0 <= m <= 11 ->
    (d < 1 -> 1 - d <= 28 * Z.of_nat fuel) ->
    (1 <= d -> d <= 28 * Z.of_nat fuel \/ d <= Calendar.days_in_month y m) ->
    let '(y', m', d') := Calendar.roll fuel y m d in
    0 <= m' <= 11 /\ 1 <= d' <= Calendar.days_in_month y' m'.
Proof.
  induction fuel as [|fuel IH]; intros y m d Hm Hlow Hhigh.
  - simpl. pose proof (days_in_month_bounds y m). lia.
  - cbn [Calendar.roll].
    destruct (Z.ltb_spec d 1) as [Hd|Hd].
    + set (y' := if m =? 0 then y - 1 else y).
      set (m' := if m =? 0 then 11 else m - 1).
      pose proof (days_in_month_bounds y' m').
      apply IH.
      * subst m'. destruct (Z.eqb_spec m 0); lia.
      * intros. lia.
      * intros. right. lia.
    + destruct (Z.ltb_spec (Calendar.days_in_month y m) d) as [Hover|Hin].
      * pose proof (days_in_month_bounds y m).
        apply IH.
        -- destruct (Z.eqb_spec m 11); lia.
        -- intros. lia.
        -- intros. left. lia.
      * lia.
Qed.

(** [new Date(year, monthIndex, day)] is a day of the calendar, whatever the
    three numbers are. *)
Lemma Date_ymd_is_calendar_day :
  forall year monthIndex day,
    let t := Calendar.Date_ymd year monthIndex day in
    0 <= dt_month t <= 11
    /\ 1 <= dt_day t <= Calendar.days_in_month (dt_year t) (dt_month t).
Proof.
  intros year monthIndex day. unfold Calendar.Date_ymd.
  set (yr := if (0 <=? year) && (year <=? 99) then 1900 + year else year).
  pose proof (roll_calendar (S (Z.to_nat (Z.abs day)))
                (yr + monthIndex / 12) (monthIndex mod 12) day) as H.
  destruct (Calendar.roll _ _ _ _) as [[y m] d]. simpl.
  apply H.
  - pose proof (Z.mod_pos_bound monthIndex 12). lia.
  - intros. lia.
  - intros. left. lia.
Qed.

Section MoreDates.
Context {host : Host}.
Import FieldMapper.

Lemma formatDate_iso :
  forall s,
    Str.is_iso_date s = true ->
    formatDate (VStr s)
    = format_mdy
        (Some (Calendar.Date_ymd
                 (Str.parseInt (String.substring 0 4 s))
                 (Str.parseInt (String.substring 5 2 s) - 1)
                 (Str.parseInt (String.substring 8 2 s)))).
Proof.
  intros s Hiso.
  destruct (iso_date_chars s Hiso)
    as (y1 & y2 & y3 & y4 & m1 & m2 & a1 & a2 & -> & Hy1 & Hy2 & Hy3 & Hy4
        & Hm1 & Hm2 & Ha1 & Ha2).
  unfold formatDate. cbn [truthy String.eqb negb String.substring].
  rewrite Hiso. unfold Str.split. cbn [Str.split_aux].
  rewrite (digit_not_dash _ Hy1), (digit_not_dash _ Hy2),
    (digit_not_dash _ Hy3), (digit_not_dash _ Hy4), (digit_not_dash _ Hm1),
    (digit_not_dash _ Hm2), (digit_not_dash _ Ha1), (digit_not_dash _ Ha2).
  cbn -[Str.parseInt Calendar.Date_ymd Str.of_Z format_mdy].
  reflexivity.
Qed.


End MoreDates.

(** X6: [formatDate] never rejects a string of the form [YYYY-MM-DD]: a
    month or a day out of range is carried over, and the result is
    [MM/DD/] and the year of a day of the calendar, never the empty
    string. *)
Theorem formatDate_carries_over :
  forall (host : Host) (s : string),
    Str.is_iso_date s = true ->
    exists year month day,
      1 <= month <= 12
      /\ 1 <= day <= Calendar.days_in_month year (month - 1)
      /\ FieldMapper.formatDate (VStr s)
         = Str.padStart2 (Str.of_Z month) ++ "/" ++ Str.padStart2 (Str.of_Z day)
           ++ "/" ++ Str.of_Z year
      /\ FieldMapper.formatDate (VStr s) <> "".
Proof.
  intros host s Hiso. rewrite (formatDate_iso s Hiso).
  pose proof (Date_ymd_is_calendar_day
                (Str.parseInt (String.substring 0 4 s))
                (Str.parseInt (String.substring 5 2 s) - 1)
                (Str.parseInt (String.substring 8 2 s))) as H.
  cbv zeta in H.
  set (t := Calendar.Date_ymd _ _ _) in *.
  exists (dt_year t), (dt_month t + 1), (dt_day t).
  replace (dt_month t + 1 - 1) with (dt_month t) by lia.
  repeat split; try lia.
  unfold FieldMapper.format_mdy.
  destruct (Str.padStart2 (Str.of_Z (dt_month t + 1))) as [|c r] eqn:Hp;
    [|discriminate].
  unfold Str.padStart2 in Hp.
  destruct (Str.of_Z (dt_month t + 1)) as [|c0 [|c1 r1]]; discriminate.
Qed.

Lemma formatDate_carries_over_witness :
  FieldMapper.formatDate (host := Samples.strict_host) (VStr "2025-02-30") <> "".
Proof.
  destruct (formatDate_carries_over Samples.strict_host "2025-02-30" eq_refl)
    as (y & m & d & _ & _ & _ & H).
  exact H.
Defined.




(** ** The validation engine *)

Lemma Date_ymd_overflow :
  forall year month day,
    100 <= year -> 1 <= month <= 12 -> 1 <= day <= 31 ->
    Calendar.days_in_month year (month - 1) < day ->
    dt_month (Calendar.Date_ymd year (month - 1) day) <> month - 1.
Proof.
  intros year month day Hy Hm Hd Hover. unfold Calendar.Date_ymd.
  replace ((0 <=? year) && (year <=? 99)) with false
    by (symmetry; apply andb_false_iff; right; apply Z.leb_gt; lia).
  rewrite Z.div_small, Z.mod_small, Z.add_0_r by lia.
  pose proof (days_in_month_bounds year (month - 1)) as Hb.
  destruct (Z.to_nat (Z.abs day)) as [|fuel] eqn:Hf; [lia|].
  cbn [Calendar.roll].
  replace (day <? 1) with false by (symmetry; apply Z.ltb_ge; lia).
  replace (Calendar.days_in_month year (month - 1) <? day) with true
    by (symmetry; apply Z.ltb_lt; lia).
  set (y' := if month - 1 =? 11 then year + 1 else year).
  set (m' := if month - 1 =? 11 then 0 else month - 1 + 1).
  pose proof (days_in_month_bounds y' m') as Hb'.
  replace (day - Calendar.days_in_month year (month - 1) <? 1) with false
    by (symmetry; apply Z.ltb_ge; lia).
  replace (Calendar.days_in_month y' m'
           <? day - Calendar.days_in_month year (month - 1)) with false
    by (symmetry; apply Z.ltb_ge; lia).
  simpl. subst m'. destruct (Z.eqb_spec (month - 1) 11); lia.
Qed.

Lemma validateDate_default_format :
  forall (s : string),
    let month := Str.parseInt (String.substring 0 2 s) in
    let day := Str.parseInt (String.substring 3 2 s) in
    let year := Str.parseInt (String.substring 6 4 s) in
    FormValidator.validateDate (VStr s) None = true
    <-> Str.is_mdy_date s = true
        /\ 1 <= month <= 12
        /\ 1 <= day <= Calendar.days_in_month year (month - 1)
        /\ 1900 <= year <= 2100.
Proof.
  intros s month day year.
  unfold FormValidator.validateDate. fold month day year.
  destruct (Str.is_mdy_date s) eqn:Hmdy.
  - assert (Hne : negb (truthy (VStr s)) = false).
    { destruct s; [discriminate Hmdy | reflexivity]. }
    rewrite Hne. cbn [String.eqb Ascii.eqb Bool.eqb andb].
    change ("MM/DD/YYYY" =? "MM/DD/YYYY")%string with true. cbv iota.
    pose proof (days_in_month_bounds year (month - 1)) as Hb.
    destruct (Z.ltb_spec month 1); cbn [orb]; [split; [discriminate | lia]|].
    destruct (Z.ltb_spec 12 month); cbn [orb]; [split; [discriminate | lia]|].
    destruct (Z.ltb_spec day 1); cbn [orb]; [split; [discriminate | lia]|].
    destruct (Z.ltb_spec 31 day); cbn [orb]; [split; [discriminate | lia]|].
    destruct (Z.ltb_spec year 1900); cbn [orb]; [split; [discriminate | lia]|].
    destruct (Z.ltb_spec 2100 year); cbn [orb]; [split; [discriminate | lia]|].
    destruct (Z_le_gt_dec day (Calendar.days_in_month year (month - 1)))
      as [Hin|Hover].
    + rewrite Date_ymd_calendar by lia. cbn [dt_year dt_month dt_day].
      rewrite !Z.eqb_refl. split; [intros _; repeat split; lia | reflexivity].
    + pose proof (Date_ymd_overflow year month day) as Hov.
      split; [|lia].
      intros Hv. apply andb_true_iff in Hv. destruct Hv as [Hv _].
      apply andb_true_iff in Hv. destruct Hv as [_ Hv].
      apply Z.eqb_eq in Hv. exfalso. apply Hov; lia.
  - destruct (negb (truthy (VStr s))); cbn;
      (split; [discriminate | intros [H _]; discriminate]).
Qed.


(** X9: a date of the profile that is a day of the calendar in a year from
    1900 to 2100, once [formatDate] has formatted it, passes
    [validateDate]. *)
Theorem formatted_date_passes_validateDate :
  forall (host : Host) (s : string),
    FieldMapper.calendar_date s = true ->
    1900 <= Str.parseInt (String.substring 0 4 s) <= 2100 ->
    FormValidator.validateDate (VStr (FieldMapper.formatDate (VStr s))) None
    = true.
Proof.
  intros host s Hcal Hyear.
  pose proof (formatDate_calendar_mdy s Hcal) as Hmdy.
  rewrite (formatDate_calendar s Hcal) in *.
  unfold FieldMapper.calendar_date in Hcal.
  apply andb_true_iff in Hcal. destruct Hcal as [Hiso Hcal].
  destruct (iso_date_chars s Hiso)
    as (y1 & y2 & y3 & y4 & m1 & m2 & a1 & a2 & -> & _).
  cbn [String.substring append] in *. cbv zeta in Hcal.
  repeat (apply andb_true_iff in Hcal; destruct Hcal as [Hcal ?]).
  repeat match goal with
         | E : (_ <=? _) = true |- _ => apply Z.leb_le in E
         end.
  apply validateDate_default_format.
  cbn [String.substring]. repeat split; try assumption; lia.
Qed.

Lemma formatted_date_passes_validateDate_witness :
  FormValidator.validateDate
    (VStr (FieldMapper.formatDate (host := Samples.strict_host)
             (VStr "1990-07-04"))) None = true.
Proof.
  apply (formatted_date_passes_validateDate Samples.strict_host "1990-07-04").
  - reflexivity.
  - vm_compute. split; discriminate.
Defined.


(** ** More on the mapper *)

Section MoreMapping.
Context {host : Host}.
Import FieldMapper.

Lemma entries_set_In :
  forall {A} (es : list (string * A)) k x k' x',
    In (k', x') (entries_set es k x) -> (k', x') = (k, x) \/ In (k', x') es.
Proof.
  intros A es k x k' x'. induction es as [|[k0 v0] r IH]; simpl.
  - intros [H | []]. now left.
  - destruct (String.eqb_spec k0 k) as [->|Hne]; simpl.
    + intros [H | H]; [now left | right; now right].
    + intros [H | H]; [right; now left|].
      destruct (IH H) as [He | Hin]; [now left | right; now right].
Qed.

Lemma fold_add_entry_In :
  forall profile fs fd k r,
    In (k, r) (List.fold_left (add_entry profile) fs fd) ->
    In (k, r) fd
    \/ exists f, In f fs /\ field_entry profile f = Some (k, r).
Proof.
  intros profile fs. induction fs as [|f rest IH]; intros fd k r; simpl.
  - now left.
  - intros H. destruct (IH _ _ _ H) as [Hin | (g & Hg & He)].
    + unfold add_entry in Hin.
      destruct (field_entry profile f) as [[id r0]|] eqn:He; [|now left].
      destruct (entries_set_In _ _ _ _ _ Hin) as [Heq | Hold]; [|now left].
      injection Heq as -> ->. right. exists f. auto.
    + right. exists g. auto.
Qed.

Lemma formatValue_string :
  forall v ty, exists s, formatValue v ty = VStr s.
Proof.
  intros v ty. unfold formatValue.
  destruct v; eauto;
    repeat match goal with
           | |- context [if ?c then _ else _] => destruct c
           end; eauto.
Qed.

Lemma declared_name_present :
  forall a b id,
    id <> "" ->
    match or_else (or_else a b) (Some id) with
    | Some n => n
    | None => id
    end <> "".
Proof.
  intros a b id Hid. unfold or_else.
  destruct (present (if present a then a else b)) eqn:Hp; [|exact Hid].
  destruct (if present a then a else b) as [n|]; [|discriminate Hp].
  simpl in Hp. destruct (String.eqb_spec n ""); [discriminate Hp | assumption].
Qed.

End MoreMapping.

(** X10: every entry of the form data is well formed: its key is the
    [field_id] of its descriptor, which is a descriptor of the schema; its
    value is a string; its declared PDF name is not empty, so that
    [fillForm] skips none of the entries; and its original value is what the
    descriptor's path resolves to. *)
Theorem mapProfileToForm_entries :
  forall (host : Host) (cfg : FieldMapper.config)
         (ps : list FieldMapper.part) (profile : value)
         (fd : FieldMapper.formData) (k : string) (r : FieldMapper.resolved),
    FieldMapper.parts cfg = Some ps ->
    FieldMapper.mapProfileToForm (Some cfg) profile = Ok fd ->
    In (k, r) fd ->
    In (FieldMapper.rf_field r) (FieldMapper.all_fields ps)
    /\ FieldMapper.field_id (FieldMapper.rf_field r) = Some k
    /\ (exists s, FieldMapper.rf_value r = VStr s)
    /\ FieldMapper.rf_pdfFieldName r <> ""
    /\ exists path,
         FieldMapper.data_path (FieldMapper.rf_field r) = Some path
         /\ FieldMapper.getNestedValue profile path
            = Ok (FieldMapper.rf_originalValue r).
Proof.
  intros host cfg ps profile fd k r Hps Hmap Hin.
  unfold FieldMapper.mapProfileToForm in Hmap. rewrite Hps in Hmap.
  rewrite map_parts_fold in Hmap. injection Hmap as <-.
  apply fold_add_entry_In in Hin. destruct Hin as [[] | (f & Hf & He)].
  apply field_entry_some in He.
  destruct He as (path & Hid & Hne & Hpath & Hpne & _ & ->). simpl.
  repeat split; auto.
  - apply formatValue_string.
  - rewrite Hid. now apply declared_name_present.
  - exists path. split; [exact Hpath | apply getNestedValue_resolve].
Qed.

Lemma mapProfileToForm_entries_witness :
  exists fd r,
    FieldMapper.mapProfileToForm (host := Samples.strict_host)
      (Some Samples.applicant_config) Samples.applicant = Ok fd
    /\ In ("dob", r) fd
    /\ FieldMapper.rf_value r = VStr "07/04/1990"
    /\ FieldMapper.rf_pdfFieldName r <> "".
Proof.
  eexists. eexists. split; [reflexivity|]. split; [right; left; reflexivity|].
  split; [reflexivity|].
  eapply (mapProfileToForm_entries Samples.strict_host Samples.applicant_config
            Samples.applicant_parts Samples.applicant _ "dob" _ eq_refl eq_refl).
  right. left. reflexivity.
Defined.


Section Index.
Import FieldMapper FieldIndex.

Lemma index_parts_fold :
  forall ps acc,
    List.fold_left index_part ps acc
    = List.fold_left index_field (all_fields ps) acc.
Proof.
  induction ps as [|p rest IH]; intros acc; simpl; [reflexivity|].
  rewrite fold_left_app, <- IH. unfold index_part at 2.
  destruct (fields p); reflexivity.
Qed.

Lemma index_field_cases :
  forall acc f,
    (exists id path,
       indexed f id /\ data_path f = Some path
       /\ index_field acc f
          = entries_set acc id {| pdfFieldName := pdf_field_name f;
                                  dataPath := path; field_of := f |})
    \/ ((forall id, ~ indexed f id) /\ index_field acc f = acc).
Proof.
  intros acc f. unfold index_field, indexed.
  destruct (field_id f) as [id|];
    [|right; split; [intros id [H _]; discriminate | reflexivity]].
  destruct (data_path f) as [path|];
    [|right; split; [intros i (_ & _ & p & H & _); discriminate | reflexivity]].
  simpl. destruct (String.eqb_spec id "") as [->|Hid]; simpl.
  - right. split; [|reflexivity]. intros i (H & Hne & _). congruence.
  - destruct (String.eqb_spec path "") as [->|Hp]; simpl.
    + right. split; [|reflexivity].
      intros i (_ & _ & p & H & Hne). congruence.
    + left. exists id, path. repeat split; eauto.
Qed.

Lemma index_fold_get :
  forall fs acc k,
    (forall e, entries_get acc k = Some e ->
               indexed (field_of e) k /\ data_path (field_of e) = Some (dataPath e)
               /\ pdfFieldName e = pdf_field_name (field_of e)) ->
    (forall e, entries_get (List.fold_left index_field fs acc) k = Some e ->
               indexed (field_of e) k /\ data_path (field_of e) = Some (dataPath e)
               /\ pdfFieldName e = pdf_field_name (field_of e)
               /\ (In (field_of e) fs \/ entries_get acc k = Some e))
    /\ ((entries_get acc k <> None \/ exists f, In f fs /\ indexed f k) ->
        entries_get (List.fold_left index_field fs acc) k <> None).
Proof.
  induction fs as [|f rest IH]; intros acc k Hacc; simpl.
  - split.
    + intros e He. destruct (Hacc e He) as (H1 & H2 & H3). auto.
    + intros [H | (f & [] & _)]. exact H.
  - assert (Hstep : forall e, entries_get (index_field acc f) k = Some e ->
              indexed (field_of e) k
              /\ data_path (field_of e) = Some (dataPath e)
              /\ pdfFieldName e = pdf_field_name (field_of e)
              /\ (field_of e = f \/ entries_get acc k = Some e)).
    { intros e He.
      destruct (index_field_cases acc f)
        as [(id & path & Hidx & Hpath & Heq) | (_ & Heq)]; rewrite Heq in He.
      - rewrite entries_get_set in He.
        destruct (String.eqb_spec id k) as [->|Hne].
        + injection He as <-. simpl. auto.
        + destruct (Hacc e He) as (H1 & H2 & H3). auto.
      - destruct (Hacc e He) as (H1 & H2 & H3). auto. }
    destruct (IH (index_field acc f) k) as [IH1 IH2].
    { intros e He. destruct (Hstep e He) as (H1 & H2 & H3 & _). auto. }
    split.
    + intros e He. destruct (IH1 e He) as (H1 & H2 & H3 & [Hin | Hold]).
      * split; [exact H1|]. split; [exact H2|]. split; [exact H3|].
        left. now right.
      * split; [exact H1|]. split; [exact H2|]. split; [exact H3|].
        destruct (Hstep e Hold) as (_ & _ & _ & [Hf | Hacc']).
        -- left. left. now symmetry.
        -- now right.
    + intros H. apply IH2.
      destruct (index_field_cases acc f)
        as [(id & path & Hidx & Hpath & Heq) | (Hno & Heq)]; rewrite Heq.
      * rewrite entries_get_set.
        destruct (String.eqb_spec id k) as [->|Hne]; [left; discriminate|].
        destruct H as [H | (g & [<- | Hg] & Hgk)].
        -- now left.
        -- exfalso. destruct Hidx as [Hi _], Hgk as [Hk _]. congruence.
        -- right. eauto.
      * destruct H as [H | (g & [<- | Hg] & Hgk)].
        -- now left.
        -- exfalso. exact (Hno k Hgk).
        -- right. eauto.
Qed.

End Index.

(** X11: the index that the constructor builds from a configuration has an
    entry for a field id exactly when a descriptor of the schema has that id
    and a data path, both not empty; the entry holds such a descriptor, its
    data path and its [pdf_field_name] as it is, without the fallback to
    [item_number] that the form data uses.  Every key of the form data has
    an entry. *)
Theorem getPDFFieldMapping_indexes_descriptors :
  forall (host : Host) (cfg : FieldMapper.config)
         (ps : list FieldMapper.part) (fieldId : string),
    FieldMapper.parts cfg = Some ps ->
    (FieldIndex.getPDFFieldMapping (FieldIndex.new_fieldMapping cfg) fieldId
     <> None
     <-> exists f, In f (FieldMapper.all_fields ps)
                   /\ FieldMapper.field_id f = Some fieldId /\ fieldId <> ""
                   /\ exists path, FieldMapper.data_path f = Some path
                                   /\ path <> "")
    /\ (forall e,
          FieldIndex.getPDFFieldMapping (FieldIndex.new_fieldMapping cfg) fieldId
          = Some e ->
          In (FieldIndex.field_of e) (FieldMapper.all_fields ps)
          /\ FieldMapper.field_id (FieldIndex.field_of e) = Some fieldId
          /\ FieldMapper.data_path (FieldIndex.field_of e)
             = Some (FieldIndex.dataPath e)
          /\ FieldIndex.pdfFieldName e
             = FieldMapper.pdf_field_name (FieldIndex.field_of e))
    /\ (forall profile fd,
          FieldMapper.mapProfileToForm (Some cfg) profile = Ok fd ->
          In fieldId (List.map fst fd) ->
          FieldIndex.getPDFFieldMapping (FieldIndex.new_fieldMapping cfg) fieldId
          <> None).
Proof.
  intros host cfg ps fieldId Hps.
  unfold FieldIndex.getPDFFieldMapping, FieldIndex.new_fieldMapping,
    FieldIndex.buildMapping.
  rewrite Hps, index_parts_fold.
  destruct (index_fold_get (FieldMapper.all_fields ps) [] fieldId)
    as [Hget Hhas]; [intros e He; discriminate He|].
  assert (Hiff :
    entries_get (List.fold_left FieldIndex.index_field
                   (FieldMapper.all_fields ps) []) fieldId <> None
    <-> exists f, In f (FieldMapper.all_fields ps) /\ indexed f fieldId).
  { split.
    - intros H.
      destruct (entries_get _ fieldId) as [e|] eqn:He; [|congruence].
      destruct (Hget e eq_refl) as (Hidx & _ & _ & [Hin | Hold]);
        [|discriminate Hold].
      exists (FieldIndex.field_of e). auto.
    - intros H. apply Hhas. now right. }
  split; [exact Hiff|]. split.
  - intros e He. destruct (Hget e He) as ((Hid & _) & Hp & Hn & [Hin | Hold]);
      [|discriminate Hold].
    auto.
  - intros profile fd Hmap Hin. apply Hiff.
    unfold FieldMapper.mapProfileToForm in Hmap. rewrite Hps in Hmap.
    rewrite map_parts_fold in Hmap. injection Hmap as <-.
    apply fold_add_entry_keys in Hin. destruct Hin as [[] | (f & r & Hf & He)].
    apply field_entry_some in He.
    destruct He as (path & Hid & Hne & Hpath & Hpne & _).
    exists f. split; [exact Hf|]. repeat split; eauto.
Qed.

Lemma getPDFFieldMapping_indexes_descriptors_witness :
  FieldIndex.getPDFFieldMapping
    (FieldIndex.new_fieldMapping Samples.applicant_config) "dob" <> None.
Proof.
  apply (proj1 (getPDFFieldMapping_indexes_descriptors Samples.strict_host
                  Samples.applicant_config Samples.applicant_parts "dob"
                  eq_refl)).
  exists (Samples.plain_field "dob" "personalInfo.dateOfBirth" "Date Input").
  split; [simpl; auto|]. split; [reflexivity|]. split; [discriminate|].
  exists "personalInfo.dateOfBirth". split; [reflexivity | discriminate].
Defined.

(** X12: [mapFormToProfile] writes nothing for a descriptor whose id the form
    data has no entry for: where that is so of every descriptor, and so on
    an empty form data, the profile comes back as it is and nothing is
    thrown. *)
Theorem mapFormToProfile_without_entries :
  forall (host : Host) (cfg : FieldMapper.config) (ps : list FieldMapper.part)
         (fd : FieldMapper.formData) (profile : value),
    FieldMapper.parts cfg = Some ps ->
    (forall f id, In f (FieldMapper.all_fields ps) ->
                  FieldMapper.field_id f = Some id ->
                  entries_get fd id = None) ->
    FieldMapper.mapFormToProfile (Some cfg) fd profile = (profile, None).
Proof.
  intros host cfg ps fd profile Hps Hnone.
  unfold FieldMapper.mapFormToProfile. rewrite Hps.
  apply unmap_parts_fixed. intros f Hf.
  unfold FieldMapper.unmap_field, FieldMapper.field_write.
  destruct (_ || _); [reflexivity|].
  destruct (FieldMapper.field_id f) as [id|] eqn:Hid; [|reflexivity].
  destruct (FieldMapper.data_path f); [|reflexivity].
  now rewrite (Hnone f id Hf Hid).
Qed.

Lemma mapFormToProfile_without_entries_witness :
  FieldMapper.mapFormToProfile (host := Samples.strict_host)
    (Some Samples.applicant_config) [] Samples.applicant
  = (Samples.applicant, None).
Proof.
  apply (mapFormToProfile_without_entries Samples.strict_host
           Samples.applicant_config Samples.applicant_parts [] Samples.applicant
           eq_refl).
  reflexivity.
Defined.

(** ** The alias table *)

Section Aliases.
Import PDFLib PDFProcessor.

Lemma has_key_set :
  forall (mapping : list (string * string)) k n,
    has_key (entries_set mapping k n) k = true.
Proof.
  intros. unfold has_key. rewrite entries_get_set, String.eqb_refl. reflexivity.
Qed.

Lemma try_patterns_spec :
  forall itemNumber name patterns mapping,
    try_patterns itemNumber name mapping patterns
    = if List.existsb (pattern_matches name) patterns
         && negb (has_key mapping itemNumber)
      then entries_set mapping itemNumber name
      else mapping.
Proof.
  intros itemNumber name patterns. unfold try_patterns.
  induction patterns as [|p rest IH]; intros mapping; simpl; [reflexivity|].
  rewrite IH. destruct (pattern_matches name p); simpl; [|reflexivity].
  destruct (has_key mapping itemNumber) eqn:Hh; simpl.
  - rewrite Hh, andb_false_r. reflexivity.
  - rewrite has_key_set, andb_false_r. reflexivity.
Qed.

Lemma try_fields_spec :
  forall itemNumber patterns (fm : form) mapping,
    List.fold_left
      (fun mapping field => try_patterns itemNumber (name field) mapping patterns)
      fm mapping
    = if has_key mapping itemNumber then mapping
      else match first_match fm patterns with
           | Some n => entries_set mapping itemNumber n
           | None => mapping
           end.
Proof.
  intros itemNumber patterns fm. unfold first_match, field_names.
  induction fm as [|f rest IH]; intros mapping; simpl.
  - now destruct (has_key mapping itemNumber).
  - rewrite IH, try_patterns_spec.
    destruct (has_key mapping itemNumber) eqn:Hh.
    + rewrite andb_false_r, Hh. reflexivity.
    + rewrite andb_true_r.
      destruct (List.existsb (pattern_matches (name f)) patterns).
      * now rewrite has_key_set.
      * now rewrite Hh.
Qed.

Lemma alias_fold :
  forall (fm : form) es mapping k,
    entries_get
      (List.fold_left
         (fun mapping entry =>
            let '(itemNumber, patterns) := entry in
            List.fold_left
              (fun mapping field =>
                 try_patterns itemNumber (name field) mapping patterns)
              fm mapping)
         es mapping) k
    = match entries_get mapping k with
      | Some n => Some n
      | None => alias_for es fm k
      end.
Proof.
  intros fm es. induction es as [|[k' patterns] rest IH]; intros mapping k.
  - simpl. now destruct (entries_get mapping k).
  - cbn [List.fold_left alias_for]. rewrite IH, try_fields_spec.
    unfold has_key.
    destruct (entries_get mapping k') as [n'|] eqn:Hk'.
    + destruct (String.eqb_spec k' k) as [->|Hne]; [now rewrite Hk'|].
      reflexivity.
    + destruct (first_match fm patterns) as [n|].
      * rewrite entries_get_set.
        destruct (String.eqb_spec k' k) as [->|Hne]; [now rewrite Hk'|].
        reflexivity.
      * destruct (String.eqb_spec k' k) as [->|Hne]; [now rewrite Hk'|].
        reflexivity.
Qed.

Lemma alias_for_unique_keys :
  forall es fm k,
    NoDup (List.map fst es) ->
    alias_for es fm k
    = match entries_get es k with
      | Some patterns => first_match fm patterns
      | None => None
      end.
Proof.
  intros es fm k. induction es as [|[k' patterns] rest IH]; intros Hnd.
  - reflexivity.
  - inversion Hnd as [|x l Hnotin Hnd']; subst. simpl.
    destruct (String.eqb_spec k' k) as [->|Hne]; [|now apply IH].
    destruct (first_match fm patterns); [reflexivity|].
    rewrite (IH Hnd'), entries_get_absent by exact Hnotin. reflexivity.
Qed.

Lemma fieldPatterns_unique_keys : NoDup (List.map fst fieldPatterns).
Proof.
  vm_compute. repeat constructor; simpl; intuition discriminate.
Qed.

End Aliases.

(** X13: the alias table gives an item number the name of the first field of
    the document, in the document's order, that matches one of the item's
    patterns, and nothing where no field does or the item is not in the
    table.  The patterns of an item that the table writes twice are those
    written last: for [1.a.], [1.b.] and [1.c.] the names of Part 2. *)
Theorem buildFieldNameMapping_first_match :
  forall (fm : PDFLib.form) (itemNumber : string),
    (entries_get (PDFProcessor.buildFieldNameMapping fm) itemNumber
     = match entries_get PDFProcessor.fieldPatterns itemNumber with
       | Some patterns =>
           List.find
             (fun n => List.existsb (PDFProcessor.pattern_matches n) patterns)
             (PDFLib.field_names fm)
       | None => None
       end)
    /\ entries_get PDFProcessor.fieldPatterns "1.a."
       = Some ["1a"; "1_a"; "last_name"; "family_name"; "surname"; "Part2_1a"]
    /\ entries_get PDFProcessor.fieldPatterns "1.b."
       = Some ["1b"; "1_b"; "first_name"; "given_name"; "Part2_1b"]
    /\ entries_get PDFProcessor.fieldPatterns "1.c."
       = Some ["1c"; "1_c"; "middle_name"; "Part2_1c"].
Proof.
  intros fm itemNumber.
  split; [|split; [reflexivity | split; reflexivity]].
  pose proof (alias_fold fm PDFProcessor.fieldPatterns [] itemNumber) as H.
  cbn [entries_get] in H.
  rewrite (alias_for_unique_keys _ _ _ fieldPatterns_unique_keys) in H.
  exact H.
Qed.

(** ** More on filling *)

Section MoreFilling.
Context {host : Host}.
Import PDFLib PDFProcessor.

Lemma update_shape :
  forall (g : pdf_field -> pdf_field) (fm : form) (n : string),
    (forall f, shape (g f) = shape f) ->
    List.map shape (update fm n g) = List.map shape fm.
Proof.
  intros g fm n Hg. induction fm as [|f r IH]; simpl; [reflexivity|].
  destruct (String.eqb (name f) n); simpl; [now rewrite Hg | now rewrite IH].
Qed.

Lemma try_name_shape :
  forall test fm n v fm' ty,
    try_name test fm n v = Some (fm', ty) ->
    List.map shape fm' = List.map shape fm.
Proof.
  intros test fm n v fm' ty. unfold try_name, setText, check, uncheck.
  destruct (getTextField fm n) as [field|e]; simpl.
  - destruct (maxLength field) as [m|].
    + destruct (m <? String.length (text_of v))%nat.
      * destruct (getCheckBox fm n); [|discriminate].
        intros H. injection H as <- _.
        destruct (test v); now apply update_shape.
      * intros H. injection H as <- _. now apply update_shape.
    + intros H. injection H as <- _. now apply update_shape.
  - destruct (getCheckBox fm n); [|discriminate].
    intros H. injection H as <- _.
    destruct (test v); now apply update_shape.
Qed.

Lemma try_variations_shape :
  forall fm vs v fm' n ty,
    try_variations fm vs v = Some (fm', n, ty) ->
    List.map shape fm' = List.map shape fm.
Proof.
  intros fm vs v fm' n ty. induction vs as [|x r IH]; simpl; [discriminate|].
  destruct (try_name should_check fm x v) as [[f t]|] eqn:Ht.
  - intros H. injection H as <- _ _. eapply try_name_shape; eassumption.
  - exact IH.
Qed.

(** What an entry does to the state, case by case. *)
Lemma fill_entry_step :
  forall m ns st e,
    let st' := fill_entry m ns st e in
    List.map shape (fs_form st') = List.map shape (fs_form st)
    /\ (List.length (filledFields st') + List.length (failedFields st')
        = List.length (filledFields st) + List.length (failedFields st)
          + (if String.eqb (FieldMapper.rf_pdfFieldName (snd e)) ""
             then 0 else 1))%nat.
Proof.
  intros m ns st [fieldId fieldData]. unfold fill_entry. cbn [snd].
  destruct (String.eqb (FieldMapper.rf_pdfFieldName fieldData) "").
  { split; [reflexivity | lia]. }
  match goal with
  | |- context [try_variations ?fm ?vs ?v] =>
      destruct (try_variations fm vs v) as [[[fm' n] ty]|] eqn:Hv
  end.
  { cbn [fs_form filledFields failedFields]. split.
    - eapply try_variations_shape; eassumption.
    - rewrite length_app. simpl. lia. }
  match goal with
  | |- context [List.find ?p ns] => destruct (List.find p ns) as [similar|]
  end.
  - destruct (String.eqb similar "").
    { cbn [fs_form filledFields failedFields]. split; [reflexivity|].
      rewrite length_app. simpl. lia. }
    match goal with
    | |- context [try_name should_check_fuzzy ?fm similar ?v] =>
        destruct (try_name should_check_fuzzy fm similar v)
          as [[fm' ty]|] eqn:Hn
    end.
    + cbn [fs_form filledFields failedFields]. split.
      * eapply try_name_shape; eassumption.
      * rewrite length_app. simpl. lia.
    + cbn [fs_form filledFields failedFields]. split; [reflexivity|].
      rewrite length_app. simpl. lia.
  - cbn [fs_form filledFields failedFields]. split; [reflexivity|].
    rewrite length_app. simpl. lia.
Qed.

Lemma fill_entries_step :
  forall m ns fd st,
    let st' := List.fold_left (fill_entry m ns) fd st in
    List.map shape (fs_form st') = List.map shape (fs_form st)
    /\ (List.length (filledFields st') + List.length (failedFields st')
        = List.length (filledFields st) + List.length (failedFields st)
          + List.length
              (List.filter
                 (fun e => negb (String.eqb (FieldMapper.rf_pdfFieldName (snd e)) ""))
                 fd))%nat.
Proof.
  intros m ns fd. induction fd as [|e rest IH]; intros st; simpl.
  - split; [reflexivity | lia].
  - destruct (IH (fill_entry m ns st e)) as [Hs Hc].
    destruct (fill_entry_step m ns st e) as [Hs1 Hc1].
    split; [congruence|]. rewrite Hc, Hc1.
    destruct (String.eqb (FieldMapper.rf_pdfFieldName (snd e)) ""); simpl; lia.
Qed.

End MoreFilling.

(** X14: filling changes the text and the check mark of fields and nothing
    else: the fields of the form afterwards are those before, in the same
    order, with the same names, kinds and maximum lengths. *)
Theorem fill_fields_keeps_the_fields :
  forall (host : Host) (fm : PDFLib.form) (fd : FieldMapper.formData),
    List.map shape (PDFProcessor.fs_form (PDFProcessor.fill_fields fm fd))
    = List.map shape fm.
Proof.
  intros host fm fd. unfold PDFProcessor.fill_fields.
  exact (proj1 (fill_entries_step _ _ fd
    {| PDFProcessor.fs_form := fm; PDFProcessor.filledFields := [];
       PDFProcessor.failedFields := [] |})).
Qed.

(** X15: every entry of the form data that has a declared name is counted
    once, as filled or as failed: the lengths of the two lists add up to the
    number of those entries. *)
Theorem fill_fields_accounts_for_every_entry :
  forall (host : Host) (fm : PDFLib.form) (fd : FieldMapper.formData),
    (List.length (PDFProcessor.filledFields (PDFProcessor.fill_fields fm fd))
     + List.length (PDFProcessor.failedFields (PDFProcessor.fill_fields fm fd))
     = List.length
         (List.filter
            (fun e => negb (String.eqb (FieldMapper.rf_pdfFieldName (snd e)) ""))
            fd))%nat.
Proof.
  intros host fm fd. unfold PDFProcessor.fill_fields.
  exact (proj2 (fill_entries_step _ _ fd
    {| PDFProcessor.fs_form := fm; PDFProcessor.filledFields := [];
       PDFProcessor.failedFields := [] |})).
Qed.

Section LastWrite.
Context {host : Host}.
Import PDFLib PDFProcessor.

Lemma fill_fields_snoc :
  forall fm fd e,
    fill_fields fm (fd ++ [e])%list
    = fill_entry (buildFieldNameMapping fm) (field_names fm)
        (fill_fields fm fd) e.
Proof.
  intros fm fd e. unfold fill_fields. rewrite fold_left_app. reflexivity.
Qed.

Lemma getField_shape :
  forall fm fm' n f,
    List.map shape fm' = List.map shape fm ->
    getField fm n = Some f ->
    exists f', getField fm' n = Some f' /\ shape f' = shape f.
Proof.
  unfold getField.
  induction fm as [|g r IH]; intros fm' n f Hs Hg; [discriminate|].
  destruct fm' as [|g' r']; [discriminate|].
  assert (Hh : shape g' = shape g) by (simpl in Hs; congruence).
  assert (Ht : List.map shape r' = List.map shape r)
    by (simpl in Hs; congruence).
  assert (Hn : name g' = name g) by (unfold shape in Hh; congruence).
  cbn [List.find] in *. rewrite Hn.
  destruct (String.eqb (name g) n).
  - injection Hg as <-. exists g'. split; [reflexivity | exact Hh].
  - eapply IH; eassumption.
Qed.

Lemma getField_update :
  forall fm n g f,
    getField fm n = Some f ->
    name (g f) = name f ->
    getField (update fm n g) n = Some (g f).
Proof.
  unfold getField.
  induction fm as [|h r IH]; intros n g f Hg Hn; [discriminate|].
  simpl in *. destruct (String.eqb (name h) n) eqn:E.
  - injection Hg as ->. simpl. rewrite Hn, E. reflexivity.
  - simpl. rewrite E. now apply IH.
Qed.

Lemma getField_name :
  forall fm n f, getField fm n = Some f -> name f = n.
Proof.
  unfold getField. intros fm n f H. apply find_some in H.
  destruct H as [_ H]. now apply String.eqb_eq.
Qed.

End LastWrite.

(** X16: the last entry written wins.  When the last entry of the form data
    declares the name of a text field of the form, the alias table has no
    entry for that name and the text fits the field, the field holds
    [String(value || '')] after filling, whatever the entries before have
    written, and the entry is the last of the filled list, under the
    declared name and as a text. *)
Theorem fill_fields_last_text_wins :
  forall (host : Host) (fm : PDFLib.form) (fd : FieldMapper.formData)
         (fieldId : string) (r : FieldMapper.resolved) (f : PDFLib.pdf_field),
    FieldMapper.rf_pdfFieldName r <> "" ->
    entries_get (PDFProcessor.buildFieldNameMapping fm)
      (FieldMapper.rf_pdfFieldName r) = None ->
    PDFLib.getField fm (FieldMapper.rf_pdfFieldName r) = Some f ->
    PDFLib.kind f = PDFLib.TextField ->
    (forall m, PDFLib.maxLength f = Some m ->
               (String.length (PDFProcessor.text_of (FieldMapper.rf_value r)) <= m)%nat) ->
    let st := PDFProcessor.fill_fields fm (fd ++ [(fieldId, r)])%list in
    option_map PDFLib.text
      (PDFLib.getField (PDFProcessor.fs_form st) (FieldMapper.rf_pdfFieldName r))
    = Some (PDFProcessor.text_of (FieldMapper.rf_value r))
    /\ PDFProcessor.filledFields st
       = (PDFProcessor.filledFields (PDFProcessor.fill_fields fm fd)
          ++ [{| PDFProcessor.fl_fieldId := fieldId;
                 PDFProcessor.fl_pdfFieldName := FieldMapper.rf_pdfFieldName r;
                 PDFProcessor.fl_type := "text";
                 PDFProcessor.fl_value := FieldMapper.rf_value r;
                 PDFProcessor.fl_matched := false |}])%list
    /\ PDFProcessor.failedFields st
       = PDFProcessor.failedFields (PDFProcessor.fill_fields fm fd).
Proof.
  intros host fm fd fieldId r f Hne Halias Hf Hk Hfit st. subst st.
  rewrite fill_fields_snoc.
  pose proof (proj1 (fill_entries_step (PDFProcessor.buildFieldNameMapping fm)
    (PDFLib.field_names fm) fd
    {| PDFProcessor.fs_form := fm; PDFProcessor.filledFields := [];
       PDFProcessor.failedFields := [] |})) as Hs.
  cbv zeta in Hs. cbn [PDFProcessor.fs_form] in Hs.
  fold (PDFProcessor.fill_fields fm fd) in Hs.
  destruct (getField_shape fm _ _ f Hs Hf) as [f' [Hf' Hsh]].
  set (st0 := PDFProcessor.fill_fields fm fd) in *.
  assert (Hk' : PDFLib.kind f' = PDFLib.TextField)
    by (unfold shape in Hsh; congruence).
  assert (Hm' : PDFLib.maxLength f' = PDFLib.maxLength f)
    by (unfold shape in Hsh; congruence).
  assert (Hn' : PDFLib.name f' = FieldMapper.rf_pdfFieldName r)
    by (eapply getField_name; eassumption).
  unfold PDFProcessor.fill_entry.
  destruct (String.eqb_spec (FieldMapper.rf_pdfFieldName r) "") as [E|_];
    [contradiction|].
  unfold PDFProcessor.actual_name. rewrite Halias.
  unfold PDFProcessor.fieldNameVariations.
  cbn [PDFProcessor.try_variations].
  assert (Ht : PDFProcessor.try_name PDFProcessor.should_check
                 (PDFProcessor.fs_form st0) (FieldMapper.rf_pdfFieldName r)
                 (FieldMapper.rf_value r)
               = Some (PDFLib.update (PDFProcessor.fs_form st0)
                         (FieldMapper.rf_pdfFieldName r)
                         (PDFLib.with_text
                            (PDFProcessor.text_of (FieldMapper.rf_value r))),
                       "text")).
  { unfold PDFProcessor.try_name, PDFLib.getTextField. rewrite Hf'.
    unfold PDFLib.is_text. rewrite Hk'. cbn [bind].
    unfold PDFLib.setText. rewrite Hm', Hn'.
    destruct (PDFLib.maxLength f) as [m|] eqn:Em; [|reflexivity].
    specialize (Hfit m eq_refl).
    destruct (Nat.ltb_spec m
      (String.length (PDFProcessor.text_of (FieldMapper.rf_value r))));
      [lia | reflexivity]. }
  rewrite Ht. cbn [PDFProcessor.fs_form PDFProcessor.filledFields
                   PDFProcessor.failedFields].
  split; [|split; reflexivity].
  rewrite (getField_update _ _
             (PDFLib.with_text (PDFProcessor.text_of (FieldMapper.rf_value r)))
             f' Hf' eq_refl).
  reflexivity.
Qed.

Lemma fill_fields_last_text_wins_witness :
  option_map PDFLib.text
    (PDFLib.getField
       (PDFProcessor.fs_form
          (PDFProcessor.fill_fields (host := Samples.strict_host)
             Samples.city_form
             ([Samples.city_entry "Boston"] ++ [Samples.city_entry "Austin"])%list))
       "Pt2Line7_City")
  = Some "Austin".
Proof.
  refine (proj1 (fill_fields_last_text_wins Samples.strict_host
            Samples.city_form [Samples.city_entry "Boston"] "city"
            (snd (Samples.city_entry "Austin")) Samples.city_field
            _ _ _ _ _)).
  - discriminate.
  - vm_compute. reflexivity.
  - reflexivity.
  - reflexivity.
  - intros m Hm. injection Hm as <-. vm_compute. lia.
Defined.

Section MoreTemplate.
Context {host : Host} {codec : PDFLib.Codec}.
Import PDFLib PDFProcessor.

(** [fillForm] either throws and leaves the world as it is, or returns the
    bytes of a new document made from the template. *)
Lemma fillForm_cases :
  forall fd opts w,
    (exists e, fillForm fd opts w = (Throw e, w))
    \/ exists t template pdfDoc,
         templatePDF (this w) = Some t
         /\ nth_error (docs w) t = Some template
         /\ load (save template) = Some pdfDoc
         /\ let st := fill_fields (form_fields pdfDoc) fd in
            let filledDoc := {| form_fields := fs_form st;
                                static_content := static_content pdfDoc |} in
            let finalDoc := if flatten_opt opts then flatten filledDoc
                            else filledDoc in
            fillForm fd opts w
            = (Ok (save finalDoc, filledFields st, failedFields st),
               {| this := this w; docs := (docs w ++ [finalDoc])%list |}).
Proof.
  intros fd opts w. unfold fillForm.
  destruct (templatePDF (this w)) as [t|] eqn:Ht; [|left; eauto].
  destruct (pdfLib (this w)); simpl; [|left; eauto].
  destruct (nth_error (docs w) t) as [template|] eqn:Hn; [|left; eauto].
  destruct (load (save template)) as [pdfDoc|] eqn:Hl; [|left; eauto].
  right. exists t, template, pdfDoc. repeat split; assumption.
Qed.

End MoreTemplate.

(** X17: the two versions are one filling.  [generateBothVersions] throws
    what the first [fillForm] throws and then changes nothing; otherwise it
    adds two documents, the second of which is the first one flattened: the
    flattened version shows what the editable version holds in its fields,
    and has no field left. *)
Theorem generateBothVersions_flattens_the_editable :
  forall (host : Host) (codec : PDFLib.Codec)
         (fd : FieldMapper.formData) (w : PDFProcessor.world),
    match PDFProcessor.fillForm fd
            {| PDFProcessor.flatten_opt := false; PDFProcessor.editable := true;
               PDFProcessor.includeSignature := true |} w with
    | (Throw e, _) => PDFProcessor.generateBothVersions fd w = (Throw e, w)
    | (Ok (editable, _, _), _) =>
        exists d,
          editable = PDFLib.save d
          /\ PDFLib.static_content (PDFLib.flatten d)
             = (PDFLib.static_content d ++ PDFLib.form_fields d)%list
          /\ PDFLib.form_fields (PDFLib.flatten d) = []
          /\ PDFProcessor.generateBothVersions fd w
             = (Ok (PDFLib.save d, PDFLib.save (PDFLib.flatten d)),
                {| PDFProcessor.this := PDFProcessor.this w;
                   PDFProcessor.docs :=
                     (PDFProcessor.docs w ++ [d; PDFLib.flatten d])%list |})
    end.
Proof.
  intros host codec fd w.
  unfold PDFProcessor.generateBothVersions, PDFProcessor.generatePDF.
  destruct (fillForm_cases fd
    {| PDFProcessor.flatten_opt := false; PDFProcessor.editable := true;
       PDFProcessor.includeSignature := true |} w)
    as [[e He] | (t & template & pdfDoc & Ht & Hn & Hl & H1)].
  - rewrite He. reflexivity.
  - cbv zeta in H1. cbn [PDFProcessor.flatten_opt] in H1. rewrite H1.
    eexists. split; [reflexivity|]. split; [reflexivity|].
    split; [reflexivity|].
    unfold PDFProcessor.fillForm.
    cbn [PDFProcessor.this PDFProcessor.docs PDFProcessor.flatten_opt].
    rewrite Ht.
    assert (Hlib : PDFProcessor.pdfLib (PDFProcessor.this w) = true).
    { unfold PDFProcessor.fillForm in H1. rewrite Ht in H1.
      destruct (PDFProcessor.pdfLib (PDFProcessor.this w));
        [reflexivity | discriminate]. }
    rewrite Hlib. cbn [negb].
    rewrite nth_error_app1 by (apply nth_error_Some; congruence).
    rewrite Hn, Hl. rewrite <- app_assoc. reflexivity.
Qed.

(** X18: a [loadTemplate] that throws keeps the template that was loaded
    before and every document; one that returns adds the document read from
    the bytes after those that exist and makes it the template, so that
    [getFormFieldNames] gives the names of its fields. *)
Theorem loadTemplate_replaces_or_keeps :
  forall (host : Host) (codec : PDFLib.Codec)
         (env : PDFProcessor.environment)
         (src : PDFProcessor.template_source) (w : PDFProcessor.world),
    match PDFProcessor.loadTemplate env src w with
    | (Throw _, w1) =>
        PDFProcessor.templatePDF (PDFProcessor.this w1)
        = PDFProcessor.templatePDF (PDFProcessor.this w)
        /\ PDFProcessor.docs w1 = PDFProcessor.docs w
    | (Ok _, w1) =>
        exists d,
          PDFProcessor.docs w1 = (PDFProcessor.docs w ++ [d])%list
          /\ PDFProcessor.template_bytes w1 = Some (PDFLib.save d)
          /\ PDFProcessor.getFormFieldNames w1
             = (Ok (PDFLib.field_names (PDFLib.form_fields d)), w1)
          /\ (forall b, src = PDFProcessor.ArrayBuffer b -> PDFLib.load b = Some d)
          /\ (forall url, src = PDFProcessor.Url url ->
                exists b, PDFProcessor.fetch env url = Some b
                          /\ PDFLib.load b = Some d)
    end.
Proof.
  intros host codec env src w. unfold PDFProcessor.loadTemplate.
  set (w0 := if negb (PDFProcessor.initialized (PDFProcessor.this w))
             then snd (PDFProcessor.initialize env w) else w).
  assert (H0 : PDFProcessor.templatePDF (PDFProcessor.this w0)
               = PDFProcessor.templatePDF (PDFProcessor.this w)
               /\ PDFProcessor.docs w0 = PDFProcessor.docs w).
  { subst w0. unfold PDFProcessor.initialize.
    destruct (PDFProcessor.initialized (PDFProcessor.this w)); simpl;
      [now split|].
    destruct (PDFProcessor.library_available env); simpl; now split. }
  destruct H0 as [Ht Hd].
  destruct (PDFProcessor.pdfLib (PDFProcessor.this w0)); simpl;
    [|now split].
  assert (Hok : forall b d, PDFLib.load b = Some d ->
    (PDFProcessor.docs w0 ++ [d])%list = (PDFProcessor.docs w ++ [d])%list
    /\ PDFProcessor.template_bytes
         {| PDFProcessor.this :=
              {| PDFProcessor.pdfLib := true;
                 PDFProcessor.templatePDF := Some (List.length (PDFProcessor.docs w0));
                 PDFProcessor.initialized :=
                   PDFProcessor.initialized (PDFProcessor.this w0) |};
            PDFProcessor.docs := (PDFProcessor.docs w0 ++ [d])%list |}
       = Some (PDFLib.save d)
    /\ PDFProcessor.getFormFieldNames
         {| PDFProcessor.this :=
              {| PDFProcessor.pdfLib := true;
                 PDFProcessor.templatePDF := Some (List.length (PDFProcessor.docs w0));
                 PDFProcessor.initialized :=
                   PDFProcessor.initialized (PDFProcessor.this w0) |};
            PDFProcessor.docs := (PDFProcessor.docs w0 ++ [d])%list |}
       = (Ok (PDFLib.field_names (PDFLib.form_fields d)),
          {| PDFProcessor.this :=
              {| PDFProcessor.pdfLib := true;
                 PDFProcessor.templatePDF := Some (List.length (PDFProcessor.docs w0));
                 PDFProcessor.initialized :=
                   PDFProcessor.initialized (PDFProcessor.this w0) |};
            PDFProcessor.docs := (PDFProcessor.docs w0 ++ [d])%list |})).
  { intros b d _. split; [now rewrite Hd|].
    unfold PDFProcessor.template_bytes, PDFProcessor.getFormFieldNames.
    cbn [PDFProcessor.this PDFProcessor.docs PDFProcessor.templatePDF].
    rewrite nth_error_app2, Nat.sub_diag by apply Nat.le_refl.
    split; reflexivity. }
  destruct src as [url|b|].
  - destruct (PDFProcessor.fetch env url) as [b|] eqn:Hf; [|now split].
    destruct (PDFLib.load b) as [d|] eqn:Hl; [|now split].
    destruct (Hok b d Hl) as (H1 & H2 & H3).
    exists d. split; [exact H1|]. split; [exact H2|]. split; [exact H3|].
    split; [discriminate|].
    intros url' E. injection E as <-. eauto.
  - destruct (PDFLib.load b) as [d|] eqn:Hl; [|now split].
    destruct (Hok b d Hl) as (H1 & H2 & H3).
    exists d. split; [exact H1|]. split; [exact H2|]. split; [exact H3|].
    split; [|discriminate].
    intros b' E. injection E as <-. exact Hl.
  - now split.
Qed.

Section Scratch.
Context {host : Host}.
Variable label : FieldMapper.resolved -> option string.
Import PDFScratch.

Lemma scratch_entry_first_page_only :
  forall n st e,
    first_page_only n st ->
    first_page_only (S n) (scratch_entry label st e).
Proof.
  intros n st [fieldId fieldData] (first & k & Hp & Hl & Hf & Hy).
  unfold scratch_entry.
  set (line := (_ ++ ": " ++ _)%string).
  destruct (Z.ltb_spec (yPosition st) 50) as [Hlt|Hge];
    cbn [pages yPosition]; rewrite Hp; cbn [app drawText].
  - exists (first ++ [{| d_text := line; d_x := 50;
                         d_y := page_height - 50; d_size := 12 |}])%list,
           (S k).
    split.
    { cbn [pages]. f_equal. clear.
      induction k as [|k IH]; [reflexivity|].
      cbn [List.repeat app] in *. now rewrite IH. }
    split; [rewrite length_app; simpl; lia|].
    split.
    { apply Forall_app. split; [exact Hf|].
      constructor; [|constructor]. unfold page_height. simpl. lia. }
    cbn [yPosition]. unfold page_height. lia.
  - exists (first ++ [{| d_text := line; d_x := 50;
                         d_y := yPosition st; d_size := 12 |}])%list, k.
    split; [reflexivity|].
    split; [rewrite length_app; simpl; lia|].
    split.
    { apply Forall_app. split; [exact Hf|].
      constructor; [|constructor]. simpl. lia. }
    cbn [yPosition]. lia.
Qed.

Lemma scratch_entries_first_page_only :
  forall fd n st,
    first_page_only n st ->
    first_page_only (List.length fd + n)
      (List.fold_left (scratch_entry label) fd st).
Proof.
  induction fd as [|e rest IH]; intros n st H; [exact H|].
  cbn [List.fold_left List.length].
  replace (S (List.length rest) + n)%nat with (List.length rest + S n)%nat by lia.
  apply IH. now apply scratch_entry_first_page_only.
Qed.

End Scratch.

(** X19: the document made from scratch.  Without the library the call
    throws.  With it, the title and one line for each entry of the form
    data are all drawn on the first page, at x = 50 and between y = 50 and
    y = 742, and every page added when the lines run out of room stays
    blank. *)
Theorem createPDFFromScratch_draws_on_first_page :
  forall (host : Host) (label : FieldMapper.resolved -> option string)
         (fd : FieldMapper.formData),
    PDFScratch.createPDFFromScratch label false fd
    = Throw (Error "PDF library not available")
    /\ exists first k,
         PDFScratch.createPDFFromScratch label true fd
         = Ok (first :: List.repeat [] k)
         /\ List.length first = S (List.length fd)
         /\ Forall (fun d => PDFScratch.d_x d = 50
                             /\ 50 <= PDFScratch.d_y d <= 742) first.
Proof.
  intros host label fd. split; [reflexivity|].
  unfold PDFScratch.createPDFFromScratch. cbn [negb].
  match goal with
  | |- context [List.fold_left _ fd ?s] =>
      destruct (scratch_entries_first_page_only label fd 0 s)
        as (first & k & Hp & Hl & Hf & _)
  end.
  { eexists. exists 0%nat. cbn [PDFScratch.pages PDFScratch.drawText app].
    split; [reflexivity|]. split; [reflexivity|].
    split; [|cbn; unfold PDFScratch.page_height; lia].
    constructor; [|constructor]. cbn. unfold PDFScratch.page_height. lia. }
  exists first, k. rewrite Hp. split; [reflexivity|].
  split; [rewrite Hl; f_equal; lia | exact Hf].
Qed.

(** ** The validations of the profile *)

Section Validations.
Import DataModels Profile.

Lemma validateEligibility_isValid :
  forall this v,
    validateEligibility this = Ok v ->
    isValid v = (List.length (errors v) =? 0)%nat.
Proof.
  intros this v. unfold validateEligibility.
  destruct (get_prop this "eligibilityInfo") as [el|]; [|discriminate]. cbn [bind].
  destruct (get_prop el "category") as [c|]; [|discriminate]. cbn [bind].
  destruct (get_prop el "applicationPurpose") as [a|]; [|discriminate]. cbn [bind].
  destruct (get_prop el "previouslyDeniedEAD") as [d|]; [|discriminate]. cbn [bind].
  destruct (if truthy d then Ok d else get_prop el "previouslyRevokedEAD")
    as [x|]; [|discriminate]. cbn [bind].
  intros H. injection H as <-. reflexivity.
Qed.

Lemma validatePersonalInfo_isValid :
  forall this v,
    validatePersonalInfo this = Ok v ->
    isValid v = (List.length (errors v) =? 0)%nat.
Proof.
  intros this v. unfold validatePersonalInfo.
  destruct (get_prop this "personalInfo") as [i|]; [|discriminate]. cbn [bind].
  destruct (require i personal_checks []) as [e|]; [|discriminate]. cbn [bind].
  intros H. injection H as <-. reflexivity.
Qed.

Lemma validateImmigrationDetails_isValid :
  forall this v,
    validateImmigrationDetails this = Ok v ->
    isValid v = (List.length (errors v) =? 0)%nat.
Proof.
  intros this v. unfold validateImmigrationDetails.
  destruct (get_prop this "immigrationDetails") as [i|]; [|discriminate]. cbn [bind].
  destruct (require i immigration_checks []) as [e|]; [|discriminate]. cbn [bind].
  intros H. injection H as <-. reflexivity.
Qed.

Lemma note_section_valid :
  forall acc v,
    isValid v = (List.length (errors v) =? 0)%nat ->
    FormValidator.note_section acc v
    = (if isValid v then fst acc else false, (snd acc ++ errors v)%list).
Proof.
  intros [b es] v H. unfold FormValidator.note_section.
  destruct (isValid v); cbn [negb fst snd].
  - symmetry in H. apply Nat.eqb_eq in H.
    destruct (errors v); [|discriminate]. now rewrite app_nil_r.
  - reflexivity.
Qed.

End Validations.

(** X20: the two comprehensive validations agree.  [validateProfile] of the
    validation engine and [validateAll] of the profile throw the same
    exception or return the same three section results, the same verdict
    and the same list of errors; the verdict is that all three sections are
    valid, and the total is the sum of the errors of the sections. *)
Theorem validateProfile_agrees_with_validateAll :
  forall (profile : value),
    match Profile.validateAll profile, FormValidator.validateProfile profile with
    | Ok a, Ok r =>
        FormValidator.pv_isValid r = Profile.all_isValid a
        /\ FormValidator.pv_allErrors r = Profile.allErrors a
        /\ FormValidator.pv_personalInfo r = Profile.sec_personalInfo a
        /\ FormValidator.pv_immigrationDetails r = Profile.sec_immigrationDetails a
        /\ FormValidator.pv_eligibility r = Profile.sec_eligibility a
        /\ Profile.all_isValid a
           = DataModels.isValid (Profile.sec_personalInfo a)
             && DataModels.isValid (Profile.sec_immigrationDetails a)
             && DataModels.isValid (Profile.sec_eligibility a)
        /\ Profile.totalErrors a
           = (List.length (DataModels.errors (Profile.sec_personalInfo a))
              + List.length (DataModels.errors (Profile.sec_immigrationDetails a))
              + List.length (DataModels.errors (Profile.sec_eligibility a)))%nat
    | Throw e, Throw e' => e = e'
    | _, _ => False
    end.
Proof.
  intros profile. unfold Profile.validateAll, FormValidator.validateProfile.
  destruct (Profile.validatePersonalInfo profile) as [p|e] eqn:Hp;
    cbn [bind]; [|reflexivity].
  destruct (Profile.validateImmigrationDetails profile) as [i|e] eqn:Hi;
    cbn [bind]; [|reflexivity].
  destruct (DataModels.validateEligibility profile) as [el|e] eqn:He;
    cbn [bind]; [|reflexivity].
  apply validatePersonalInfo_isValid in Hp.
  apply validateImmigrationDetails_isValid in Hi.
  apply validateEligibility_isValid in He.
  rewrite !note_section_valid by assumption.
  cbn [fst snd FormValidator.pv_isValid FormValidator.pv_allErrors
       FormValidator.pv_personalInfo FormValidator.pv_immigrationDetails
       FormValidator.pv_eligibility Profile.all_isValid Profile.allErrors
       Profile.sec_personalInfo Profile.sec_immigrationDetails
       Profile.sec_eligibility Profile.totalErrors app].
  rewrite !length_app. rewrite Hp, Hi, He.
  repeat split.
  - destruct (DataModels.errors p), (DataModels.errors i),
      (DataModels.errors el); reflexivity.
  - now rewrite app_assoc.
  - destruct (DataModels.errors p), (DataModels.errors i),
      (DataModels.errors el); reflexivity.
  - lia.
Qed.


(** ** Export and import of the profile *)

Section Exchange.
Import DataModels Profile.

Lemma entries_get_app :
  forall {A} (a b : list (string * A)) (k : string),
    entries_get (a ++ b) k
    = match entries_get a k with
      | Some v => Some v
      | None => entries_get b k
      end.
Proof.
  intros A a b k. induction a as [|[k' v] r IH]; simpl; [reflexivity|].
  destruct (String.eqb k' k); [reflexivity | exact IH].
Qed.

Lemma entries_get_In_unique :
  forall {A} (es : list (string * A)) (k : string) (v : A),
    NoDup (List.map fst es) -> In (k, v) es -> entries_get es k = Some v.
Proof.
  intros A es k v. induction es as [|[k' v'] r IH]; simpl; intros Hnd Hin;
    [contradiction|].
  inversion Hnd as [|? ? Hnot Hnd']; subst.
  destruct Hin as [E|Hin].
  - injection E as -> ->. now rewrite String.eqb_refl.
  - destruct (String.eqb_spec k' k) as [->|Hne].
    + exfalso. apply Hnot. apply in_map_iff. now exists (k, v).
    + now apply IH.
Qed.

(** Assigning the entries of a list one after the other: the last entry
    for a key decides. *)
Lemma assign_all_get :
  forall {A} (es acc : list (string * A)) (k : string),
    entries_get
      (List.fold_left (fun o kv => entries_set o (fst kv) (snd kv)) es acc) k
    = match entries_get (List.rev es) k with
      | Some v => Some v
      | None => entries_get acc k
      end.
Proof.
  intros A es. induction es as [|[k' v] r IH]; intros acc k; simpl;
    [reflexivity|].
  rewrite IH, entries_get_app, entries_get_set. simpl.
  destruct (entries_get (List.rev r) k); [reflexivity|].
  destruct (String.eqb k' k); reflexivity.
Qed.

Lemma entries_get_rev :
  forall {A} (es : list (string * A)) (k : string),
    NoDup (List.map fst es) ->
    entries_get (List.rev es) k = entries_get es k.
Proof.
  intros A es k. induction es as [|[k' v] r IH]; simpl; intros Hnd;
    [reflexivity|].
  inversion Hnd as [|? ? Hnot Hnd']; subst.
  rewrite entries_get_app, IH by assumption. simpl.
  destruct (String.eqb_spec k' k) as [->|Hne].
  - now rewrite (entries_get_absent r k Hnot).
  - now destruct (entries_get r k).
Qed.

(** [{ ...a, ...b }] of two objects, member by member. *)
Lemma spread_get :
  forall (cs ds : list (string * value)),
    NoDup (List.map fst cs) -> NoDup (List.map fst ds) ->
    exists ns,
      spread (VObj cs) (VObj ds) = VObj ns
      /\ forall k, entries_get ns k
                   = match entries_get ds k with
                     | Some v => Some v
                     | None => entries_get cs k
                     end.
Proof.
  intros cs ds Hc Hd. unfold spread. eexists. split; [reflexivity|].
  intros k. rewrite assign_all_get. cbn [own_entries].
  rewrite rev_app_distr, entries_get_app, !entries_get_rev by assumption.
  destruct (entries_get ds k); [reflexivity|].
  now destruct (entries_get cs k).
Qed.

Lemma assign_all_fresh :
  forall {A} (es acc : list (string * A)),
    NoDup (List.map fst es) ->
    (forall k, In k (List.map fst es) -> ~ In k (List.map fst acc)) ->
    List.fold_left (fun o kv => entries_set o (fst kv) (snd kv)) es acc
    = (acc ++ es)%list.
Proof.
  intros A es. induction es as [|[k v] r IH]; intros acc Hnd Hfresh; simpl.
  - now rewrite app_nil_r.
  - inversion Hnd as [|? ? Hnot Hnd']; subst.
    assert (Hset : entries_set acc k v = (acc ++ [(k, v)])%list).
    { assert (Hk : ~ In k (List.map fst acc)) by (apply Hfresh; now left).
      clear - Hk. induction acc as [|[k' v'] a IHa]; simpl; [reflexivity|].
      destruct (String.eqb_spec k' k) as [->|Hne].
      - exfalso. apply Hk. now left.
      - rewrite IHa; [reflexivity|]. intros H. apply Hk. now right. }
    rewrite Hset, IH; [now rewrite <- app_assoc | exact Hnd' |].
    intros k0 Hin. rewrite map_app, in_app_iff. simpl.
    intros [H|[H|[]]].
    + apply (Hfresh k0); [now right | exact H].
    + subst. contradiction.
Qed.

Lemma assign_all_again :
  forall {A} (es acc : list (string * A)),
    (forall k v, In (k, v) es -> entries_get acc k = Some v) ->
    List.fold_left (fun o kv => entries_set o (fst kv) (snd kv)) es acc = acc.
Proof.
  intros A es. induction es as [|[k v] r IH]; intros acc H; simpl;
    [reflexivity|].
  rewrite entries_set_same by (apply H; now left).
  apply IH. intros k0 v0 Hin. apply H. now right.
Qed.

Lemma spread_same :
  forall (cs : list (string * value)),
    NoDup (List.map fst cs) -> spread (VObj cs) (VObj cs) = VObj cs.
Proof.
  intros cs Hnd. unfold spread. cbn [own_entries]. f_equal.
  rewrite fold_left_app.
  rewrite (assign_all_fresh cs [] Hnd) by (intros k _ H; exact H).
  cbn [app]. apply assign_all_again.
  intros k v Hin. now apply entries_get_In_unique.
Qed.

Lemma sections_NoDup : NoDup sections.
Proof.
  unfold sections. repeat constructor; simpl; intuition discriminate.
Qed.

(** The seven statements of [fromJSON] on a profile and data that are
    objects. *)
Lemma import_sections_spec :
  forall (ss : list string) (dps ps : list (string * value)),
    NoDup ss ->
    exists ps',
      List.fold_left (import_section (VObj dps)) ss (Ok (VObj ps))
      = Ok (VObj ps')
      /\ forall k,
           entries_get ps' k
           = if List.existsb (String.eqb k) ss && truthy (props_get dps k)
             then Some (spread (props_get ps k) (props_get dps k))
             else entries_get ps k.
Proof.
  induction ss as [|s rest IH]; intros dps ps Hnd.
  - exists ps. split; [reflexivity|]. intros k. reflexivity.
  - inversion Hnd as [|? ? Hnot Hnd']; subst.
    cbn [List.fold_left]. unfold import_section at 2.
    cbn [bind get_prop set_prop].
    set (ps1 := if truthy (props_get dps s)
                then props_set ps s (spread (props_get ps s) (props_get dps s))
                else ps).
    assert (Hstep : (if truthy (props_get dps s)
                     then Ok (VObj (props_set ps s
                            (spread (props_get ps s) (props_get dps s))))
                     else Ok (VObj ps)) = Ok (VObj ps1)).
    { subst ps1. now destruct (truthy (props_get dps s)). }
    rewrite Hstep.
    destruct (IH dps ps1 Hnd') as (ps' & Hfold & Hget).
    exists ps'. split; [exact Hfold|].
    intros k. rewrite Hget. cbn [List.existsb].
    assert (H1 : forall k', k' <> s -> entries_get ps1 k' = entries_get ps k').
    { intros k' Hne. subst ps1. destruct (truthy (props_get dps s));
        [|reflexivity].
      unfold props_set. rewrite entries_get_set.
      destruct (String.eqb_spec s k'); [congruence | reflexivity]. }
    destruct (String.eqb_spec k s) as [->|Hne].
    + assert (Hex : List.existsb (String.eqb s) rest = false).
      { destruct (List.existsb (String.eqb s) rest) eqn:E; [|reflexivity].
        apply existsb_exists in E. destruct E as (x & Hin & Hx).
        apply String.eqb_eq in Hx. subst. contradiction. }
      rewrite Hex. cbn [andb orb]. subst ps1.
      destruct (truthy (props_get dps s)); [|reflexivity].
      unfold props_set. rewrite entries_get_set, String.eqb_refl. reflexivity.
    + cbn [orb]. unfold props_get. rewrite (H1 k Hne). reflexivity.
Qed.

Lemma fromJSON_spec :
  forall (dps : list (string * value)) (now : string)
         (ps ms : list (string * value)),
    entries_get ps "metadata" = Some (VObj ms) ->
    exists ps' m,
      fromJSON (VObj dps) now (VObj ps) = Ok (VObj ps')
      /\ entries_get ps' "metadata" = Some (VObj m)
      /\ entries_get m "updatedAt" = Some (VStr now)
      /\ forall k,
           k <> "metadata" ->
           entries_get ps' k
           = if List.existsb (String.eqb k) sections && truthy (props_get dps k)
             then Some (spread (props_get ps k) (props_get dps k))
             else entries_get ps k.
Proof.
  intros dps now ps ms Hm. unfold fromJSON.
  destruct (import_sections_spec sections dps ps sections_NoDup)
    as (ps1 & Hfold & Hget).
  rewrite Hfold. cbn [bind get_prop].
  assert (Hmeta : exists m1, props_get ps1 "metadata" = VObj m1).
  { unfold props_get at 1. rewrite Hget.
    destruct (List.existsb (String.eqb "metadata") sections
              && truthy (props_get dps "metadata")).
    - unfold spread. eauto.
    - rewrite Hm. eauto. }
  destruct Hmeta as [m1 Hm1]. rewrite Hm1. cbn [set_prop bind].
  exists (props_set ps1 "metadata" (VObj (props_set m1 "updatedAt" (VStr now)))),
         (props_set m1 "updatedAt" (VStr now)).
  split; [reflexivity|]. unfold props_set.
  split; [now rewrite entries_get_set, String.eqb_refl|].
  split; [now rewrite entries_get_set, String.eqb_refl|].
  intros k Hne. rewrite entries_get_set.
  destruct (String.eqb_spec "metadata" k); [congruence|]. apply Hget.
Qed.

Lemma toJSON_object :
  forall (ps : list (string * value)),
    toJSON (VObj ps)
    = Ok (VObj (List.map (fun s => (s, props_get ps s)) sections)).
Proof. intros ps. reflexivity. Qed.

Lemma import_same :
  forall (ss : list string) (dps ps : list (string * value)),
    (forall s, In s ss ->
       exists cs, entries_get ps s = Some (VObj cs)
                  /\ props_get dps s = VObj cs
                  /\ NoDup (List.map fst cs)) ->
    List.fold_left (import_section (VObj dps)) ss (Ok (VObj ps))
    = Ok (VObj ps).
Proof.
  induction ss as [|s rest IH]; intros dps ps H; [reflexivity|].
  cbn [List.fold_left]. unfold import_section at 2.
  cbn [bind get_prop set_prop].
  destruct (H s (or_introl eq_refl)) as (cs & Hps & Hd & Hnd).
  rewrite Hd. cbn [truthy]. unfold props_get at 1. rewrite Hps.
  rewrite (spread_same cs Hnd). unfold props_set.
  rewrite (entries_set_same ps s (VObj cs) Hps).
  apply IH. intros s' Hin. apply H. now right.
Qed.

End Exchange.

(** X21: [fromJSON] merges one level deep.  On a profile whose metadata is
    an object, importing an object returns; [metadata.updatedAt] is the
    time of the import; a section the data does not hold stays as it is;
    and in a section both hold as objects, a member the data holds
    replaces the member of the profile (a nested object whole, not member
    by member) and every other member of the profile stays. *)
Theorem fromJSON_merges_one_level :
  forall (dps : list (string * value)) (now : string)
         (ps ms : list (string * value)),
    entries_get ps "metadata" = Some (VObj ms) ->
    exists ps',
      Profile.fromJSON (VObj dps) now (VObj ps) = Ok (VObj ps')
      /\ Profile.member (VObj ps') ["metadata"; "updatedAt"] = Ok (VStr now)
      /\ forall s,
           In s Profile.sections -> s <> "metadata" ->
           (truthy (props_get dps s) = false ->
            entries_get ps' s = entries_get ps s)
           /\ forall cs ds,
                entries_get ps s = Some (VObj cs) ->
                entries_get dps s = Some (VObj ds) ->
                NoDup (List.map fst cs) -> NoDup (List.map fst ds) ->
                exists ns,
                  entries_get ps' s = Some (VObj ns)
                  /\ forall k, entries_get ns k
                               = match entries_get ds k with
                                 | Some v => Some v
                                 | None => entries_get cs k
                                 end.
Proof.
  intros dps now ps ms Hm.
  destruct (fromJSON_spec dps now ps ms Hm) as (ps' & m & Hf & Hpm & Hup & Hget).
  exists ps'. split; [exact Hf|]. split.
  { cbn [Profile.member get_prop bind]. unfold props_get.
    rewrite Hpm. cbn [get_prop]. unfold props_get. now rewrite Hup. }
  intros s Hin Hne. rewrite (Hget s Hne). split.
  - intros Hfalsy. rewrite Hfalsy, Bool.andb_false_r. reflexivity.
  - intros cs ds Hcs Hds Hndc Hndd.
    assert (Hex : List.existsb (String.eqb s) Profile.sections = true).
    { apply existsb_exists. exists s. split; [exact Hin|].
      apply String.eqb_refl. }
    unfold props_get. rewrite Hex, Hcs, Hds. cbn [truthy andb].
    destruct (spread_get cs ds Hndc Hndd) as (ns & Hs & Hns).
    exists ns. rewrite Hs. split; [reflexivity | exact Hns].
Qed.

Lemma fromJSON_merges_one_level_witness :
  exists ps',
    Profile.fromJSON (VObj Samples.email_data) "2025-12-10T09:30:00.000Z"
      (VObj Samples.new_profile_members) = Ok (VObj ps')
    /\ Profile.member (VObj ps') ["metadata"; "updatedAt"]
       = Ok (VStr "2025-12-10T09:30:00.000Z").
Proof.
  destruct (fromJSON_merges_one_level Samples.email_data
              "2025-12-10T09:30:00.000Z" Samples.new_profile_members
              Samples.new_metadata_members eq_refl) as (ps' & H1 & H2 & _).
  exists ps'. split; assumption.
Defined.

(** X22: exporting and importing back.  A profile whose sections are
    objects imports its own export without change, except that
    [metadata.updatedAt] becomes the time of the import. *)
Theorem fromJSON_of_toJSON :
  forall (now : string) (ps ms : list (string * value)),
    (forall s, In s Profile.sections ->
       exists cs, entries_get ps s = Some (VObj cs)
                  /\ NoDup (List.map fst cs)) ->
    entries_get ps "metadata" = Some (VObj ms) ->
    exists data,
      Profile.toJSON (VObj ps) = Ok data
      /\ Profile.fromJSON data now (VObj ps)
         = Ok (VObj (props_set ps "metadata"
                       (VObj (props_set ms "updatedAt" (VStr now))))).
Proof.
  intros now ps ms Hsec Hm. rewrite toJSON_object.
  eexists. split; [reflexivity|]. unfold Profile.fromJSON.
  rewrite import_same.
  - cbn [bind get_prop]. unfold props_get. rewrite Hm. reflexivity.
  - intros s Hin. destruct (Hsec s Hin) as (cs & Hcs & Hnd).
    exists cs. split; [exact Hcs|]. split; [|exact Hnd].
    unfold props_get.
    assert (Hd : entries_get
                   (List.map (fun s0 => (s0, match entries_get ps s0 with
                                             | Some v => v
                                             | None => VUndefined
                                             end)) Profile.sections) s
                 = Some (match entries_get ps s with
                         | Some v => v | None => VUndefined end)).
    { apply entries_get_In_unique.
      - rewrite map_map. cbn [fst]. rewrite map_id.
        exact sections_NoDup.
      - apply in_map_iff. now exists s. }
    rewrite Hd, Hcs. reflexivity.
Qed.

Lemma fromJSON_of_toJSON_witness :
  exists data,
    Profile.toJSON (VObj Samples.new_profile_members) = Ok data
    /\ Profile.fromJSON data "2025-12-10T09:30:00.000Z"
         (VObj Samples.new_profile_members)
       = Ok (VObj (props_set Samples.new_profile_members "metadata"
                     (VObj (props_set Samples.new_metadata_members "updatedAt"
                              (VStr "2025-12-10T09:30:00.000Z"))))).
Proof.
  apply (fromJSON_of_toJSON "2025-12-10T09:30:00.000Z"
           Samples.new_profile_members Samples.new_metadata_members).
  - intros s Hin. simpl in Hin.
    decompose [or] Hin; subst; try contradiction;
      (eexists; split;
       [reflexivity | repeat constructor; simpl; intuition discriminate]).
  - reflexivity.
Defined.

(** X23: an import that holds part of the contact breaks the validation.
    When the data holds a [personalInfo] whose [contact] is an object
    without an [address], the import replaces the contact of the profile by
    it, and [validatePersonalInfo] on the profile then throws a
    [TypeError] where it reads the street, instead of returning a
    result. *)
Theorem partial_contact_import_breaks_validation :
  forall (dps : list (string * value)) (now : string)
         (ps ms cs ds cts : list (string * value)),
    entries_get ps "metadata" = Some (VObj ms) ->
    entries_get ps "personalInfo" = Some (VObj cs) ->
    entries_get dps "personalInfo" = Some (VObj ds) ->
    NoDup (List.map fst cs) -> NoDup (List.map fst ds) ->
    entries_get ds "contact" = Some (VObj cts) ->
    entries_get cts "address" = None ->
    exists this',
      Profile.fromJSON (VObj dps) now (VObj ps) = Ok this'
      /\ Profile.validatePersonalInfo this' = Throw TypeError.
Proof.
  intros dps now ps ms cs ds cts Hm Hcs Hds Hndc Hndd Hct Haddr.
  destruct (fromJSON_spec dps now ps ms Hm) as (ps' & m & Hf & _ & _ & Hget).
  exists (VObj ps'). split; [exact Hf|].
  assert (Hne : "personalInfo" <> "metadata") by discriminate.
  specialize (Hget "personalInfo" Hne).
  unfold props_get in Hget. rewrite Hcs, Hds in Hget.
  change (List.existsb (String.eqb "personalInfo") Profile.sections) with true in Hget.
  cbn [truthy andb] in Hget.
  destruct (spread_get cs ds Hndc Hndd) as (ns & Hs & Hns).
  rewrite Hs in Hget.
  unfold Profile.validatePersonalInfo. cbn [get_prop bind].
  unfold props_get at 1. rewrite Hget.
  assert (Hcontact : props_get ns "contact" = VObj cts).
  { unfold props_get. now rewrite Hns, Hct. }
  assert (Haddress : props_get cts "address" = VUndefined).
  { unfold props_get. now rewrite Haddr. }
  unfold Profile.personal_checks.
  cbn [Profile.require Profile.member get_prop bind].
  rewrite !Hcontact.
  cbn [Profile.require Profile.member get_prop bind].
  rewrite !Haddress. reflexivity.
Qed.

Lemma partial_contact_import_breaks_validation_witness :
  exists this',
    Profile.fromJSON (VObj Samples.email_data) "2025-12-10T09:30:00.000Z"
      (VObj Samples.new_profile_members) = Ok this'
    /\ Profile.validatePersonalInfo this' = Throw TypeError.
Proof.
  apply (partial_contact_import_breaks_validation Samples.email_data
           "2025-12-10T09:30:00.000Z" Samples.new_profile_members
           Samples.new_metadata_members Samples.new_personalInfo_members
           Samples.email_personalInfo Samples.email_contact).
  - reflexivity.
  - reflexivity.
  - reflexivity.
  - repeat constructor; simpl; intuition discriminate.
  - repeat constructor; simpl; intuition discriminate.
  - reflexivity.
  - reflexivity.
Defined.
